(** * HubSpot MCP server: tool registry, dispatcher and transport client

    A shallow embedding of [src/hubspot_mcp/server.py].

    Python dictionaries are mutable objects that the program shares by
    reference (a handler's local [properties] may be the very object the
    caller put under [params["properties"]]), so dictionaries live in a
    store and values refer to them by location.  Every [async def] of the
    source awaits its callee at once, so a coroutine is modelled as the
    sequential computation it runs.  The calls to [logger] write to the
    process log only and are left out. *)

From Stdlib Require Import ZArith String Ascii List Bool Lia DecimalString.
From stdpp Require Import base option list strings.

Set Warnings "-register-all".

Local Open Scope string_scope.
Local Open Scope Z_scope.

(** ** Python values and the object store *)

(** Objects are named by their location in the store. *)
Abbreviation loc := nat.

(** The values an argument map can hold.  Lists are never written to by
    the program and are kept by value; a dictionary is a reference into the
    store.  Numbers are integers: no claim depends on fractions. *)
Inductive value :=
| VNone
| VBool (b : bool)
| VInt (n : Z)
| VStr (s : string)
| VList (xs : list value)
| VDict (l : loc).

(** [key in d] on the entries of a dictionary, which are kept in insertion
    order. *)
Fixpoint dict_has {V} (d : list (string * V)) (k : string) : bool :=
  match d with
  | [] => false
  | (k', _) :: d' => if String.eqb k' k then true else dict_has d' k
  end.

(** [d.get(key)], [None] when the key is missing *)
Fixpoint dict_get {V} (d : list (string * V)) (k : string) : option V :=
  match d with
  | [] => None
  | (k', v) :: d' => if String.eqb k' k then Some v else dict_get d' k
  end.

(** [d[key] = v]: an existing key keeps its place, a new key goes last *)
Fixpoint dict_set {V} (d : list (string * V)) (k : string) (v : V)
  : list (string * V) :=
  match d with
  | [] => [(k, v)]
  | (k', v') :: d' =>
      if String.eqb k' k then (k', v) :: d' else (k', v') :: dict_set d' k v
  end.

Abbreviation dict := (list (string * value)).

(** The store: the dictionary objects allocated so far, by location. *)
Abbreviation store := (list (list (string * value))).

(** JSON documents, as written on the wire. *)
Inductive json :=
| JNull
| JBool (b : bool)
| JInt (n : Z)
| JStr (s : string)
| JArr (xs : list json)
| JObj (fields : list (string * json)).

Fixpoint sequence_opt {A} (xs : list (option A)) : option (list A) :=
  match xs with
  | [] => Some []
  | Some x :: r =>
      match sequence_opt r with Some r' => Some (x :: r') | None => None end
  | None :: _ => None
  end.

(** [json.dumps] reads the store.  Each dictionary that is entered uses one
    unit of [fuel], so the fuel bounds how deep dictionaries nest; a result
    [Some j] is the document that is written, and [None] covers the
    circular structures that [json.dumps] refuses. *)
Fixpoint dumps (fuel : nat) (h : store) : value -> option json :=
  fix go (v : value) : option json :=
    match v with
    | VNone => Some JNull
    | VBool b => Some (JBool b)
    | VInt n => Some (JInt n)
    | VStr s => Some (JStr s)
    | VList xs => option_map JArr (sequence_opt (map go xs))
    | VDict l =>
        match fuel with
        | O => None
        | S fuel' =>
            match h !! l with
            | None => None
            | Some d =>
                option_map JObj
                  (sequence_opt
                     (map (fun kv => option_map (pair (fst kv))
                                       (dumps fuel' h (snd kv))) d))
            end
        end
    end.

(** One unit of fuel for each object of the store. *)
Definition json_dumps (h : store) (v : value) : option json :=
  dumps (length h) h v.

(** ** Exceptions *)

(** What the HTTP library hands back for one request. *)
Record response := {
  status_code : Z;
  reason_phrase : string;
  text : string
}.

(** The classes of [Exception] that the handlers and the client raise. *)
Inductive exn :=
| KeyError (key : string)
| TypeError (msg : string)
| ValueError (msg : string)
| JSONDecodeError (msg : string)
| HTTPStatusError (msg : string) (resp : response)
| TransportError (msg : string).

(** [str(e)].  A [KeyError] prints the [repr] of its key; the keys of this
    program are plain identifiers. *)
Definition exn_str (e : exn) : string :=
  match e with
  | KeyError k => "'" ++ k ++ "'"
  | TypeError m | ValueError m | JSONDecodeError m
  | HTTPStatusError m _ | TransportError m => m
  end.

Inductive res (A : Type) :=
| Ok (a : A)
| Raise (e : exn).
Arguments Ok {A} a.
Arguments Raise {A} e.

(** ** The world outside the module *)

(** The arguments of one [httpx.AsyncClient.request] call, with the default
    headers the client was built with. *)
Record request := {
  req_method : string;
  req_url : string;
  req_params : option loc;
  req_json : option loc;
  req_headers : list (string * string)
}.

Inductive reply :=
| Reply (r : response)
| Failure (msg : string).

Inductive parsed :=
| Parsed (j : json)
| Malformed (msg : string).

(** The program state: the store, and the requests handed to the HTTP
    library so far, each with the store as it was at the call (the library
    serialises its arguments there and then). *)
Record world := {
  objs : store;
  calls : list (request * store)
}.

(** Library code that the module calls and that is not part of it:
    [urllib.parse.urljoin]; the HTTP library together with the network and
    the remote API, which answers a request with a response or raises
    (connection, timeout, DNS, an argument it cannot serialise), possibly
    depending on the earlier requests; the message [raise_for_status] gives
    its [HTTPStatusError]; the JSON parser behind [response.json()]; and
    [str()] of a list or a dictionary. *)
Class External := {
  urljoin : string -> string -> string;
  client_request : list (request * store) -> request -> store -> reply;
  status_error_message : request -> store -> response -> string;
  json_loads : string -> parsed;
  py_repr : store -> value -> string
}.

(** ** Computations: store and request log passed along, exceptions *)

Definition M (A : Type) : Type := world -> world * res A.

Definition ret {A} (a : A) : M A := fun w => (w, Ok a).

Definition bind {A B} (c : M A) (k : A -> M B) : M B :=
  fun w =>
    match c w with
    | (w', Ok a) => k a w'
    | (w', Raise e) => (w', Raise e)
    end.

#[global] Instance M_ret : MRet M := @ret.
#[global] Instance M_bind : MBind M := fun A B k c => bind c k.

Definition raise {A} (e : exn) : M A := fun w => (w, Raise e).

(** [try: body except Exception as e: handler] *)
Definition try_except {A} (body : M A) (handler : exn -> M A) : M A :=
  fun w =>
    match body w with
    | (w', Ok a) => (w', Ok a)
    | (w', Raise e) => handler e w'
    end.

(** A dictionary display [{k1: v1, ...}] makes a new object. *)
Definition new_dict (d : dict) : M loc :=
  fun w => ({| objs := (objs w ++ [d])%list; calls := calls w |},
            Ok (length (objs w))).

(** The entries of the object at a location.  A Python program holds no
    reference to an object that was not made; such a location reads as an
    empty dictionary. *)
Definition entries (h : store) (l : loc) : dict := default [] (h !! l).

Definition read (l : loc) : M dict := fun w => (w, Ok (entries (objs w) l)).

(** [d[key]] *)
Definition subscript (l : loc) (k : string) : M value :=
  d ← read l;
  match dict_get d k with
  | Some v => ret v
  | None => raise (KeyError k)
  end.

(** [d.get(key, dflt)] *)
Definition get_or (l : loc) (k : string) (dflt : value) : M value :=
  d ← read l; ret (default dflt (dict_get d k)).

(** [key in d] *)
Definition contains (k : string) (l : loc) : M bool :=
  d ← read l; ret (dict_has d k).

(** [d[key] = v] on a dictionary object *)
Definition store_item (l : loc) (k : string) (v : value) : M unit :=
  fun w =>
    ({| objs := <[l := dict_set (entries (objs w) l) k v]> (objs w);
        calls := calls w |}, Ok tt).

(** [target[key] = v] where [target] may be any value: only a dictionary
    takes a string key. *)
Definition setitem (target : value) (k : string) (v : value) : M unit :=
  match target with
  | VDict l => store_item l k v
  | VList _ =>
      raise (TypeError "list indices must be integers or slices, not str")
  | VNone =>
      raise (TypeError "'NoneType' object does not support item assignment")
  | VBool _ =>
      raise (TypeError "'bool' object does not support item assignment")
  | VInt _ =>
      raise (TypeError "'int' object does not support item assignment")
  | VStr _ =>
      raise (TypeError "'str' object does not support item assignment")
  end.

(** Truth value of an object in a condition. *)
Definition truthy (v : value) : M bool :=
  match v with
  | VNone => ret false
  | VBool b => ret b
  | VInt n => ret (negb (n =? 0))
  | VStr s => ret (negb (String.eqb s EmptyString))
  | VList xs => ret (negb (Nat.eqb (length xs) 0))
  | VDict l => d ← read l; ret (negb (Nat.eqb (length d) 0))
  end.

(** Truth value of an [Optional[str]] setting. *)
Definition is_set (o : option string) : bool :=
  match o with
  | Some s => negb (String.eqb s EmptyString)
  | None => false
  end.

Definition type_name (v : value) : string :=
  match v with
  | VNone => "NoneType"
  | VBool _ => "bool"
  | VInt _ => "int"
  | VStr _ => "str"
  | VList _ => "list"
  | VDict _ => "dict"
  end.

Definition decimal (n : Z) : string := NilZero.string_of_int (Z.to_int n).

Fixpoint str_join (sep : string) (parts : list string) : string :=
  match parts with
  | [] => EmptyString
  | [p] => p
  | p :: rest => p ++ sep ++ str_join sep rest
  end.

Fixpoint chars (s : string) : list string :=
  match s with
  | EmptyString => []
  | String c s' => String c EmptyString :: chars s'
  end.

(** The items of a sequence handed to [str.join]: each must be a [str]. *)
Fixpoint str_items (i : nat) (xs : list value) : list string + exn :=
  match xs with
  | [] => inl []
  | VStr s :: r =>
      match str_items (S i) r with
      | inl ss => inl (s :: ss)
      | inr e => inr e
      end
  | x :: _ =>
      inr (TypeError ("sequence item " ++ decimal (Z.of_nat i)
                      ++ ": expected str instance, " ++ type_name x
                      ++ " found"))
  end.

(** [",".join(v)]: a list is joined item by item, a string character by
    character, a dictionary by its keys; anything else is not iterable. *)
Definition comma_join (v : value) : M string :=
  match v with
  | VList xs =>
      match str_items 0 xs with
      | inl ss => ret (str_join "," ss)
      | inr e => raise e
      end
  | VStr s => ret (str_join "," (chars s))
  | VDict l => d ← read l; ret (str_join "," (map fst d))
  | _ => raise (TypeError "can only join an iterable")
  end.

(** [str(v)], as an f-string prints a value. *)
Definition py_str {lib : External} (h : store) (v : value) : string :=
  match v with
  | VNone => "None"
  | VBool true => "True"
  | VBool false => "False"
  | VInt n => decimal n
  | VStr s => s
  | VList _ | VDict _ => py_repr h v
  end.

Definition format {lib : External} (v : value) : M string :=
  fun w => (w, Ok (py_str (objs w) v)).

(** The Python object for a parsed JSON document: every JSON object becomes
    a new dictionary; of a repeated key the last value stays. *)
Fixpoint load (j : json) : M value :=
  match j with
  | JNull => ret VNone
  | JBool b => ret (VBool b)
  | JInt n => ret (VInt n)
  | JStr s => ret (VStr s)
  | JArr xs =>
      vs ← (fix items (xs : list json) : M (list value) :=
              match xs with
              | [] => ret []
              | x :: r => v ← load x; vs ← items r; ret (v :: vs)
              end) xs;
      ret (VList vs)
  | JObj fields =>
      d ← (fix pairs (fs : list (string * json)) (acc : dict) : M dict :=
             match fs with
             | [] => ret acc
             | (k, x) :: r => v ← load x; pairs r (dict_set acc k v)
             end) fields [];
      l ← new_dict d;
      ret (VDict l)
  end.

(** ** HubSpotConfig and HubSpotClient *)

Record HubSpotConfig := {
  api_key : option string;
  access_token : option string;
  api_base_url : string
}.

Record HubSpotClient := {
  config : HubSpotConfig;
  base_url : string;
  headers : list (string * string)
}.

Definition _get_headers (config : HubSpotConfig) : list (string * string) :=
  let headers := [("Content-Type", "application/json")] in
  if is_set (access_token config) then
    dict_set headers "Authorization"
      ("Bearer " ++ default EmptyString (access_token config))
  else if is_set (api_key config) then
    dict_set headers "Authorization"
      ("Bearer " ++ default EmptyString (api_key config))
  else headers.

(** [HubSpotClient.__init__]: the headers are computed here and given to
    the HTTP client as its default headers. *)
Definition HubSpotClient_init (config : HubSpotConfig) : HubSpotClient :=
  {| config := config;
     base_url := api_base_url config;
     headers := _get_headers config |}.

Section Client.
Context {lib : External}.

(** [await self.client.request(...)]: the call is recorded and the
    library answers or raises. *)
Definition send (r : request) : M response :=
  fun w =>
    let w' := {| objs := objs w; calls := (calls w ++ [(r, objs w)])%list |} in
    match client_request (calls w) r (objs w) with
    | Reply resp => (w', Ok resp)
    | Failure msg => (w', Raise (TransportError msg))
    end.

(** [response.raise_for_status()] *)
Definition raise_for_status (r : request) (resp : response) : M unit :=
  fun w =>
    if (200 <=? status_code resp) && (status_code resp <=? 299)
    then (w, Ok tt)
    else (w, Raise (HTTPStatusError
                      (status_error_message r (objs w) resp) resp)).

(** [response.json()] *)
Definition response_json (resp : response) : M value :=
  match json_loads (text resp) with
  | Parsed j => load j
  | Malformed msg => raise (JSONDecodeError msg)
  end.

(** [params or {}] *)
Definition or_new_dict (params : option loc) : M loc :=
  match params with
  | None => new_dict []
  | Some l =>
      b ← truthy (VDict l);
      if b : bool then ret l else new_dict []
  end.

(** [HubSpotClient._request].  Both [except] arms log the error and raise
    it again. *)
Definition _request (self : HubSpotClient) (method endpoint : string)
    (params json_data : option loc) : M value :=
  let url := urljoin (base_url self) endpoint in
  params ←
    (if is_set (api_key (config self))
        && negb (is_set (access_token (config self)))
     then
       params ← or_new_dict params;
       store_item params "hapikey"
         (VStr (default EmptyString (api_key (config self))));;
       ret (Some params)
     else ret params);
  try_except
    (let r := {| req_method := method; req_url := url;
                 req_params := params; req_json := json_data;
                 req_headers := headers self |} in
     response ← send r;
     raise_for_status r response;;
     if status_code response =? 204 then
       l ← new_dict [("success", VBool true);
                     ("message", VStr "Operation completed successfully")];
       ret (VDict l)
     else response_json response)
    (fun e =>
       match e with
       | HTTPStatusError _ _ => raise e
       | _ => raise e
       end).

Definition get_contacts (self : HubSpotClient) (limit properties : value)
  : M value :=
  params ← new_dict [("limit", limit)];
  b ← truthy properties;
  (if b : bool then
     s ← comma_join properties;
     store_item params "properties" (VStr s)
   else ret tt);;
  _request self "GET" "/crm/v3/objects/contacts" (Some params) None.

Definition get_contact (self : HubSpotClient) (contact_id : value)
  : M value :=
  id ← format contact_id;
  _request self "GET" ("/crm/v3/objects/contacts/" ++ id) None None.

Definition create_contact (self : HubSpotClient) (properties : value)
  : M value :=
  json_data ← new_dict [("properties", properties)];
  _request self "POST" "/crm/v3/objects/contacts" None (Some json_data).

Definition update_contact (self : HubSpotClient)
    (contact_id properties : value) : M value :=
  id ← format contact_id;
  json_data ← new_dict [("properties", properties)];
  _request self "PATCH" ("/crm/v3/objects/contacts/" ++ id) None
    (Some json_data).

Definition delete_contact (self : HubSpotClient) (contact_id : value)
  : M value :=
  id ← format contact_id;
  _request self "DELETE" ("/crm/v3/objects/contacts/" ++ id) None None.

Definition get_companies (self : HubSpotClient) (limit properties : value)
  : M value :=
  params ← new_dict [("limit", limit)];
  b ← truthy properties;
  (if b : bool then
     s ← comma_join properties;
     store_item params "properties" (VStr s)
   else ret tt);;
  _request self "GET" "/crm/v3/objects/companies" (Some params) None.

Definition get_company (self : HubSpotClient) (company_id : value)
  : M value :=
  id ← format company_id;
  _request self "GET" ("/crm/v3/objects/companies/" ++ id) None None.

Definition create_company (self : HubSpotClient) (properties : value)
  : M value :=
  json_data ← new_dict [("properties", properties)];
  _request self "POST" "/crm/v3/objects/companies" None (Some json_data).

Definition update_company (self : HubSpotClient)
    (company_id properties : value) : M value :=
  id ← format company_id;
  json_data ← new_dict [("properties", properties)];
  _request self "PATCH" ("/crm/v3/objects/companies/" ++ id) None
    (Some json_data).

Definition get_deals (self : HubSpotClient) (limit properties : value)
  : M value :=
  params ← new_dict [("limit", limit)];
  b ← truthy properties;
  (if b : bool then
     s ← comma_join properties;
     store_item params "properties" (VStr s)
   else ret tt);;
  _request self "GET" "/crm/v3/objects/deals" (Some params) None.

Definition get_deal (self : HubSpotClient) (deal_id : value) : M value :=
  id ← format deal_id;
  _request self "GET" ("/crm/v3/objects/deals/" ++ id) None None.

Definition create_deal (self : HubSpotClient) (properties : value)
  : M value :=
  json_data ← new_dict [("properties", properties)];
  _request self "POST" "/crm/v3/objects/deals" None (Some json_data).

Definition search (self : HubSpotClient) (object_type filters limit : value)
  : M value :=
  group ← new_dict [("filters", filters)];
  json_data ← new_dict [("filterGroups", VList [VDict group]);
                        ("limit", limit)];
  ot ← format object_type;
  _request self "POST" ("/crm/v3/objects/" ++ ot ++ "/search") None
    (Some json_data).

End Client.

(** ** MCPServer: the tool registry *)

(** One registry entry.  [parameters] is the JSON-Schema-like description
    of the arguments; [handler] is the bound method. *)
Record tool := {
  description : string;
  parameters : json;
  handler : loc -> M value
}.

Record MCPServer := {
  server_config : HubSpotConfig;
  client : HubSpotClient
}.

(** [MCPServer.__init__], with the settings that [HubSpotConfig()] read
    from the environment. *)
Definition MCPServer_init (config : HubSpotConfig) : MCPServer :=
  {| server_config := config; client := HubSpotClient_init config |}.

Definition string_prop (descr : string) : json :=
  JObj [("type", JStr "string"); ("description", JStr descr)].

Definition object_prop (descr : string) : json :=
  JObj [("type", JStr "object"); ("description", JStr descr)].

Definition limit_prop (descr : string) : json :=
  JObj [("type", JStr "integer"); ("description", JStr descr);
        ("default", JInt 100)].

Definition list_contacts_parameters : json :=
  JObj [("type", JStr "object");
        ("properties", JObj [
           ("limit", limit_prop "Maximum number of contacts to retrieve");
           ("properties", JObj [
              ("type", JStr "array");
              ("items", JObj [("type", JStr "string")]);
              ("description",
               JStr "List of properties to retrieve for each contact")])])].

Definition get_contact_parameters : json :=
  JObj [("type", JStr "object");
        ("properties", JObj [
           ("contact_id", string_prop "The ID of the contact to retrieve")]);
        ("required", JArr [JStr "contact_id"])].

Definition create_contact_parameters : json :=
  JObj [("type", JStr "object");
        ("properties", JObj [
           ("email", string_prop "Email address of the contact");
           ("firstname", string_prop "First name of the contact");
           ("lastname", string_prop "Last name of the contact");
           ("properties",
            object_prop "Additional properties for the contact")]);
        ("required", JArr [JStr "email"])].

Definition update_contact_parameters : json :=
  JObj [("type", JStr "object");
        ("properties", JObj [
           ("contact_id", string_prop "The ID of the contact to update");
           ("properties", object_prop "Properties to update")]);
        ("required", JArr [JStr "contact_id"; JStr "properties"])].

Definition list_companies_parameters : json :=
  JObj [("type", JStr "object");
        ("properties", JObj [
           ("limit", limit_prop "Maximum number of companies to retrieve")])].

Definition get_company_parameters : json :=
  JObj [("type", JStr "object");
        ("properties", JObj [
           ("company_id", string_prop "The ID of the company to retrieve")]);
        ("required", JArr [JStr "company_id"])].

Definition create_company_parameters : json :=
  JObj [("type", JStr "object");
        ("properties", JObj [
           ("name", string_prop "Name of the company");
           ("properties",
            object_prop "Additional properties for the company")]);
        ("required", JArr [JStr "name"])].

Definition list_deals_parameters : json :=
  JObj [("type", JStr "object");
        ("properties", JObj [
           ("limit", limit_prop "Maximum number of deals to retrieve")])].

Definition search_parameters : json :=
  JObj [("type", JStr "object");
        ("properties", JObj [
           ("object_type", JObj [
              ("type", JStr "string");
              ("description",
               JStr "Type of object to search (contacts, companies, deals)");
              ("enum",
               JArr [JStr "contacts"; JStr "companies"; JStr "deals"])]);
           ("property", string_prop "Property to search on");
           ("value", string_prop "Value to search for");
           ("operator", JObj [
              ("type", JStr "string");
              ("description", JStr "Search operator");
              ("default", JStr "EQ");
              ("enum", JArr [JStr "EQ"; JStr "NEQ"; JStr "LT"; JStr "LTE";
                             JStr "GT"; JStr "GTE"; JStr "CONTAINS"])])]);
        ("required", JArr [JStr "object_type"; JStr "property"; JStr "value"])].

Section Server.
Context {lib : External}.

Definition _handle_list_contacts (self : MCPServer) (params : loc)
  : M value :=
  limit ← get_or params "limit" (VInt 100);
  properties ← get_or params "properties" VNone;
  get_contacts (client self) limit properties.

Definition _handle_get_contact (self : MCPServer) (params : loc)
  : M value :=
  contact_id ← subscript params "contact_id";
  get_contact (client self) contact_id.

Definition _handle_create_contact (self : MCPServer) (params : loc)
  : M value :=
  fresh ← new_dict [];
  properties ← get_or params "properties" (VDict fresh);
  b ← contains "email" params;
  (if b : bool then
     v ← subscript params "email"; setitem properties "email" v
   else ret tt);;
  b ← contains "firstname" params;
  (if b : bool then
     v ← subscript params "firstname"; setitem properties "firstname" v
   else ret tt);;
  b ← contains "lastname" params;
  (if b : bool then
     v ← subscript params "lastname"; setitem properties "lastname" v
   else ret tt);;
  create_contact (client self) properties.

Definition _handle_update_contact (self : MCPServer) (params : loc)
  : M value :=
  contact_id ← subscript params "contact_id";
  properties ← subscript params "properties";
  update_contact (client self) contact_id properties.

Definition _handle_list_companies (self : MCPServer) (params : loc)
  : M value :=
  limit ← get_or params "limit" (VInt 100);
  get_companies (client self) limit VNone.

Definition _handle_get_company (self : MCPServer) (params : loc)
  : M value :=
  company_id ← subscript params "company_id";
  get_company (client self) company_id.

Definition _handle_create_company (self : MCPServer) (params : loc)
  : M value :=
  fresh ← new_dict [];
  properties ← get_or params "properties" (VDict fresh);
  b ← contains "name" params;
  (if b : bool then
     v ← subscript params "name"; setitem properties "name" v
   else ret tt);;
  create_company (client self) properties.

Definition _handle_list_deals (self : MCPServer) (params : loc)
  : M value :=
  limit ← get_or params "limit" (VInt 100);
  get_deals (client self) limit VNone.

Definition _handle_search (self : MCPServer) (params : loc) : M value :=
  object_type ← subscript params "object_type";
  property ← subscript params "property";
  operator ← get_or params "operator" (VStr "EQ");
  value ← subscript params "value";
  filter ← new_dict [("propertyName", property);
                     ("operator", operator);
                     ("value", value)];
  let filters := VList [VDict filter] in
  limit ← get_or params "limit" (VInt 100);
  search (client self) object_type filters limit.

Definition _register_tools (self : MCPServer) : list (string * tool) :=
  [ ("list_contacts",
     {| description := "List contacts from HubSpot CRM";
        parameters := list_contacts_parameters;
        handler := _handle_list_contacts self |});
    ("get_contact",
     {| description := "Get a specific contact by ID";
        parameters := get_contact_parameters;
        handler := _handle_get_contact self |});
    ("create_contact",
     {| description := "Create a new contact in HubSpot";
        parameters := create_contact_parameters;
        handler := _handle_create_contact self |});
    ("update_contact",
     {| description := "Update an existing contact";
        parameters := update_contact_parameters;
        handler := _handle_update_contact self |});
    ("list_companies",
     {| description := "List companies from HubSpot CRM";
        parameters := list_companies_parameters;
        handler := _handle_list_companies self |});
    ("get_company",
     {| description := "Get a specific company by ID";
        parameters := get_company_parameters;
        handler := _handle_get_company self |});
    ("create_company",
     {| description := "Create a new company in HubSpot";
        parameters := create_company_parameters;
        handler := _handle_create_company self |});
    ("list_deals",
     {| description := "List deals from HubSpot CRM";
        parameters := list_deals_parameters;
        handler := _handle_list_deals self |});
    ("search",
     {| description := "Search for objects in HubSpot CRM";
        parameters := search_parameters;
        handler := _handle_search self |}) ].

(** [self.tools]: set once by [__init__] to [self._register_tools()] and
    never written again. *)
Definition tools (self : MCPServer) : list (string * tool) :=
  _register_tools self.

Definition handle_tool_call (self : MCPServer) (tool_name : string)
    (params : loc) : M value :=
  if negb (dict_has (tools self) tool_name) then
    raise (ValueError ("Unknown tool: " ++ tool_name))
  else
    match dict_get (tools self) tool_name with
    | None => raise (KeyError tool_name)
    | Some tool =>
        try_except
          (result ← handler tool params;
           l ← new_dict [("success", VBool true); ("result", result)];
           ret (VDict l))
          (fun e =>
             l ← new_dict [("success", VBool false);
                           ("error", VStr (exn_str e))];
             ret (VDict l))
    end.

End Server.

(** ** Observations used in the statements *)

Definition schema_field (parameters : json) (k : string) : option json :=
  match parameters with
  | JObj fields => dict_get fields k
  | _ => None
  end.

Fixpoint json_strings (xs : list json) : list string :=
  match xs with
  | [] => []
  | JStr s :: r => s :: json_strings r
  | _ :: r => json_strings r
  end.

(** [parameters["required"]]; a schema without the key requires nothing. *)
Definition required (parameters : json) : list string :=
  match schema_field parameters "required" with
  | Some (JArr xs) => json_strings xs
  | _ => []
  end.

(** The argument names a schema declares under ["properties"]. *)
Definition declared (parameters : json) : list string :=
  match schema_field parameters "properties" with
  | Some (JObj fields) => map fst fields
  | _ => []
  end.

(** A handler dereferences [k] without a default when it cannot do without
    it: on every argument map that lacks [k] it stops with a [KeyError]. *)
Definition needs_key (h : loc -> M value) (k : string) : Prop :=
  forall (w : world) (params : loc),
    dict_has (entries (objs w) params) k = false ->
    exists w' k', h params w = (w', Raise (KeyError k')).

(** The two shapes of the dispatcher's result, read in the store. *)
Definition success_envelope (h : store) (v result : value) : Prop :=
  exists l, v = VDict l /\
            h !! l = Some [("success", VBool true); ("result", result)].

Definition failure_envelope (h : store) (v : value) (msg : string) : Prop :=
  exists l, v = VDict l /\
            h !! l = Some [("success", VBool false); ("error", VStr msg)].

(** The dictionary [_request] returns for a 204 answer. *)
Definition completed : dict :=
  [("success", VBool true);
   ("message", VStr "Operation completed successfully")].

(** The request a run added to the log, if it added exactly one. *)
Definition sent_by (w w' : world) (r : request) (h : store) : Prop :=
  calls w' = (calls w ++ [(r, h)])%list.

(** The JSON text of the body of a logged request. *)
Definition body_of (r : request) (h : store) : option json :=
  match req_json r with
  | Some l => json_dumps h (VDict l)
  | None => None
  end.

(** [s] occurs in [t]. *)
Fixpoint occurs_in (s t : string) : bool :=
  if String.prefix s t then true
  else match t with
       | EmptyString => false
       | String _ t' => occurs_in s t'
       end.

(** What the shorthand fields of a [create_contact] argument map make of a
    [properties] dictionary. *)
Definition put_if_given (params : dict) (k : string) (d : dict) : dict :=
  match dict_get params k with
  | Some v => dict_set d k v
  | None => d
  end.

Definition with_shorthand (params d : dict) : dict :=
  put_if_given params "lastname"
    (put_if_given params "firstname" (put_if_given params "email" d)).

(** The filter [_handle_search] builds from an argument map. *)
Definition search_filter (d : dict) (property value : value) : dict :=
  [("propertyName", property);
   ("operator", default (VStr "EQ") (dict_get d "operator"));
   ("value", value)].

(** The query parameters and the store that [_request] hands to the
    library: its first statement, in closed form. *)
Definition with_api_key (self : HubSpotClient) (params : option loc)
    (h : store) : option loc * store :=
  if is_set (api_key (config self))
     && negb (is_set (access_token (config self)))
  then
    let key := VStr (default EmptyString (api_key (config self))) in
    match params with
    | Some l =>
        if negb (Nat.eqb (length (entries h l)) 0)
        then (Some l, <[l := dict_set (entries h l) "hapikey" key]> h)
        else (Some (length h), (h ++ [[("hapikey", key)]])%list)
    | None => (Some (length h), (h ++ [[("hapikey", key)]])%list)
    end
  else (params, h).

(** The request [_request] sends, and the store at that moment. *)
Definition outgoing {lib : External} (self : HubSpotClient)
    (method endpoint : string) (params json_data : option loc) (h : store)
  : request * store :=
  ({| req_method := method;
      req_url := urljoin (base_url self) endpoint;
      req_params := fst (with_api_key self params h);
      req_json := json_data;
      req_headers := headers self |},
   snd (with_api_key self params h)).

(** What a reply of the library makes of the run that sent the request. *)
Definition answered {lib : External} (a : reply) (r : request) (h : store)
    (w' : world) (res : res value) : Prop :=
  match a with
  | Failure msg => res = Raise (TransportError msg)
  | Reply resp =>
      if (200 <=? status_code resp) && (status_code resp <=? 299) then
        if status_code resp =? 204 then
          exists l, res = Ok (VDict l) /\ objs w' !! l = Some completed
        else
          match json_loads (text resp) with
          | Parsed _ => exists v, res = Ok v
          | Malformed msg => res = Raise (JSONDecodeError msg)
          end
      else res = Raise (HTTPStatusError (status_error_message r h resp) resp)
  end.

(** The exceptions raised by the handlers' own statements. *)
Definition local_error (e : exn) : Prop :=
  match e with
  | KeyError _ | TypeError _ => True
  | _ => False
  end.

(** A computation that sends nothing and fails, if at all, with an error of
    its own. *)
Definition quiet {A} (c : M A) : Prop :=
  forall w, calls (fst (c w)) = calls w /\
            match snd (c w) with
            | Ok _ => True
            | Raise e => local_error e
            end.

(** A handler either stops before anything is sent, with an error of its
    own, or ends in one call of [_request]. *)
Definition one_request {lib : External} (self : MCPServer) (c : M value)
  : Prop :=
  forall w,
    (exists w1 e, c w = (w1, Raise e) /\ calls w1 = calls w /\
                  local_error e) \/
    (exists w0 m ep p j,
        calls w0 = calls w /\
        c w = _request (client self) m ep p j w0).

(** The value of the Authorization header for a credential. *)
Definition bearer (credential : option string) : string :=
  "Bearer " ++ default EmptyString credential.

(** [client.config = now] after the client was built. *)
Definition reconfigured (self : HubSpotClient) (now : HubSpotConfig)
  : HubSpotClient :=
  {| config := now; base_url := base_url self; headers := headers self |}.

(** ** Tool discovery *)

Section Discovery.
Context {lib : External}.


End Discovery.

(** ** Observations used for the further properties *)


(** The first of [keys], in their order, that a dictionary lacks. *)
Fixpoint first_missing (keys : list string) (d : dict) : option string :=
  match keys with
  | [] => None
  | k :: rest => if dict_has d k then first_missing rest d else Some k
  end.

(** The text of the [TypeError] for [v[key] = x] with a string key. *)
Definition assignment_error (v : value) : string :=
  match v with
  | VList _ => "list indices must be integers or slices, not str"
  | _ => "'" ++ type_name v ++ "' object does not support item assignment"
  end.

(** No key occurs twice in the list. *)
Fixpoint distinct_keys (keys : list string) : bool :=
  match keys with
  | [] => true
  | k :: rest => negb (existsb (String.eqb k) rest) && distinct_keys rest
  end.

(** No object of the document has a key twice. *)
Fixpoint unique_keys (j : json) : bool :=
  match j with
  | JArr xs => forallb unique_keys xs
  | JObj fields =>
      distinct_keys (map fst fields)
      && (fix all (fs : list (string * json)) : bool :=
            match fs with
            | [] => true
            | (_, x) :: r => unique_keys x && all r
            end) fields
  | _ => true
  end.

(** A computation that leaves the first [n] objects of the store as they
    are, and whose value, when it returns one, satisfies [P]. *)
Definition keeps (n : nat) {A} (P : A -> Prop) (c : M A) : Prop :=
  forall w,
    (n <= length (objs w))%nat ->
    (n <= length (objs (fst (c w))))%nat /\
    (forall l, (l < n)%nat -> objs (fst (c w)) !! l = objs w !! l) /\
    match snd (c w) with
    | Ok a => P a
    | Raise _ => True
    end.

(** The query parameters behind an optional reference. *)
Definition query_of (params : option loc) (h : store) : dict :=
  match params with
  | Some l => entries h l
  | None => []
  end.

(** What one run of a client operation sent: method, URL, and the store
    the library saw. *)
Definition sends {lib : External} (c : M value) (w : world)
    (method url : string) (Q : request -> store -> Prop) : Prop :=
  exists w' res r h,
    c w = (w', res) /\ sent_by w w' r h /\
    req_method r = method /\ req_url r = url /\ Q r h.

(** A client operation on one object: the method, and the path with the
    identifier after [prefix]; no body, no query parameter of its own.
    The caller's objects are as they were when the request is sent, and
    as they were when the operation has ended. *)
Definition by_id_route {lib : External}
    (op : HubSpotClient -> value -> M value) (method prefix : string)
  : Prop :=
  forall self id w,
    sends (op self id) w method
      (urljoin (base_url self) (prefix ++ py_str (objs w) id))
      (fun r h =>
         req_json r = None /\
         (forall k, k <> "hapikey" ->
                    dict_get (query_of (req_params r) h) k = None) /\
         (forall l, (l < length (objs w))%nat -> h !! l = objs w !! l)) /\
    (forall l, (l < length (objs w))%nat ->
               objs (fst (op self id w)) !! l = objs w !! l).

(** The body of a create or update operation: the properties under the
    one key properties. *)
Definition properties_body (properties : json) : json :=
  JObj [("properties", properties)].

(** A create operation: a POST to [path] with that body and no query
    parameter of its own.  The caller's objects are as they were when the
    request is sent, and as they were when the operation has ended. *)
Definition create_route {lib : External}
    (op : HubSpotClient -> value -> M value) (path : string) : Prop :=
  forall self properties w jp,
    json_dumps (objs w) properties = Some jp ->
    sends (op self properties) w "POST" (urljoin (base_url self) path)
      (fun r h =>
         body_of r h = Some (properties_body jp) /\
         (forall k, k <> "hapikey" ->
                    dict_get (query_of (req_params r) h) k = None) /\
         (forall l, (l < length (objs w))%nat -> h !! l = objs w !! l)) /\
    (forall l, (l < length (objs w))%nat ->
               objs (fst (op self properties w)) !! l = objs w !! l).

Definition update_route {lib : External}
    (op : HubSpotClient -> value -> value -> M value) (prefix : string)
  : Prop :=
  forall self id properties w jp,
    json_dumps (objs w) properties = Some jp ->
    sends (op self id properties) w "PATCH"
      (urljoin (base_url self) (prefix ++ py_str (objs w) id))
      (fun r h =>
         body_of r h = Some (properties_body jp) /\
         (forall k, k <> "hapikey" ->
                    dict_get (query_of (req_params r) h) k = None) /\
         (forall l, (l < length (objs w))%nat -> h !! l = objs w !! l)).

(** The [properties] query parameter for a list of property names. *)
Definition joined_names (names : list string) : option value :=
  match names with
  | [] => None
  | _ => Some (VStr (str_join "," names))
  end.

(** A list operation, called with no properties ([names] empty) or with a
    list of names: a GET with the limit, the names joined by commas when
    there are any, and nothing else but the API key. *)
Definition list_route {lib : External}
    (op : HubSpotClient -> value -> value -> M value) (path : string)
  : Prop :=
  forall self limit properties names w,
    properties = VNone /\ names = [] \/ properties = VList (map VStr names) ->
    sends (op self limit properties) w "GET"
      (urljoin (base_url self) path)
      (fun r h =>
         req_json r = None /\
         dict_get (query_of (req_params r) h) "limit" = Some limit /\
         dict_get (query_of (req_params r) h) "properties"
         = joined_names names /\
         (forall k, k <> "limit" -> k <> "properties" -> k <> "hapikey" ->
                    dict_get (query_of (req_params r) h) k = None) /\
         (forall l, (l < length (objs w))%nat -> h !! l = objs w !! l)).

(** What a call of the dispatcher sent. *)
Definition tool_sends {lib : External} (self : MCPServer) (name : string)
    (params : loc) (w : world) (method url : string)
    (Q : request -> store -> Prop) : Prop :=
  exists r h,
    sent_by w (fst (handle_tool_call self name params w)) r h /\
    req_method r = method /\ req_url r = url /\ Q r h.

(** The query of a list tool: the limit, the joined names if any, and
    nothing else of its own. *)
Definition list_tool_query (limit : value) (names : list string)
    (r : request) (h : store) : Prop :=
  dict_get (query_of (req_params r) h) "limit" = Some limit /\
  dict_get (query_of (req_params r) h) "properties" = joined_names names /\
  (forall k, k <> "limit" -> k <> "properties" -> k <> "hapikey" ->
             dict_get (query_of (req_params r) h) k = None).

(** The query dictionary of a list operation. *)
Definition list_query (limit : value) (names : list string) : dict :=
  ("limit", limit) ::
  match joined_names names with
  | Some v => [("properties", v)]
  | None => []
  end.

(** ** A concrete outside world for the examples *)

Module Scenario.

Definition newline : string := String (ascii_of_nat 10) EmptyString.

(** The message of [httpx.Response.raise_for_status], for a request
    without query parameters: the library prints the URL of the request,
    which then is [req_url] as it stands. *)
Definition httpx_message (r : request) (h : store) (resp : response)
  : string :=
  let class := status_code resp / 100 in
  (if class =? 1 then "Informational response"
   else if class =? 3 then "Redirect response"
   else if class =? 4 then "Client error"
   else if class =? 5 then "Server error"
   else "Invalid status code")
  ++ " '" ++ decimal (status_code resp) ++ " " ++ reason_phrase resp
  ++ "' for url '" ++ req_url r ++ "'" ++ newline
  ++ "For more information check: "
  ++ "https://developer.mozilla.org/en-US/docs/Web/HTTP/Status/"
  ++ decimal (status_code resp).

(** A remote API that gives the same answer to every request.  The base
    URL has no path and the endpoints are absolute paths without dot
    segments, so [urljoin] appends; the only body the parser is shown is
    the empty object. *)
Definition answering (a : reply) : External :=
  {| urljoin := fun base endpoint => base ++ endpoint;
     client_request := fun _ _ _ => a;
     status_error_message := httpx_message;
     json_loads := fun t =>
       if String.eqb t "{}" then Parsed (JObj [])
       else Malformed "Expecting value: line 1 column 1 (char 0)";
     py_repr := fun _ _ => "{...}" |}.

Definition answer (status : Z) (reason body : string) : reply :=
  Reply {| status_code := status; reason_phrase := reason; text := body |}.

Definition with_token : HubSpotConfig :=
  {| api_key := None; access_token := Some "test_token";
     api_base_url := "https://api.hubapi.com" |}.

Definition with_key : HubSpotConfig :=
  {| api_key := Some "test_key"; access_token := None;
     api_base_url := "https://api.hubapi.com" |}.

Definition with_both : HubSpotConfig :=
  {| api_key := Some "test_key"; access_token := Some "test_token";
     api_base_url := "https://api.hubapi.com" |}.

(** A store that holds one argument map, at location 0. *)
Definition holding (params : dict) : world :=
  {| objs := [params]; calls := [] |}.

(** An argument map at location 0 whose [properties] is the object at
    location 1. *)
Definition holding2 (params properties : dict) : world :=
  {| objs := [params; properties]; calls := [] |}.

Definition ok : External := answering (answer 200 "OK" "{}").

Definition no_content : External :=
  answering (answer 204 "No Content" EmptyString).

Definition server_error : External :=
  answering (answer 500 "Internal Server Error" "boom").

Definition server : MCPServer := MCPServer_init with_token.

(** The registry entry of get_contact on that server. *)
Definition get_contact_tool : tool :=
  {| description := "Get a specific contact by ID";
     parameters := get_contact_parameters;
     handler := _handle_get_contact (lib := ok) server |}.

Definition contact_123 : dict := [("contact_id", VStr "123")].

Definition email_and_firstname : dict :=
  [("email", VStr "a@b.com"); ("firstname", VStr "X")].

Definition email_and_properties : dict :=
  [("email", VStr "a@b.com"); ("properties", VDict 1%nat)].

Definition old_email_and_lastname : dict :=
  [("email", VStr "old@b.com"); ("lastname", VStr "Y")].

Definition search_by_email : dict :=
  [("object_type", VStr "contacts"); ("property", VStr "email");
   ("value", VStr "a@b.com"); ("limit", VInt 10)].

(** A remote API that cannot be reached. *)
Definition unreachable : External :=
  answering (Failure "All connection attempts failed").

(** A remote API that answers 200 with a page that is not JSON. *)
Definition not_json : External := answering (answer 200 "OK" "<html>").

Definition quoted (s : string) : string :=
  String (ascii_of_nat 34) s ++ String (ascii_of_nat 34) EmptyString.

(** The text of the object with the one entry id: 123. *)
Definition contact_text : string :=
  "{" ++ quoted "id" ++ ": " ++ quoted "123" ++ "}".

Definition contact_document : json := JObj [("id", JStr "123")].

(** A remote API that answers every request with that contact. *)
Definition found : External :=
  {| urljoin := fun base endpoint => base ++ endpoint;
     client_request := fun _ _ _ => answer 200 "OK" contact_text;
     status_error_message := httpx_message;
     json_loads := fun t =>
       if String.eqb t contact_text then Parsed contact_document
       else Malformed "Expecting value: line 1 column 1 (char 0)";
     py_repr := fun _ _ => "{...}" |}.

(** The registry entry of update_contact on the server. *)
Definition update_contact_tool : tool :=
  {| description := "Update an existing contact";
     parameters := update_contact_parameters;
     handler := _handle_update_contact (lib := ok) server |}.

Definition two_names : dict :=
  [("properties", VList [VStr "email"; VStr "firstname"])].

Definition name_only : dict := [("name", VStr "Acme")].

Definition name_and_properties : dict :=
  [("name", VStr "Acme"); ("properties", VDict 1%nat)].

Definition old_name_and_domain : dict :=
  [("name", VStr "Old"); ("domain", VStr "acme.com")].

Definition email_and_text : dict :=
  [("email", VStr "a@b.com"); ("properties", VStr "oops")].

Definition text_only : dict := [("properties", VStr "oops")].

Definition id_and_properties : dict :=
  [("contact_id", VInt 123); ("properties", VDict 1%nat)].

Definition new_email : dict := [("email", VStr "a@b.com")].

Definition names_as_text : dict := [("properties", VStr "email")].

Definition names_with_number : dict :=
  [("properties", VList [VStr "email"; VInt 5])].

Definition deal : dict := [("dealname", VStr "Big")].

(** The request of get_contact for contact 123 on the server. *)
Definition get_contact_123 : request :=
  {| req_method := "GET";
     req_url := "https://api.hubapi.com/crm/v3/objects/contacts/123";
     req_params := None; req_json := None;
     req_headers := [("Content-Type", "application/json");
                     ("Authorization", "Bearer test_token")] |}.

End Scenario.

(** * Proofs *)

(** ** Dictionaries *)

Lemma dict_has_get {V} (d : list (string * V)) k :
  dict_has d k = false <-> dict_get d k = None.
Proof.
  induction d as [|[k' v] d IH]; simpl; [tauto|].
  destruct (String.eqb k' k); [split; discriminate | exact IH].
Qed.

Lemma dict_has_get_some {V} (d : list (string * V)) k :
  dict_has d k = true <-> exists v, dict_get d k = Some v.
Proof.
  induction d as [|[k' v] d IH]; simpl.
  - split; [discriminate | intros [v Hv]; discriminate].
  - destruct (String.eqb k' k); [split; eauto | exact IH].
Qed.

Lemma dict_get_set_eq {V} (d : list (string * V)) k v :
  dict_get (dict_set d k v) k = Some v.
Proof.
  induction d as [|[k' v'] d IH]; simpl.
  - now rewrite String.eqb_refl.
  - destruct (String.eqb k' k) eqn:E; simpl; now rewrite E.
Qed.

(** ** Serialisation *)

Lemma value_ind_list (P : value -> Prop) :
  P VNone -> (forall b, P (VBool b)) -> (forall n, P (VInt n)) ->
  (forall s, P (VStr s)) ->
  (forall xs, Forall P xs -> P (VList xs)) ->
  (forall l, P (VDict l)) ->
  forall v, P v.
Proof.
  intros HN HB HI HS HL HD.
  fix IH 1. intros [| b | n | s | xs | l].
  - exact HN.
  - apply HB.
  - apply HI.
  - apply HS.
  - apply HL.
    induction xs as [|x xs IHxs]; constructor; [apply IH | exact IHxs].
  - apply HD.
Qed.

Lemma dumps_list n h xs :
  dumps n h (VList xs) = option_map JArr (sequence_opt (map (dumps n h) xs)).
Proof. destruct n; reflexivity. Qed.

Lemma dumps_dict n h l :
  dumps (S n) h (VDict l) =
  match h !! l with
  | None => None
  | Some d =>
      option_map JObj
        (sequence_opt
           (map (fun kv => option_map (pair (fst kv)) (dumps n h (snd kv))) d))
  end.
Proof. reflexivity. Qed.

Lemma sequence_opt_map_impl {A B} (f g : A -> option B) xs ys :
  Forall (fun x => forall y, f x = Some y -> g x = Some y) xs ->
  sequence_opt (map f xs) = Some ys -> sequence_opt (map g xs) = Some ys.
Proof.
  intros HF. revert ys.
  induction HF as [|x xs Hx _ IH]; intros ys; simpl; [auto|].
  destruct (f x) as [y|] eqn:Ef; [|discriminate].
  rewrite (Hx _ eq_refl).
  destruct (sequence_opt (map f xs)) as [r|]; [|discriminate].
  now rewrite (IH _ eq_refl).
Qed.

Lemma dumps_transfer n m (h h' : store) :
  (n <= m)%nat ->
  (forall l d, h !! l = Some d -> h' !! l = Some d) ->
  forall v j, dumps n h v = Some j -> dumps m h' v = Some j.
Proof.
  intros Hle Hsub. revert m Hle.
  induction n as [|n IHn]; intros m Hle v; induction v using value_ind_list;
    intros j Hj; try (destruct m; exact Hj).
  - rewrite dumps_list in Hj. rewrite dumps_list.
    destruct (sequence_opt (map (dumps 0 h) xs)) as [js|] eqn:E;
      [|discriminate].
    now rewrite (sequence_opt_map_impl _ _ _ _ H E).
  - discriminate.
  - rewrite dumps_list in Hj. rewrite dumps_list.
    destruct (sequence_opt (map (dumps (S n) h) xs)) as [js|] eqn:E;
      [|discriminate].
    now rewrite (sequence_opt_map_impl _ _ _ _ H E).
  - destruct m as [|m]; [lia|].
    rewrite dumps_dict in Hj. rewrite dumps_dict.
    destruct (h !! l) as [d|] eqn:El; [|discriminate].
    rewrite (Hsub _ _ El).
    match type of Hj with
    | option_map _ ?s = _ => destruct s as [fs|] eqn:E; [|discriminate]
    end.
    erewrite sequence_opt_map_impl; [exact Hj | | exact E].
    apply Forall_forall. intros [k x] _ y. simpl.
    destruct (dumps n h x) as [jx|] eqn:Ex; [|discriminate].
    intros Hy. rewrite (IHn m ltac:(lia) x jx Ex). exact Hy.
Qed.

Lemma json_dumps_app (h ext : store) v j :
  json_dumps h v = Some j -> json_dumps (h ++ ext)%list v = Some j.
Proof.
  unfold json_dumps. apply dumps_transfer.
  - rewrite length_app. lia.
  - intros l d Hl. now apply lookup_app_l_Some.
Qed.

(** ** Running computations *)

Ltac mrun :=
  repeat (progress (unfold mbind, M_bind, mret, M_ret, bind, ret, raise,
                      try_except, new_dict, read, subscript, get_or, contains,
                      store_item, format in *;
                    cbn [setitem truthy objs calls fst snd default] in *)).

Lemma world_eta w : {| objs := objs w; calls := calls w |} = w.
Proof. now destruct w. Qed.

Lemma json_ind_list (P : json -> Prop) :
  P JNull -> (forall b, P (JBool b)) -> (forall n, P (JInt n)) ->
  (forall s, P (JStr s)) ->
  (forall xs, Forall P xs -> P (JArr xs)) ->
  (forall fs, Forall (fun kv => P (snd kv)) fs -> P (JObj fs)) ->
  forall j, P j.
Proof.
  intros HN HB HI HS HA HO.
  fix IH 1. intros [| b | n | s | xs | fs].
  - exact HN.
  - apply HB.
  - apply HI.
  - apply HS.
  - apply HA.
    induction xs as [|x xs IHxs]; constructor; [apply IH | exact IHxs].
  - apply HO.
    induction fs as [|[k x] fs IHfs]; constructor; [apply IH | exact IHfs].
Qed.

(** Loading a parsed document only adds objects, sends nothing and does
    not fail. *)
Lemma load_ok j :
  forall w, exists ext v,
    load j w = ({| objs := (objs w ++ ext)%list; calls := calls w |}, Ok v).
Proof.
  induction j as [| b | n | s | xs H | fs H] using json_ind_list; intros w;
    try (eexists [], _; cbn; rewrite app_nil_r, world_eta; reflexivity).
  - (* arrays *)
    assert (Hitems : forall w, exists ext vs,
      (fix items (xs : list json) : M (list value) :=
         match xs with
         | [] => ret []
         | x :: r => v ← load x; vs ← items r; ret (v :: vs)
         end) xs w
      = ({| objs := (objs w ++ ext)%list; calls := calls w |}, Ok vs)).
    { clear w. induction H as [|x xs Hx _ IHxs]; intros w.
      - exists [], []. cbn. now rewrite app_nil_r, world_eta.
      - destruct (Hx w) as (e1 & v & E1).
        destruct (IHxs {| objs := (objs w ++ e1)%list; calls := calls w |})
          as (e2 & vs & E2).
        exists (e1 ++ e2)%list, (v :: vs). mrun. rewrite E1. mrun.
        rewrite E2. mrun. now rewrite app_assoc. }
    destruct (Hitems w) as (ext & vs & E).
    exists ext, (VList vs). cbn [load]. mrun. rewrite E. reflexivity.
  - (* objects *)
    assert (Hpairs : forall acc w, exists ext d,
      (fix pairs (fs : list (string * json)) (acc : dict) : M dict :=
         match fs with
         | [] => ret acc
         | (k, x) :: r => v ← load x; pairs r (dict_set acc k v)
         end) fs acc w
      = ({| objs := (objs w ++ ext)%list; calls := calls w |}, Ok d)).
    { clear w. induction H as [|[k x] fs Hx _ IHfs]; intros acc w.
      - exists [], acc. cbn. now rewrite app_nil_r, world_eta.
      - destruct (Hx w) as (e1 & v & E1). simpl in E1.
        destruct (IHfs (dict_set acc k v)
                    {| objs := (objs w ++ e1)%list; calls := calls w |})
          as (e2 & d & E2).
        exists (e1 ++ e2)%list, d. mrun. rewrite E1. mrun.
        rewrite E2. now rewrite app_assoc. }
    destruct (Hpairs [] w) as (ext & d & E).
    exists (ext ++ [d])%list, (VDict (length (objs w ++ ext)%list)).
    cbn [load]. mrun. rewrite E. mrun. now rewrite app_assoc.
Qed.

(** ** The request, in closed form *)

Lemma insert_fresh {A} (h : list A) (x y : A) :
  <[length h := y]> (h ++ [x])%list = (h ++ [y])%list.
Proof. induction h as [|a h IH]; simpl; [reflexivity | now rewrite IH]. Qed.

Lemma entries_fresh (h : store) d : entries (h ++ [d])%list (length h) = d.
Proof.
  unfold entries. rewrite lookup_app_r by lia.
  now rewrite Nat.sub_diag.
Qed.

Section RequestRun.
Context {lib : External}.

Lemma _request_run self m e p j w :
  let r := fst (outgoing self m e p j (objs w)) in
  let h := snd (outgoing self m e p j (objs w)) in
  let w1 := {| objs := h; calls := (calls w ++ [(r, h)])%list |} in
  _request self m e p j w =
  match client_request (calls w) r h with
  | Failure msg => (w1, Raise (TransportError msg))
  | Reply resp =>
      if (200 <=? status_code resp) && (status_code resp <=? 299) then
        if status_code resp =? 204 then
          ({| objs := (h ++ [completed])%list; calls := calls w1 |},
           Ok (VDict (length h)))
        else response_json resp w1
      else (w1, Raise (HTTPStatusError (status_error_message r h resp) resp))
  end.
Proof.
  unfold outgoing, with_api_key, _request, or_new_dict, send,
    raise_for_status.
  destruct (is_set (api_key (config self))
            && negb (is_set (access_token (config self)))) eqn:Ekey.
  - destruct p as [l|]; mrun.
    + destruct (negb (Nat.eqb (length (entries (objs w) l)) 0)) eqn:El; mrun.
      * destruct (client_request _ _ _) as [resp|msg]; [|reflexivity].
        destruct ((200 <=? status_code resp) && (status_code resp <=? 299));
          [|reflexivity].
        destruct (status_code resp =? 204); [reflexivity|].
        destruct (response_json resp _) as [w' [v|ex]]; [reflexivity|].
        now destruct ex.
      * rewrite entries_fresh, insert_fresh.
        destruct (client_request _ _ _) as [resp|msg]; [|reflexivity].
        destruct ((200 <=? status_code resp) && (status_code resp <=? 299));
          [|reflexivity].
        destruct (status_code resp =? 204); [reflexivity|].
        destruct (response_json resp _) as [w' [v|ex]]; [reflexivity|].
        now destruct ex.
    + rewrite entries_fresh, insert_fresh.
      destruct (client_request _ _ _) as [resp|msg]; [|reflexivity].
      destruct ((200 <=? status_code resp) && (status_code resp <=? 299));
        [|reflexivity].
      destruct (status_code resp =? 204); [reflexivity|].
      destruct (response_json resp _) as [w' [v|ex]]; [reflexivity|].
      now destruct ex.
  - mrun.
    destruct (client_request _ _ _) as [resp|msg]; [|reflexivity].
    destruct ((200 <=? status_code resp) && (status_code resp <=? 299));
      [|reflexivity].
    destruct (status_code resp =? 204); [reflexivity|].
    destruct (response_json resp _) as [w' [v|ex]]; [reflexivity|].
    now destruct ex.
Qed.
End RequestRun.

(** ** Every handler makes at most one request *)

Lemma dict_get_In {V} (d : list (string * V)) k v :
  dict_get d k = Some v -> In (k, v) d.
Proof.
  induction d as [|[k' v'] d IH]; simpl; [discriminate|].
  destruct (String.eqb k' k) eqn:E.
  - apply String.eqb_eq in E. intros [= ->]. left. now subst.
  - intros Hd. right. now apply IH.
Qed.

Lemma quiet_ret {A} (a : A) : quiet (ret a).
Proof. intros w. now split. Qed.

Lemma quiet_bind {A B} (c : M A) (k : A -> M B) :
  quiet c -> (forall a, quiet (k a)) -> quiet (c ≫= k).
Proof.
  intros Hc Hk w. unfold mbind, M_bind, bind.
  destruct (Hc w) as [Hc1 Hc2]. destruct (c w) as [w' [a|e]]; simpl in *.
  - destruct (Hk a w') as [Hk1 Hk2]. split; [congruence | exact Hk2].
  - now split.
Qed.

Lemma quiet_new_dict d : quiet (new_dict d).
Proof. intros w. now split. Qed.

Lemma quiet_subscript l k : quiet (subscript l k).
Proof. intros w. mrun. now destruct (dict_get _ _). Qed.

Lemma quiet_get_or l k v : quiet (get_or l k v).
Proof. intros w. now split. Qed.

Lemma quiet_contains k l : quiet (contains k l).
Proof. intros w. now split. Qed.

Lemma quiet_store_item l k v : quiet (store_item l k v).
Proof. intros w. now split. Qed.

Lemma quiet_setitem t k v : quiet (setitem t k v).
Proof. intros w. now destruct t. Qed.

Lemma quiet_truthy v : quiet (truthy v).
Proof. intros w. now destruct v. Qed.

Lemma quiet_comma_join v : quiet (comma_join v).
Proof.
  intros w. destruct v; try (now split). simpl.
  assert (forall i, match str_items i xs with
                    | inl _ => True | inr e => local_error e end) as Hs.
  { induction xs as [|x xs IH]; intros i; simpl; [exact I|].
    destruct x; try exact I. specialize (IH (S i)).
    now destruct (str_items (S i) xs). }
  specialize (Hs 0%nat). now destruct (str_items 0 xs).
Qed.

Lemma quiet_format {lib : External} v : quiet (format v).
Proof. intros w. now split. Qed.

Lemma quiet_if {A} (b : bool) (c1 c2 : M A) :
  quiet c1 -> quiet c2 -> quiet (if b then c1 else c2).
Proof. now destruct b. Qed.

Lemma quiet_read l : quiet (read l).
Proof. intros w. now split. Qed.

Ltac quiet :=
  repeat lazymatch goal with
    | |- quiet (_ ≫= _) => apply quiet_bind; [|intros ?]
    | |- quiet (if _ then _ else _) => apply quiet_if
    | |- quiet (ret _) => apply quiet_ret
    | |- quiet (mret _) => apply quiet_ret
    | |- quiet (new_dict _) => apply quiet_new_dict
    | |- quiet (read _) => apply quiet_read
    | |- quiet (subscript _ _) => apply quiet_subscript
    | |- quiet (get_or _ _ _) => apply quiet_get_or
    | |- quiet (contains _ _) => apply quiet_contains
    | |- quiet (store_item _ _ _) => apply quiet_store_item
    | |- quiet (setitem _ _ _) => apply quiet_setitem
    | |- quiet (truthy _) => apply quiet_truthy
    | |- quiet (comma_join _) => apply quiet_comma_join
    | |- quiet (format _) => apply quiet_format
    end.

Section Shape.
Context {lib : External}.

Lemma one_request_bind {A} self (c : M A) (k : A -> M value) :
  quiet c -> (forall a, one_request self (k a)) ->
  one_request self (c ≫= k).
Proof.
  intros Hc Hk w. unfold mbind, M_bind, bind.
  destruct (Hc w) as [Hc1 Hc2]. destruct (c w) as [w' [a|e]]; simpl in *.
  - destruct (Hk a w') as [(w1 & e & E & Hcalls & He)|
                           (w0 & m & ep & p & j & Hcalls & E)].
    + left. exists w1, e. repeat split; [exact E | congruence | exact He].
    + right. exists w0, m, ep, p, j. split; [congruence | exact E].
  - left. exists w', e. now repeat split.
Qed.

Lemma one_request_request self m ep p j :
  one_request self (_request (client self) m ep p j).
Proof. intros w. right. now exists w, m, ep, p, j. Qed.

Ltac one_request :=
  repeat lazymatch goal with
    | |- one_request _ (_request _ _ _ _ _) => apply one_request_request
    | |- one_request _ (_ ≫= _) =>
        apply one_request_bind; [quiet | intros ?]
    end.

Lemma registry_one_request self :
  Forall (fun nt => forall params,
              one_request self (handler (snd nt) params)) (tools self).
Proof.
  unfold tools, _register_tools.
  repeat apply List.Forall_cons; try apply List.Forall_nil;
    cbn [snd handler]; intros params.
  - unfold _handle_list_contacts, get_contacts. one_request.
  - unfold _handle_get_contact, get_contact. one_request.
  - unfold _handle_create_contact, create_contact. one_request.
  - unfold _handle_update_contact, update_contact. one_request.
  - unfold _handle_list_companies, get_companies. one_request.
  - unfold _handle_get_company, get_company. one_request.
  - unfold _handle_create_company, create_company. one_request.
  - unfold _handle_list_deals, get_deals. one_request.
  - unfold _handle_search, search. one_request.
Qed.
End Shape.

(** ** The dispatcher *)

Lemma lookup_fresh {A} (h : list A) (x : A) :
  (h ++ [x])%list !! length h = Some x.
Proof. induction h; simpl; auto. Qed.

Section Dispatcher.
Context {lib : External}.

(** The dispatcher in closed form: the handler runs, and its value or its
    exception goes into a new dictionary. *)
Lemma handle_tool_call_run self name tool params w :
  dict_get (tools self) name = Some tool ->
  handle_tool_call self name params w =
  match handler tool params w with
  | (w1, Ok result) =>
      ({| objs := (objs w1 ++ [[("success", VBool true);
                                ("result", result)]])%list;
          calls := calls w1 |}, Ok (VDict (length (objs w1))))
  | (w1, Raise e) =>
      ({| objs := (objs w1 ++ [[("success", VBool false);
                                ("error", VStr (exn_str e))]])%list;
          calls := calls w1 |}, Ok (VDict (length (objs w1))))
  end.
Proof.
  intros Hget. unfold handle_tool_call.
  assert (dict_has (tools self) name = true) as ->
    by (apply dict_has_get_some; eauto).
  rewrite Hget. cbn [negb]. mrun.
  now destruct (handler tool params w) as [w1 [v|e]].
Qed.


(** C3. For a name that is not in the registry the dispatcher raises
    [ValueError("Unknown tool: <name>")] at once: nothing is allocated or
    sent, no envelope is made, and the call returns no value. *)
Theorem handle_tool_call_unknown self name params w :
  dict_has (tools self) name = false ->
  handle_tool_call self name params w
  = (w, Raise (ValueError ("Unknown tool: " ++ name))) /\
  forall w' v, handle_tool_call self name params w <> (w', Ok v).
Proof.
  intros Hreg. unfold handle_tool_call. rewrite Hreg. mrun.
  split; [reflexivity | intros w' v; discriminate].
Qed.
End Dispatcher.

(** ** Authentication *)

Section Transport.
Context {lib : External}.

Lemma response_json_run resp w :
  match json_loads (text resp) with
  | Parsed _ =>
      exists ext v,
        response_json resp w
        = ({| objs := (objs w ++ ext)%list; calls := calls w |}, Ok v)
  | Malformed msg => response_json resp w = (w, Raise (JSONDecodeError msg))
  end.
Proof.
  unfold response_json. destruct (json_loads (text resp)) as [j|msg].
  - apply load_ok.
  - reflexivity.
Qed.

(** Every run of [_request] hands exactly one request to the library,
    and only adds objects after that. *)
Lemma _request_sent self m e p j w :
  let r := fst (outgoing self m e p j (objs w)) in
  let h := snd (outgoing self m e p j (objs w)) in
  exists w' res ext,
    _request self m e p j w = (w', res) /\
    sent_by w w' r h /\ objs w' = (h ++ ext)%list.
Proof.
  intros r h. unfold sent_by. rewrite _request_run. fold r h. cbv zeta.
  destruct (client_request (calls w) r h) as [resp|msg].
  - destruct ((200 <=? status_code resp) && (status_code resp <=? 299)).
    + destruct (status_code resp =? 204).
      * eexists _, _, [completed]. now repeat split.
      * pose proof (response_json_run resp
          {| objs := h; calls := (calls w ++ [(r, h)])%list |}) as HJ.
        destruct (json_loads (text resp)) as [jd|msg].
        -- destruct HJ as (ext & v & ->). eexists _, _, ext. now repeat split.
        -- rewrite HJ. eexists _, _, []. rewrite app_nil_r. now repeat split.
    + eexists _, _, []. rewrite app_nil_r. now repeat split.
  - eexists _, _, []. rewrite app_nil_r. now repeat split.
Qed.

(** C5. A client built from [cfg] puts on every request the header it
    chose when it was built: with an access token set, the bearer header
    carries the token and the query parameters and the store are the
    caller's, nothing added, whether or not an API key is set too; with
    only an API key set, the bearer header carries the key and the query
    parameters hold the key under hapikey; with neither there is no
    Authorization header.  A change of the settings after the client was
    built does not change the headers sent. *)
Theorem auth_selection cfg m e p j w :
  let self := HubSpotClient_init cfg in
  (exists w' res r h,
      _request self m e p j w = (w', res) /\ sent_by w w' r h /\
      if is_set (access_token cfg) then
        dict_get (req_headers r) "Authorization"
        = Some (bearer (access_token cfg)) /\
        req_params r = p /\ h = objs w
      else if is_set (api_key cfg) then
        dict_get (req_headers r) "Authorization"
        = Some (bearer (api_key cfg)) /\
        exists l, req_params r = Some l /\
                  dict_get (entries h l) "hapikey"
                  = Some (VStr (default EmptyString (api_key cfg)))
      else
        dict_get (req_headers r) "Authorization" = None /\
        req_params r = p /\ h = objs w) /\
  (forall now, exists w' res r h,
      _request (reconfigured self now) m e p j w = (w', res) /\
      sent_by w w' r h /\ req_headers r = _get_headers cfg).
Proof.
  intros self. split.
  - destruct (_request_sent self m e p j w) as (w' & res & ext & E & Hc & _).
    exists w', res, (fst (outgoing self m e p j (objs w))),
      (snd (outgoing self m e p j (objs w))).
    split; [exact E|]. split; [exact Hc|].
    unfold outgoing, with_api_key, self, HubSpotClient_init, _get_headers;
      cbn [fst snd req_headers req_params config headers].
    destruct (is_set (access_token cfg)) eqn:Et; cbn [negb andb].
    + rewrite andb_false_r. cbn [fst snd]. now repeat split.
    + destruct (is_set (api_key cfg)) eqn:Ek; cbn [andb fst snd].
      * split; [reflexivity|].
        destruct p as [l|].
        -- destruct (negb (length (entries (objs w) l) =? 0)%nat) eqn:El;
             cbn [fst snd].
           ++ exists l. split; [reflexivity|].
              unfold entries at 1.
              destruct (objs w !! l) as [d|] eqn:Hl.
              ** rewrite list_lookup_insert_eq
                   by (eapply lookup_lt_Some; eauto).
                 apply dict_get_set_eq.
              ** unfold entries in El. rewrite Hl in El. discriminate.
           ++ exists (length (objs w)). split; [reflexivity|].
              rewrite (entries_fresh (objs w)). simpl. reflexivity.
        -- cbn [fst snd]. exists (length (objs w)). split; [reflexivity|].
           rewrite (entries_fresh (objs w)). reflexivity.
      * now repeat split.
  - intros now.
    destruct (_request_sent (reconfigured self now) m e p j w)
      as (w' & res & ext & E & Hc & _).
    exists w', res, (fst (outgoing (reconfigured self now) m e p j (objs w))),
      (snd (outgoing (reconfigured self now) m e p j (objs w))).
    split; [exact E|]. split; [exact Hc|]. reflexivity.
Qed.
End Transport.

(** ** Replies *)

Lemma sent_by_inj w w' r h r' h' :
  sent_by w w' r h -> sent_by w w' r' h' -> r = r' /\ h = h'.
Proof.
  unfold sent_by. intros -> E. apply app_inj_tail in E as [_ [= -> ->]].
  now split.
Qed.

Lemma sent_by_calls w0 w w' r h :
  calls w0 = calls w -> sent_by w w' r h -> sent_by w0 w' r h.
Proof. unfold sent_by. now intros ->. Qed.

Lemma not_sent_by w w' r h : calls w' = calls w -> ~ sent_by w w' r h.
Proof.
  unfold sent_by. intros -> E.
  apply (f_equal (@length _)) in E. rewrite length_app in E. simpl in E. lia.
Qed.

Section Replies.
Context {lib : External}.

Lemma _request_answered self m e p j w w' res r h :
  _request self m e p j w = (w', res) -> sent_by w w' r h ->
  answered (client_request (calls w) r h) r h w' res.
Proof.
  intros E Hs.
  destruct (_request_sent self m e p j w) as (w2 & res2 & ext & E2 & Hs2 & _).
  rewrite E in E2. injection E2 as <- <-.
  destruct (sent_by_inj _ _ _ _ _ _ Hs Hs2) as [-> ->]. clear Hs2.
  rewrite _request_run in E. cbv zeta in E.
  set (r := fst (outgoing self m e p j (objs w))) in *.
  set (h := snd (outgoing self m e p j (objs w))) in *.
  unfold answered.
  destruct (client_request (calls w) r h) as [resp|msg].
  - destruct ((200 <=? status_code resp) && (status_code resp <=? 299)).
    + destruct (status_code resp =? 204).
      * injection E as <- <-. eexists. split; [reflexivity|].
        apply lookup_fresh.
      * pose proof (response_json_run resp
          {| objs := h; calls := (calls w ++ [(r, h)])%list |}) as HJ.
        destruct (json_loads (text resp)) as [jd|msg].
        -- destruct HJ as (ext' & v & HJ). rewrite HJ in E.
           injection E as <- <-. now exists v.
        -- rewrite HJ in E. now injection E as <- <-.
    + now injection E as <- <-.
  - now injection E as <- <-.
Qed.

Lemma handler_answered self name tool params w w' res r h :
  dict_get (tools self) name = Some tool ->
  handler tool params w = (w', res) -> sent_by w w' r h ->
  answered (client_request (calls w) r h) r h w' res.
Proof.
  intros Hget E Hs.
  pose proof (registry_one_request self) as HF.
  rewrite List.Forall_forall in HF.
  specialize (HF _ (dict_get_In _ _ _ Hget) params w). cbn [snd] in HF.
  destruct HF as [(w1 & ex & E1 & Hc & _)|(w0 & m & ep & p & j & Hc & E1)].
  - rewrite E in E1. injection E1 as -> ->.
    now apply not_sent_by in Hs.
  - rewrite E in E1. symmetry in E1. rewrite <- Hc.
    eapply _request_answered; [exact E1|].
    eapply sent_by_calls; eauto.
Qed.
End Replies.

Section Outcomes.
Context {lib : External}.

Lemma dispatch_answered self name params w w' res r h :
  dict_has (tools self) name = true ->
  handle_tool_call self name params w = (w', res) -> sent_by w w' r h ->
  exists w1 hres v,
    answered (client_request (calls w) r h) r h w1 hres /\
    res = Ok v /\
    (exists d, objs w' = (objs w1 ++ [d])%list) /\
    match hres with
    | Ok result => success_envelope (objs w') v result
    | Raise e => failure_envelope (objs w') v (exn_str e)
    end.
Proof.
  intros Hreg E Hs. apply dict_has_get_some in Hreg as [tool Hget].
  rewrite (handle_tool_call_run _ _ _ _ _ Hget) in E.
  destruct (handler tool params w) as [w1 hres] eqn:Eh.
  exists w1, hres.
  assert (sent_by w w1 r h) as Hs1.
  { unfold sent_by in *. destruct hres; injection E as <- <-; exact Hs. }
  pose proof (handler_answered _ _ _ _ _ _ _ _ _ Hget Eh Hs1) as Ha.
  destruct hres as [result|e]; injection E as <- <-; eexists;
    (split; [exact Ha|]); (split; [reflexivity|]);
    (split; [eexists; reflexivity|]);
    eexists; (split; [reflexivity|]); apply lookup_fresh.
Qed.

(** C7, as the code has it.  A 204 answer makes [_request] return a new
    dictionary with success and the fixed message, whatever the body
    is; so does [HubSpotClient.delete_contact].  For a registered tool
    whose request is answered 204 the dispatcher returns the success
    envelope around that dictionary.  The registry has no delete_contact
    entry. *)
Theorem no_content_normalised self :
  (forall m e p j w w' res r h resp,
      _request (client self) m e p j w = (w', res) -> sent_by w w' r h ->
      client_request (calls w) r h = Reply resp ->
      status_code resp = 204 ->
      exists l, res = Ok (VDict l) /\ objs w' !! l = Some completed) /\
  (forall contact_id w w' res r h resp,
      delete_contact (client self) contact_id w = (w', res) ->
      sent_by w w' r h ->
      client_request (calls w) r h = Reply resp ->
      status_code resp = 204 ->
      req_method r = "DELETE" /\
      exists l, res = Ok (VDict l) /\ objs w' !! l = Some completed) /\
  (forall name params w w' res r h resp,
      dict_has (tools self) name = true ->
      handle_tool_call self name params w = (w', res) ->
      sent_by w w' r h ->
      client_request (calls w) r h = Reply resp ->
      status_code resp = 204 ->
      exists v l, res = Ok v /\ success_envelope (objs w') v (VDict l) /\
                  objs w' !! l = Some completed) /\
  dict_has (tools self) "delete_contact" = false.
Proof.
  split; [|split; [|split]].
  - intros m e p j w w' res r h resp E Hs Hr H204.
    pose proof (_request_answered _ _ _ _ _ _ _ _ _ _ E Hs) as Ha.
    unfold answered in Ha. rewrite Hr, H204 in Ha. exact Ha.
  - intros contact_id w w' res r h resp E Hs Hr H204.
    unfold delete_contact in E. mrun. split.
    + destruct (_request_sent (client self) "DELETE"
                  ("/crm/v3/objects/contacts/"
                   ++ py_str (objs w) contact_id)
                  None None w) as (w2 & res2 & ext & E2 & Hs2 & _).
      rewrite E in E2. injection E2 as <- <-.
      destruct (sent_by_inj _ _ _ _ _ _ Hs Hs2) as [-> _]. reflexivity.
    + pose proof (_request_answered _ _ _ _ _ _ _ _ _ _ E Hs) as Ha.
      unfold answered in Ha. rewrite Hr, H204 in Ha. exact Ha.
  - intros name params w w' res r h resp Hreg E Hs Hr H204.
    destruct (dispatch_answered _ _ _ _ _ _ _ _ Hreg E Hs)
      as (w1 & hres & v & Ha & -> & [d Hd] & Henv).
    unfold answered in Ha. rewrite Hr, H204 in Ha.
    destruct Ha as (l & -> & Hl).
    exists v, l. split; [reflexivity|]. split; [exact Henv|].
    rewrite Hd. now apply lookup_app_l_Some.
  - reflexivity.
Qed.

(** C8, as the code has it.  A status outside 200..299 makes [_request]
    raise an [HTTPStatusError] that carries the response, status and body,
    with the message the HTTP library gives it; a failure of the library
    makes it raise a [TransportError], a different class.  For a
    registered tool the dispatcher turns the status error into the
    failure envelope whose error is exactly that message, and returns.
    The code adds nothing to the message: whether the status or the body
    can be read in the error is the library's choice of message alone. *)
Theorem status_error_surfaces self :
  (forall m e p j w w' res r h,
      _request (client self) m e p j w = (w', res) -> sent_by w w' r h ->
      match client_request (calls w) r h with
      | Reply resp =>
          (200 <=? status_code resp) && (status_code resp <=? 299) = false ->
          res = Raise (HTTPStatusError (status_error_message r h resp) resp)
      | Failure msg => res = Raise (TransportError msg)
      end) /\
  (forall name params w w' res r h resp,
      dict_has (tools self) name = true ->
      handle_tool_call self name params w = (w', res) ->
      sent_by w w' r h ->
      client_request (calls w) r h = Reply resp ->
      (200 <=? status_code resp) && (status_code resp <=? 299) = false ->
      exists v, res = Ok v /\
                failure_envelope (objs w') v
                  (status_error_message r h resp)) /\
  (forall msg resp msg', HTTPStatusError msg resp <> TransportError msg').
Proof.
  split; [|split].
  - intros m e p j w w' res r h E Hs.
    pose proof (_request_answered _ _ _ _ _ _ _ _ _ _ E Hs) as Ha.
    unfold answered in Ha.
    destruct (client_request (calls w) r h) as [resp|msg]; [|exact Ha].
    intros Hbad. now rewrite Hbad in Ha.
  - intros name params w w' res r h resp Hreg E Hs Hr Hbad.
    destruct (dispatch_answered _ _ _ _ _ _ _ _ Hreg E Hs)
      as (w1 & hres & v & Ha & -> & _ & Henv).
    unfold answered in Ha. rewrite Hr, Hbad in Ha. subst hres.
    now exists v.
  - discriminate.
Qed.
End Outcomes.

(** ** Required arguments *)

Lemma dict_get_registered {V} (d : list (string * V)) k v
    (P : string -> V -> Prop) :
  Forall (fun kv => P (fst kv) (snd kv)) d -> dict_get d k = Some v -> P k v.
Proof.
  intros HF Hget. apply dict_get_In in Hget.
  rewrite List.Forall_forall in HF. exact (HF _ Hget).
Qed.

Section Required.
Context {lib : External}.

Lemma _request_no_key_error self m e p j w w' k :
  _request self m e p j w <> (w', Raise (KeyError k)).
Proof.
  intros E.
  destruct (_request_sent self m e p j w) as (w2 & res2 & ext & E2 & Hs & _).
  rewrite E in E2. injection E2 as <- <-.
  pose proof (_request_answered _ _ _ _ _ _ _ _ _ _ E Hs) as Ha.
  unfold answered in Ha.
  destruct (client_request _ _ _) as [resp|msg]; [|discriminate].
  destruct ((200 <=? status_code resp) && (status_code resp <=? 299));
    [|discriminate].
  destruct (status_code resp =? 204).
  - now destruct Ha as (l & [=] & _).
  - destruct (json_loads (text resp)); [now destruct Ha|discriminate].
Qed.

(** A handler that goes on to [_request] on an argument map without [k]
    does not need [k]. *)
Lemma reaches_request_not_needed self (h : loc -> M value) k d :
  dict_has d k = false ->
  (exists m e p j w0,
      h 0%nat {| objs := [d]; calls := [] |} = _request self m e p j w0) ->
  ~ needs_key h k.
Proof.
  intros Hk (m & e & p & j & w0 & E) Hn.
  destruct (Hn {| objs := [d]; calls := [] |} 0%nat Hk) as (w' & k' & E').
  rewrite E in E'. now apply _request_no_key_error in E'.
Qed.

Local Arguments _request : simpl never.

Ltac needed :=
  intros w params Hk; apply dict_has_get in Hk; mrun;
  repeat match goal with
         | |- context [dict_get ?d ?k] =>
             first [ rewrite Hk | destruct (dict_get d k) eqn:? ]
         end;
  eauto.

Ltac not_needed args :=
  eapply reaches_request_not_needed with (d := args);
  [ cbn [dict_has];
    repeat match goal with
           | Hne : ?k' <> ?k |- context [String.eqb ?k' ?k] =>
               rewrite (proj2 (String.eqb_neq k' k) Hne)
           end; reflexivity
  | mrun; simpl; do 5 eexists; reflexivity ].

(** C2, as the code has it.  For every registered tool, each key that the
    handler cannot do without is listed as required.  The converse holds
    for all tools but two: create_contact and create_company read the key
    their schema requires (email, name) only after testing that it is
    there, and run without it. *)
Theorem required_and_needed self name tool :
  dict_get (tools self) name = Some tool ->
  (forall k, needs_key (handler tool) k ->
             In k (required (parameters tool))) /\
  (if String.eqb name "create_contact" || String.eqb name "create_company"
   then forall k, ~ needs_key (handler tool) k
   else forall k, In k (required (parameters tool)) ->
                  needs_key (handler tool) k).
Proof.
  revert name tool. intros name tool.
  apply (dict_get_registered (tools self) name tool
           (fun name tool =>
              (forall k, needs_key (handler tool) k ->
                         In k (required (parameters tool))) /\
              (if String.eqb name "create_contact"
                  || String.eqb name "create_company"
               then forall k, ~ needs_key (handler tool) k
               else forall k, In k (required (parameters tool)) ->
                              needs_key (handler tool) k))).
  unfold tools, _register_tools.
  repeat apply List.Forall_cons; try apply List.Forall_nil;
    cbn [fst snd handler parameters String.eqb Ascii.eqb Bool.eqb orb];
    split.
  - (* list_contacts *)
    intros k Hn. exfalso. revert Hn.
    unfold _handle_list_contacts, get_contacts.
    not_needed (@nil (string * value)).
  - intros k [].
  - (* get_contact *)
    intros k Hn. cbn. destruct (String.eqb_spec "contact_id" k) as [->|Hne];
      [now left|]. exfalso. revert Hn.
    unfold _handle_get_contact, get_contact.
    not_needed [("contact_id", VStr "1")].
  - intros k [<-|[]]. unfold _handle_get_contact. needed.
  - (* create_contact *)
    intros k Hn. exfalso. revert Hn.
    unfold _handle_create_contact, create_contact.
    not_needed (@nil (string * value)).
  - intros k. unfold _handle_create_contact, create_contact.
    not_needed (@nil (string * value)).
  - (* update_contact *)
    intros k Hn. cbn.
    destruct (String.eqb_spec "contact_id" k) as [->|Hne1]; [now left|].
    destruct (String.eqb_spec "properties" k) as [->|Hne2];
      [now right; left|].
    exfalso. revert Hn. unfold _handle_update_contact, update_contact.
    not_needed [("contact_id", VStr "1"); ("properties", VNone)].
  - intros k [<-|[<-|[]]]; unfold _handle_update_contact; needed.
  - (* list_companies *)
    intros k Hn. exfalso. revert Hn.
    unfold _handle_list_companies, get_companies.
    not_needed (@nil (string * value)).
  - intros k [].
  - (* get_company *)
    intros k Hn. cbn. destruct (String.eqb_spec "company_id" k) as [->|Hne];
      [now left|]. exfalso. revert Hn.
    unfold _handle_get_company, get_company.
    not_needed [("company_id", VStr "1")].
  - intros k [<-|[]]. unfold _handle_get_company. needed.
  - (* create_company *)
    intros k Hn. exfalso. revert Hn.
    unfold _handle_create_company, create_company.
    not_needed (@nil (string * value)).
  - intros k. unfold _handle_create_company, create_company.
    not_needed (@nil (string * value)).
  - (* list_deals *)
    intros k Hn. exfalso. revert Hn.
    unfold _handle_list_deals, get_deals.
    not_needed (@nil (string * value)).
  - intros k [].
  - (* search *)
    intros k Hn. cbn.
    destruct (String.eqb_spec "object_type" k) as [->|Hne1]; [now left|].
    destruct (String.eqb_spec "property" k) as [->|Hne2];
      [now right; left|].
    destruct (String.eqb_spec "value" k) as [->|Hne3];
      [now right; right; left|].
    exfalso. revert Hn. unfold _handle_search, search.
    not_needed [("object_type", VStr "contacts"); ("property", VStr "email");
                ("value", VStr "a@b.com")].
  - intros k [<-|[<-|[<-|[]]]]; unfold _handle_search; needed.
Qed.
End Required.

(** ** The store under allocation and update *)

Lemma entries_lookup (h : store) l d : h !! l = Some d -> entries h l = d.
Proof. unfold entries. now intros ->. Qed.

Lemma entries_app_l (h ext : store) l d :
  h !! l = Some d -> entries (h ++ ext)%list l = d.
Proof. intros Hl. apply entries_lookup. now apply lookup_app_l_Some. Qed.

Lemma lookup_second {A} (h : list A) (x y : A) (rest : list A) :
  (h ++ x :: y :: rest)%list !! S (length h) = Some y.
Proof. induction h; simpl; auto. Qed.

Lemma lookup_first {A} (h : list A) (x : A) (rest : list A) :
  (h ++ x :: rest)%list !! length h = Some x.
Proof. induction h; simpl; auto. Qed.

Lemma json_dumps_enough n (h : store) v j :
  dumps n h v = Some j -> (n <= length h)%nat -> json_dumps h v = Some j.
Proof. intros Hd Hn. unfold json_dumps. now apply (dumps_transfer n _ h h). Qed.

Lemma dumps_grow (h ext : store) n v j :
  json_dumps h v = Some j -> (length h <= n)%nat ->
  dumps n (h ++ ext)%list v = Some j.
Proof.
  unfold json_dumps. intros Hd Hn.
  apply (dumps_transfer (length h) n h); auto.
  intros l d Hl. now apply lookup_app_l_Some.
Qed.

Section Outgoing.
Context {lib : External}.

(** A request without query parameters: the store the library sees is
    the caller's, with at most the new API-key dictionary after it. *)
Lemma outgoing_no_params self m e j (h : store) :
  exists ext,
    snd (outgoing self m e None j h) = (h ++ ext)%list /\
    req_method (fst (outgoing self m e None j h)) = m /\
    req_url (fst (outgoing self m e None j h)) = urljoin (base_url self) e /\
    req_json (fst (outgoing self m e None j h)) = j.
Proof.
  unfold outgoing, with_api_key. cbn [fst snd req_method req_url req_json].
  destruct (is_set (api_key (config self))
            && negb (is_set (access_token (config self)))); cbn [fst snd].
  - eexists. now repeat split.
  - exists []. rewrite app_nil_r. now repeat split.
Qed.

(** One shorthand field of [_handle_create_contact], written to the
    dictionary at [l], and on to the rest of the handler. *)
Lemma shorthand_run {B} params l k d (rest : M B) w :
  objs w !! params = Some d -> l <> params -> (l < length (objs w))%nat ->
  (b ← contains k params;
   (if b : bool then v ← subscript params k; setitem (VDict l) k v
    else ret tt);;
   rest) w
  = rest {| objs := <[l := put_if_given d k (entries (objs w) l)]> (objs w);
            calls := calls w |}.
Proof.
  intros Hp Hne Hl. mrun. rewrite (entries_lookup _ _ _ Hp).
  unfold put_if_given.
  destruct (dict_get d k) as [v|] eqn:Hk.
  - assert (dict_has d k = true) as -> by (apply dict_has_get_some; eauto).
    mrun. rewrite (entries_lookup _ _ _ Hp), Hk. reflexivity.
  - assert (dict_has d k = false) as -> by now apply dict_has_get.
    mrun. destruct (lookup_lt_is_Some_2 (objs w) l Hl) as [dl Hdl].
    rewrite (entries_lookup _ _ _ Hdl), list_insert_id by exact Hdl.
    now rewrite world_eta.
Qed.
End Outgoing.

(** ** The create_contact tool *)

Lemma bind_ok {A B} (c : M A) (k : A -> M B) w w' a :
  c w = (w', Ok a) -> (c ≫= k) w = k a w'.
Proof. intros E. unfold mbind, M_bind, bind. now rewrite E. Qed.

Section CreateContact.
Context {lib : External}.

(** The three shorthand statements, then the rest of the handler. *)
Lemma shorthand_merge self params l d w0 :
  objs w0 !! params = Some d -> l <> params ->
  (l < length (objs w0))%nat ->
  (b ← contains "email" params;
   (if b : bool then
      v ← subscript params "email"; setitem (VDict l) "email" v
    else ret tt);;
   b ← contains "firstname" params;
   (if b : bool then
      v ← subscript params "firstname"; setitem (VDict l) "firstname" v
    else ret tt);;
   b ← contains "lastname" params;
   (if b : bool then
      v ← subscript params "lastname"; setitem (VDict l) "lastname" v
    else ret tt);;
   create_contact (client self) (VDict l)) w0
  = create_contact (client self) (VDict l)
      {| objs := <[l := with_shorthand d (entries (objs w0) l)]> (objs w0);
         calls := calls w0 |}.
Proof.
  intros Hp Hne Hl.
  rewrite (shorthand_run params l "email" d) by assumption.
  rewrite (shorthand_run params l "firstname" d); cbn [objs calls];
    [| now rewrite list_lookup_insert_ne | exact Hne
     | now rewrite length_insert ].
  rewrite (shorthand_run params l "lastname" d); cbn [objs calls];
    [| now rewrite !list_lookup_insert_ne | exact Hne
     | now rewrite !length_insert ].
  rewrite !list_insert_insert_eq.
  unfold entries at 1 2.
  rewrite !list_lookup_insert_eq by (rewrite ?length_insert; exact Hl).
  reflexivity.
Qed.

(** [_handle_create_contact] on an argument map without [properties]:
    the merge goes to a new dictionary. *)
Lemma _handle_create_contact_fresh self params d w :
  objs w !! params = Some d -> dict_get d "properties" = None ->
  _handle_create_contact self params w
  = _request (client self) "POST" "/crm/v3/objects/contacts" None
      (Some (S (length (objs w))))
      {| objs := (objs w ++ [with_shorthand d [];
                             [("properties", VDict (length (objs w)))]])%list;
         calls := calls w |}.
Proof.
  intros Hp Hnone. unfold _handle_create_contact.
  erewrite bind_ok by reflexivity.
  erewrite bind_ok by reflexivity. cbn [objs].
  rewrite (entries_app_l _ _ _ _ Hp), Hnone. cbn [default]. cbv beta.
  rewrite (shorthand_merge self params (length (objs w)) d).
  - cbn [objs calls]. rewrite (entries_fresh (objs w)), insert_fresh.
    unfold create_contact. erewrite bind_ok by reflexivity.
    cbn [objs calls]. rewrite length_app, <- app_assoc. cbn [length app].
    now rewrite Nat.add_1_r.
  - cbn [objs]. now apply lookup_app_l_Some.
  - apply lookup_lt_Some in Hp. lia.
  - cbn [objs]. rewrite length_app. simpl. lia.
Qed.

(** [_handle_create_contact] on an argument map whose [properties] is a
    dictionary object: the merge is written into that object. *)
Lemma _handle_create_contact_given self params d lp dp w :
  objs w !! params = Some d -> dict_get d "properties" = Some (VDict lp) ->
  objs w !! lp = Some dp -> lp <> params ->
  _handle_create_contact self params w
  = _request (client self) "POST" "/crm/v3/objects/contacts" None
      (Some (S (length (objs w))))
      {| objs := (<[lp := with_shorthand d dp]> (objs w)
                  ++ [[]; [("properties", VDict lp)]])%list;
         calls := calls w |}.
Proof.
  intros Hp Hsome Hlp Hne. unfold _handle_create_contact.
  erewrite bind_ok by reflexivity.
  erewrite bind_ok by reflexivity. cbn [objs].
  rewrite (entries_app_l _ _ _ _ Hp), Hsome. cbn [default]. cbv beta.
  rewrite (shorthand_merge self params lp d).
  - cbn [objs calls]. rewrite (entries_app_l _ _ _ _ Hlp).
    rewrite insert_app_l by (eapply lookup_lt_Some; eauto).
    unfold create_contact. erewrite bind_ok by reflexivity.
    cbn [objs calls].
    rewrite length_app, length_insert, <- app_assoc. cbn [length app].
    now rewrite Nat.add_1_r.
  - cbn [objs]. now apply lookup_app_l_Some.
  - exact Hne.
  - cbn [objs]. rewrite length_app. apply lookup_lt_Some in Hlp. lia.
Qed.
End CreateContact.

Section Bodies.
Context {lib : External}.

(** The dispatcher around a handler that ends in a request without query
    parameters: the request that goes out, the store the library sees
    and the store afterwards. *)
Lemma dispatch_request self name tool params w m e lb w0 :
  dict_get (tools self) name = Some tool ->
  handler tool params w = _request (client self) m e None (Some lb) w0 ->
  calls w0 = calls w ->
  exists w' res r h ext ext',
    handle_tool_call self name params w = (w', res) /\
    sent_by w w' r h /\
    req_method r = m /\
    req_url r = urljoin (base_url (client self)) e /\
    req_json r = Some lb /\
    h = (objs w0 ++ ext)%list /\
    objs w' = (h ++ ext')%list.
Proof.
  intros Hget Hrun Hcalls.
  rewrite (handle_tool_call_run _ _ _ _ _ Hget), Hrun.
  destruct (_request_sent (client self) m e None (Some lb) w0)
    as (w1 & res1 & ext1 & E & Hs & Ho).
  destruct (outgoing_no_params (client self) m e (Some lb) (objs w0))
    as (ext & Hh & Hm & Hu & Hj).
  rewrite E.
  assert (sent_by w w1
            (fst (outgoing (client self) m e None (Some lb) (objs w0)))
            (snd (outgoing (client self) m e None (Some lb) (objs w0))))
    as Hs' by (unfold sent_by in *; now rewrite <- Hcalls).
  destruct res1 as [v|ex];
    eexists _, _, _, _, ext, _;
    (split; [reflexivity|]); (split; [exact Hs'|]);
    (split; [exact Hm|]); (split; [exact Hu|]); (split; [exact Hj|]);
    (split; [exact Hh|]); cbn [objs]; rewrite Ho, <- app_assoc; reflexivity.
Qed.

Lemma create_contact_registered self :
  dict_get (tools self) "create_contact"
  = Some {| description := "Create a new contact in HubSpot";
            parameters := create_contact_parameters;
            handler := _handle_create_contact self |}.
Proof. reflexivity. Qed.

(** C4. create_contact with email a@b.com and firstname X and no
    properties sends a POST whose body has these two under properties;
    with email a@b.com and properties holding email old@b.com and
    lastname Y it sends a@b.com and Y: the shorthand email takes the
    place of the one in properties. *)
Theorem create_contact_body self :
  (forall params d w,
      objs w !! params = Some d ->
      dict_get d "email" = Some (VStr "a@b.com") ->
      dict_get d "firstname" = Some (VStr "X") ->
      dict_get d "lastname" = None ->
      dict_get d "properties" = None ->
      exists w' res r h,
        handle_tool_call self "create_contact" params w = (w', res) /\
        sent_by w w' r h /\
        req_method r = "POST" /\
        req_url r
        = urljoin (base_url (client self)) "/crm/v3/objects/contacts" /\
        body_of r h
        = Some (JObj [("properties",
                       JObj [("email", JStr "a@b.com");
                             ("firstname", JStr "X")])])) /\
  (forall params d lp w,
      objs w !! params = Some d ->
      dict_get d "email" = Some (VStr "a@b.com") ->
      dict_get d "firstname" = None ->
      dict_get d "lastname" = None ->
      dict_get d "properties" = Some (VDict lp) ->
      objs w !! lp = Some [("email", VStr "old@b.com");
                           ("lastname", VStr "Y")] ->
      exists w' res r h,
        handle_tool_call self "create_contact" params w = (w', res) /\
        sent_by w w' r h /\
        req_method r = "POST" /\
        req_url r
        = urljoin (base_url (client self)) "/crm/v3/objects/contacts" /\
        body_of r h
        = Some (JObj [("properties",
                       JObj [("email", JStr "a@b.com");
                             ("lastname", JStr "Y")])])).
Proof.
  split.
  - intros params d w Hp He Hf Hl Hnone.
    destruct (dispatch_request self _ _ params w _ _ _ _
                (create_contact_registered self)
                (_handle_create_contact_fresh self params d w Hp Hnone)
                eq_refl)
      as (w' & res & r & h & ext & ext' & E & Hs & Hm & Hu & Hj & Hh & _).
    exists w', res, r, h. repeat (split; [assumption|]).
    unfold body_of. rewrite Hj. cbn [objs] in Hh.
    apply (json_dumps_enough 2).
    + rewrite dumps_dict, Hh, <- app_assoc.
      cbn [app]. rewrite lookup_second. cbn [map fst snd].
      rewrite dumps_dict, lookup_first.
      unfold with_shorthand, put_if_given. rewrite He, Hf, Hl.
      reflexivity.
    + rewrite Hh, !length_app. simpl. lia.
  - intros params d lp w Hp He Hf Hl Hsome Hlp.
    assert (lp <> params) as Hne.
    { intros ->. rewrite Hp in Hlp. injection Hlp as ->. discriminate. }
    destruct (dispatch_request self _ _ params w _ _ _ _
                (create_contact_registered self)
                (_handle_create_contact_given self params d lp _ w
                   Hp Hsome Hlp Hne)
                eq_refl)
      as (w' & res & r & h & ext & ext' & E & Hs & Hm & Hu & Hj & Hh & _).
    exists w', res, r, h. repeat (split; [assumption|]).
    unfold body_of. rewrite Hj. cbn [objs] in Hh.
    assert (length (<[lp := with_shorthand d
                             [("email", VStr "old@b.com");
                              ("lastname", VStr "Y")]]> (objs w))
            = length (objs w)) as Hlen by apply length_insert.
    apply (json_dumps_enough 2).
    + rewrite dumps_dict, Hh, <- app_assoc. cbn [app].
      rewrite <- Hlen at 1. rewrite lookup_second. cbn [map fst snd].
      rewrite dumps_dict.
      rewrite lookup_app_l
        by (rewrite Hlen; eapply lookup_lt_Some; eauto).
      rewrite list_lookup_insert_eq by (eapply lookup_lt_Some; eauto).
      unfold with_shorthand, put_if_given. rewrite He, Hf, Hl.
      reflexivity.
    + rewrite Hh, !length_app. simpl. lia.
Qed.
End Bodies.

Section Frame.
Context {lib : External}.

(** C9, as the code has it.  [_handle_create_contact] makes no copy.
    Without a properties entry the shorthand fields go to a new
    dictionary and every object the caller holds is as before.  With a
    properties entry that is a dictionary object, the fields are written
    into that very object: after the call it holds the merge, the
    argument map still holds the same entries, every other object of the
    caller is as before, and the body sent refers to the caller's
    object. *)
Theorem create_contact_writes_properties self :
  (forall params d w,
      objs w !! params = Some d ->
      dict_get d "properties" = None ->
      exists w' res r h lb lp,
        handle_tool_call self "create_contact" params w = (w', res) /\
        sent_by w w' r h /\
        (forall l, (l < length (objs w))%nat -> objs w' !! l = objs w !! l) /\
        req_json r = Some lb /\
        h !! lb = Some [("properties", VDict lp)] /\
        h !! lp = Some (with_shorthand d [])) /\
  (forall params d lp dp w,
      objs w !! params = Some d ->
      dict_get d "properties" = Some (VDict lp) ->
      objs w !! lp = Some dp ->
      lp <> params ->
      exists w' res r h lb,
        handle_tool_call self "create_contact" params w = (w', res) /\
        sent_by w w' r h /\
        objs w' !! lp = Some (with_shorthand d dp) /\
        objs w' !! params = Some d /\
        (forall l, (l < length (objs w))%nat -> l <> lp ->
                   objs w' !! l = objs w !! l) /\
        req_json r = Some lb /\
        h !! lb = Some [("properties", VDict lp)] /\
        h !! lp = Some (with_shorthand d dp)).
Proof.
  split.
  - intros params d w Hp Hnone.
    destruct (dispatch_request self _ _ params w _ _ _ _
                (create_contact_registered self)
                (_handle_create_contact_fresh self params d w Hp Hnone)
                eq_refl)
      as (w' & res & r & h & ext & ext' & E & Hs & _ & _ & Hj & Hh & Hw').
    cbn [objs] in Hh.
    exists w', res, r, h, (S (length (objs w))), (length (objs w)).
    split; [exact E|]. split; [exact Hs|]. split; [|split; [exact Hj|]].
    + intros l Hl. rewrite Hw', Hh, <- !app_assoc.
      now rewrite lookup_app_l.
    + rewrite Hh, <- app_assoc. cbn [app].
      split; [apply lookup_second | apply lookup_first].
  - intros params d lp dp w Hp Hsome Hlp Hne.
    destruct (dispatch_request self _ _ params w _ _ _ _
                (create_contact_registered self)
                (_handle_create_contact_given self params d lp dp w
                   Hp Hsome Hlp Hne)
                eq_refl)
      as (w' & res & r & h & ext & ext' & E & Hs & _ & _ & Hj & Hh & Hw').
    cbn [objs] in Hh.
    pose proof (lookup_lt_Some _ _ _ Hlp) as Hlt.
    pose proof (lookup_lt_Some _ _ _ Hp) as Hpt.
    assert (length (<[lp := with_shorthand d dp]> (objs w))
            = length (objs w)) as Hlen by apply length_insert.
    assert (forall l, (l < length (objs w))%nat ->
              objs w' !! l = <[lp := with_shorthand d dp]> (objs w) !! l)
      as Hold.
    { intros l Hl. rewrite Hw', Hh, <- !app_assoc.
      rewrite lookup_app_l by (rewrite Hlen; exact Hl). reflexivity. }
    exists w', res, r, h, (S (length (objs w))).
    split; [exact E|]. split; [exact Hs|].
    split; [rewrite Hold by exact Hlt; now apply list_lookup_insert_eq|].
    split; [rewrite Hold by exact Hpt;
            now rewrite list_lookup_insert_ne|].
    split; [intros l Hl Hnl; rewrite Hold by exact Hl;
            now rewrite list_lookup_insert_ne|].
    split; [exact Hj|].
    rewrite Hh, <- app_assoc. cbn [app]. split.
    + rewrite <- Hlen. apply lookup_second.
    + rewrite lookup_app_l by (rewrite Hlen; exact Hlt).
      now apply list_lookup_insert_eq.
Qed.
End Frame.

(** ** The search operation and the search tool *)

Lemma dumps_items n (h : store) (fs : list value) (js : list json) :
  Forall2 (fun f j => dumps n h f = Some j) fs js ->
  dumps n h (VList fs) = Some (JArr js).
Proof.
  intros HF. rewrite dumps_list.
  assert (sequence_opt (map (dumps n h) fs) = Some js) as ->; [|reflexivity].
  induction HF as [|f j fs js Hf _ IH]; simpl; [reflexivity|].
  now rewrite Hf, IH.
Qed.

Section Search.
Context {lib : External}.

(** [HubSpotClient.search] in closed form: two new dictionaries, then the
    request. *)
Lemma search_run self (object_type : string) filters limit w :
  search self (VStr object_type) filters limit w
  = _request self "POST" ("/crm/v3/objects/" ++ object_type ++ "/search")
      None (Some (S (length (objs w))))
      {| objs := (objs w ++ [[("filters", filters)];
                             [("filterGroups", VList [VDict (length (objs w))]);
                              ("limit", limit)]])%list;
         calls := calls w |}.
Proof.
  unfold search.
  erewrite bind_ok by reflexivity.
  erewrite bind_ok by reflexivity.
  erewrite bind_ok by reflexivity.
  cbn [objs calls py_str]. rewrite length_app, <- app_assoc.
  cbn [length app]. now rewrite Nat.add_1_r.
Qed.

(** The body [search] builds, read in a store that holds its two
    dictionaries after the caller's objects. *)
Lemma search_body_dumps (h0 ext : store) filters limit jf jl :
  json_dumps h0 filters = Some jf ->
  json_dumps h0 limit = Some jl ->
  json_dumps
    ((h0 ++ [[("filters", filters)];
             [("filterGroups", VList [VDict (length h0)]);
              ("limit", limit)]]) ++ ext)%list
    (VDict (S (length h0)))
  = Some (JObj [("filterGroups", JArr [JObj [("filters", jf)]]);
                ("limit", jl)]).
Proof.
  intros Hf Hl. unfold json_dumps.
  rewrite <- app_assoc. cbn [app].
  replace (length (h0 ++ [("filters", filters)]
                      :: [("filterGroups", VList [VDict (length h0)]);
                          ("limit", limit)] :: ext)%list)
    with (S (S (length h0 + length ext)))
    by (rewrite length_app; simpl; lia).
  rewrite dumps_dict, lookup_second. cbn [map fst snd].
  rewrite dumps_list. cbn [map].
  rewrite dumps_dict, lookup_first. cbn [map fst snd].
  rewrite (dumps_grow h0 _ _ filters jf Hf) by lia.
  rewrite (dumps_grow h0 _ _ limit jl Hl) by lia.
  reflexivity.
Qed.
End Search.

Lemma json_dumps_int (h : store) n : json_dumps h (VInt n) = Some (JInt n).
Proof. unfold json_dumps. now destruct (length h). Qed.

Lemma json_dumps_str (h : store) s : json_dumps h (VStr s) = Some (JStr s).
Proof. unfold json_dumps. now destruct (length h). Qed.

Section SearchTool.
Context {lib : External}.

Lemma request_with_body self m e lb w0 :
  exists w' res r h ext,
    _request self m e None (Some lb) w0 = (w', res) /\
    sent_by w0 w' r h /\
    req_method r = m /\
    req_url r = urljoin (base_url self) e /\
    req_json r = Some lb /\
    h = (objs w0 ++ ext)%list.
Proof.
  destruct (_request_sent self m e None (Some lb) w0)
    as (w1 & res1 & ext1 & E & Hs & _).
  destruct (outgoing_no_params self m e (Some lb) (objs w0))
    as (ext & Hh & Hm & Hu & Hj).
  now exists w1, res1, (fst (outgoing self m e None (Some lb) (objs w0))),
    (snd (outgoing self m e None (Some lb) (objs w0))), ext.
Qed.

Lemma _handle_search_run self params d w object_type property value :
  objs w !! params = Some d ->
  dict_get d "object_type" = Some (VStr object_type) ->
  dict_get d "property" = Some property ->
  dict_get d "value" = Some value ->
  _handle_search self params w
  = search (client self) (VStr object_type)
      (VList [VDict (length (objs w))])
      (default (VInt 100) (dict_get d "limit"))
      {| objs := (objs w ++ [search_filter d property value])%list;
         calls := calls w |}.
Proof.
  intros Hp Ho Hpr Hv. unfold _handle_search.
  erewrite bind_ok
    by (mrun; rewrite (entries_lookup _ _ _ Hp), Ho; reflexivity).
  erewrite bind_ok
    by (mrun; rewrite (entries_lookup _ _ _ Hp), Hpr; reflexivity).
  erewrite bind_ok by reflexivity.
  erewrite bind_ok
    by (mrun; rewrite (entries_lookup _ _ _ Hp), Hv; reflexivity).
  erewrite bind_ok by reflexivity.
  erewrite bind_ok by reflexivity.
  cbn [objs]. rewrite (entries_lookup _ _ _ Hp).
  rewrite (entries_app_l _ _ _ _ Hp). reflexivity.
Qed.

Lemma search_registered self :
  dict_get (tools self) "search"
  = Some {| description := "Search for objects in HubSpot CRM";
            parameters := search_parameters;
            handler := _handle_search self |}.
Proof. reflexivity. Qed.

(** The request the search tool sends for an argument map that has its
    three required entries. *)
Lemma search_tool_body self params d w object_type property value
    jp jop jv jl :
  objs w !! params = Some d ->
  dict_get d "object_type" = Some (VStr object_type) ->
  dict_get d "property" = Some property ->
  dict_get d "value" = Some value ->
  json_dumps (objs w) property = Some jp ->
  json_dumps (objs w) (default (VStr "EQ") (dict_get d "operator"))
  = Some jop ->
  json_dumps (objs w) value = Some jv ->
  json_dumps (objs w) (default (VInt 100) (dict_get d "limit")) = Some jl ->
  exists w' res r h,
    handle_tool_call self "search" params w = (w', res) /\
    sent_by w w' r h /\
    req_method r = "POST" /\
    req_url r = urljoin (base_url (client self))
                  ("/crm/v3/objects/" ++ object_type ++ "/search") /\
    body_of r h
    = Some (JObj [("filterGroups",
                   JArr [JObj [("filters",
                                JArr [JObj [("propertyName", jp);
                                            ("operator", jop);
                                            ("value", jv)]])]]);
                  ("limit", jl)]).
Proof.
  intros Hp Ho Hpr Hv Hjp Hjop Hjv Hjl.
  pose proof (_handle_search_run self params d w _ _ _ Hp Ho Hpr Hv) as Hrun.
  rewrite search_run in Hrun. cbn [objs calls] in Hrun.
  destruct (dispatch_request self _ _ params w _ _ _ _
              (search_registered self) Hrun eq_refl)
    as (w' & res & r & h & ext & ext' & E & Hs & Hm & Hu & Hj & Hh & _).
  exists w', res, r, h. repeat (split; [assumption|]).
  unfold body_of. rewrite Hj, Hh. cbn [objs].
  apply search_body_dumps.
  - apply (json_dumps_enough (S (length (objs w)))).
    + apply dumps_items. constructor; [|constructor].
      rewrite dumps_dict, lookup_fresh. unfold search_filter.
      cbn [map fst snd].
      rewrite (dumps_grow (objs w) _ _ _ _ Hjp) by lia.
      rewrite (dumps_grow (objs w) _ _ _ _ Hjop) by lia.
      rewrite (dumps_grow (objs w) _ _ _ _ Hjv) by lia.
      reflexivity.
    + rewrite length_app. simpl. lia.
  - now apply json_dumps_app.
Qed.

(** C6. [HubSpotClient.search] sends a POST to the search path of the
    object type whose body has one filter group, holding the filters it
    was given in their order, and the limit.  The search tool builds one
    filter from property, operator (EQ when not given) and value, and
    sends it that way. *)
Theorem search_single_group self :
  (forall (object_type : string) (filters : list value) limit w js jl,
      Forall2 (fun f j => json_dumps (objs w) f = Some j) filters js ->
      json_dumps (objs w) limit = Some jl ->
      exists w' res r h,
        search (client self) (VStr object_type) (VList filters) limit w
        = (w', res) /\
        sent_by w w' r h /\
        req_method r = "POST" /\
        req_url r = urljoin (base_url (client self))
                      ("/crm/v3/objects/" ++ object_type ++ "/search") /\
        body_of r h
        = Some (JObj [("filterGroups", JArr [JObj [("filters", JArr js)]]);
                      ("limit", jl)])) /\
  (forall params d w (object_type : string) property value jp jop jv jl,
      objs w !! params = Some d ->
      dict_get d "object_type" = Some (VStr object_type) ->
      dict_get d "property" = Some property ->
      dict_get d "value" = Some value ->
      json_dumps (objs w) property = Some jp ->
      match dict_get d "operator" with
      | Some operator => json_dumps (objs w) operator = Some jop
      | None => jop = JStr "EQ"
      end ->
      json_dumps (objs w) value = Some jv ->
      json_dumps (objs w) (default (VInt 100) (dict_get d "limit"))
      = Some jl ->
      exists w' res r h,
        handle_tool_call self "search" params w = (w', res) /\
        sent_by w w' r h /\
        req_method r = "POST" /\
        body_of r h
        = Some (JObj [("filterGroups",
                       JArr [JObj [("filters",
                                    JArr [JObj [("propertyName", jp);
                                                ("operator", jop);
                                                ("value", jv)]])]]);
                      ("limit", jl)])).
Proof.
  split.
  - intros object_type filters limit w js jl Hfs Hl.
    rewrite search_run.
    destruct (request_with_body (client self) "POST"
                ("/crm/v3/objects/" ++ object_type ++ "/search")
                (S (length (objs w)))
                {| objs := (objs w ++ [[("filters", VList filters)];
                              [("filterGroups",
                                VList [VDict (length (objs w))]);
                               ("limit", limit)]])%list;
                   calls := calls w |})
      as (w' & res & r & h & ext & E & Hs & Hm & Hu & Hj & Hh).
    exists w', res, r, h. repeat (split; [assumption|]).
    unfold body_of. rewrite Hj, Hh. cbn [objs].
    apply search_body_dumps; [|exact Hl].
    apply dumps_items.
    eapply Forall2_impl; [exact Hfs|]. intros f j Hfj. exact Hfj.
  - intros params d w object_type property value jp jop jv jl
      Hp Ho Hpr Hv Hjp Hjop Hjv Hjl.
    destruct (search_tool_body self params d w object_type property value
                jp jop jv jl Hp Ho Hpr Hv Hjp) as
      (w' & res & r & h & E & Hs & Hm & _ & Hb); try assumption.
    + destruct (dict_get d "operator"); [exact Hjop|].
      subst jop. apply json_dumps_str.
    + now exists w', res, r, h.
Qed.

(** C10. The schema of the search tool declares no limit argument, and
    the handler reads one all the same: the limit of the body sent is
    the caller's limit entry when the argument map has one, and 100 when
    it has none. *)
Theorem search_limit_undeclared self :
  ~ In "limit" (declared search_parameters) /\
  (exists t, dict_get (tools self) "search" = Some t /\
             parameters t = search_parameters) /\
  (forall params d w (object_type : string) property value jp jop jv jl,
      objs w !! params = Some d ->
      dict_get d "object_type" = Some (VStr object_type) ->
      dict_get d "property" = Some property ->
      dict_get d "value" = Some value ->
      json_dumps (objs w) property = Some jp ->
      json_dumps (objs w) (default (VStr "EQ") (dict_get d "operator"))
      = Some jop ->
      json_dumps (objs w) value = Some jv ->
      match dict_get d "limit" with
      | Some limit => json_dumps (objs w) limit = Some jl
      | None => jl = JInt 100
      end ->
      exists w' res r h groups,
        handle_tool_call self "search" params w = (w', res) /\
        sent_by w w' r h /\
        body_of r h = Some (JObj [("filterGroups", groups); ("limit", jl)])).
Proof.
  split; [|split].
  - cbn. intuition discriminate.
  - eexists. split; [apply search_registered | reflexivity].
  - intros params d w object_type property value jp jop jv jl
      Hp Ho Hpr Hv Hjp Hjop Hjv Hjl.
    destruct (search_tool_body self params d w object_type property value
                jp jop jv jl Hp Ho Hpr Hv Hjp Hjop Hjv) as
      (w' & res & r & h & E & Hs & _ & _ & Hb).
    + destruct (dict_get d "limit"); [exact Hjl|].
      subst jl. apply json_dumps_int.
    + eexists w', res, r, h, _.
      split; [exact E|]. split; [exact Hs|]. exact Hb.
Qed.
End SearchTool.

(** * Further properties of the code *)

(** ** One request for each call *)

Section OneRequest.
Context {lib : External}.

(** X1. A call of the dispatcher hands at most one request to the HTTP
    library, whatever the tool name and the argument map: the log of
    requests is as before or longer by one.  Nothing is sent twice. *)
Theorem at_most_one_request self name params w :
  calls (fst (handle_tool_call self name params w)) = calls w \/
  exists r h, sent_by w (fst (handle_tool_call self name params w)) r h.
Proof.
  destruct (dict_get (tools self) name) as [tool|] eqn:Hget.
  - rewrite (handle_tool_call_run _ _ _ _ _ Hget).
    pose proof (registry_one_request self) as HF.
    rewrite List.Forall_forall in HF.
    specialize (HF _ (dict_get_In _ _ _ Hget) params w). cbn [snd] in HF.
    destruct HF as [(w1 & e & E & Hc & _)|(w0 & m & ep & p & j & Hc & E)].
    + left. rewrite E. exact Hc.
    + right. rewrite E.
      destruct (_request_sent (client self) m ep p j w0)
        as (w1 & res & ext & E1 & Hs & _).
      rewrite E1. unfold sent_by in *. rewrite Hc in Hs.
      destruct res; eexists _, _; exact Hs.
  - left. unfold handle_tool_call.
    assert (dict_has (tools self) name = false) as ->
      by now apply dict_has_get.
    reflexivity.
Qed.

End OneRequest.

(** ** A required argument that is missing *)

Section MissingKey.
Context {lib : External}.

Lemma dict_has_true_get {V} (d : list (string * V)) k :
  dict_has d k = true -> exists v, dict_get d k = Some v.
Proof. apply dict_has_get_some. Qed.

Ltac missing :=
  intros _ _ params w k Hm; cbn in Hm;
  repeat match type of Hm with
         | context [dict_has ?d ?key] =>
             let E := fresh "E" in
             destruct (dict_has d key) eqn:E;
             [apply dict_has_true_get in E as [? E]
             |apply dict_has_get in E]
         end;
  try discriminate Hm; injection Hm as <-;
  mrun;
  repeat match goal with
         | E : dict_get _ _ = _ |- _ => rewrite E; clear E
         end;
  reflexivity.

(** The handlers other than the two create handlers stop at the first
    required key that the argument map lacks. *)
Lemma handler_missing_key self name tool :
  dict_get (tools self) name = Some tool ->
  name <> "create_contact" -> name <> "create_company" ->
  forall params w k,
    first_missing (required (parameters tool)) (entries (objs w) params)
    = Some k ->
    handler tool params w = (w, Raise (KeyError k)).
Proof.
  apply (dict_get_registered (tools self) name tool
           (fun name tool =>
              name <> "create_contact" -> name <> "create_company" ->
              forall params w k,
                first_missing (required (parameters tool))
                  (entries (objs w) params) = Some k ->
                handler tool params w = (w, Raise (KeyError k)))).
  unfold tools, _register_tools.
  repeat apply List.Forall_cons; try apply List.Forall_nil;
    cbn [fst snd handler parameters].
  - missing.
  - unfold _handle_get_contact. missing.
  - intros Hne. now contradiction Hne.
  - unfold _handle_update_contact. missing.
  - missing.
  - unfold _handle_get_company. missing.
  - intros _ Hne. now contradiction Hne.
  - missing.
  - unfold _handle_search. missing.
Qed.

(** X2. For every registered tool but create_contact and create_company:
    when the argument map lacks a key of the schema's required list, the
    dispatcher returns the failure envelope whose error is the first such
    key, in the order of the list, between single quotes.  Nothing is sent
    and the store only gains the envelope. *)
Theorem missing_key_envelope self name tool params w k :
  dict_get (tools self) name = Some tool ->
  name <> "create_contact" -> name <> "create_company" ->
  first_missing (required (parameters tool)) (entries (objs w) params)
  = Some k ->
  handle_tool_call self name params w
  = ({| objs := (objs w ++ [[("success", VBool false);
                             ("error", VStr ("'" ++ k ++ "'"))]])%list;
        calls := calls w |},
     Ok (VDict (length (objs w)))).
Proof.
  intros Hget Hc1 Hc2 Hm.
  rewrite (handle_tool_call_run _ _ _ _ _ Hget).
  now rewrite (handler_missing_key self name tool Hget Hc1 Hc2 params w k Hm).
Qed.

End MissingKey.

(** ** Failures below the handler *)

Section Failures.
Context {lib : External}.

(** X3. For every registered tool: when the HTTP library raises on the
    request (connection, timeout), the dispatcher returns the failure
    envelope with the library's message; when the answer has a 2xx status
    other than 204 and a body that is not JSON, it returns the failure
    envelope with the parser's message. *)
Theorem failure_below_handler self name params w w' res r h :
  dict_has (tools self) name = true ->
  handle_tool_call self name params w = (w', res) ->
  sent_by w w' r h ->
  match client_request (calls w) r h with
  | Failure msg => exists v, res = Ok v /\ failure_envelope (objs w') v msg
  | Reply resp =>
      (200 <=? status_code resp) && (status_code resp <=? 299) = true ->
      (status_code resp =? 204) = false ->
      forall msg,
        json_loads (text resp) = Malformed msg ->
        exists v, res = Ok v /\ failure_envelope (objs w') v msg
  end.
Proof.
  intros Hreg E Hs.
  destruct (dispatch_answered _ _ _ _ _ _ _ _ Hreg E Hs)
    as (w1 & hres & v & Ha & -> & _ & Henv).
  unfold answered in Ha.
  destruct (client_request (calls w) r h) as [resp|msg].
  - intros H2 H204 msg Hmal. rewrite H2, H204, Hmal in Ha. subst hres.
    now exists v.
  - subst hres. now exists v.
Qed.

End Failures.

(** ** Discovery and dispatch *)


Section DiscoveryFacts.
Context {lib : External}.





End DiscoveryFacts.

(** ** Query parameters and the API key *)

Lemma dict_get_set_ne {V} (d : list (string * V)) k k' v :
  k <> k' -> dict_get (dict_set d k v) k' = dict_get d k'.
Proof.
  intros Hne. induction d as [|[k0 v0] d IH]; simpl.
  - now rewrite (proj2 (String.eqb_neq k k') Hne).
  - destruct (String.eqb_spec k0 k) as [->|Hk]; simpl.
    + now rewrite (proj2 (String.eqb_neq k k') Hne).
    + destruct (String.eqb k0 k'); [reflexivity | exact IH].
Qed.

Lemma with_api_key_query self p (h : store) k :
  k <> "hapikey" ->
  dict_get (query_of (fst (with_api_key self p h))
              (snd (with_api_key self p h))) k
  = dict_get (query_of p h) k.
Proof.
  intros Hk. unfold with_api_key.
  destruct (is_set (api_key (config self))
            && negb (is_set (access_token (config self))));
    [|reflexivity].
  cbv zeta. destruct p as [l|]; cbn [query_of].
  - destruct (negb (length (entries h l) =? 0)%nat) eqn:El;
      cbn [fst snd query_of].
    + unfold entries at 1. destruct (h !! l) as [d|] eqn:Hl.
      * rewrite list_lookup_insert_eq by (eapply lookup_lt_Some; eauto).
        cbn [default]. rewrite (entries_lookup _ _ _ Hl).
        apply dict_get_set_ne. congruence.
      * unfold entries in El. rewrite Hl in El. discriminate.
    + rewrite (entries_fresh h). cbn [dict_get].
      rewrite (proj2 (String.eqb_neq "hapikey" k)) by congruence.
      destruct (entries h l); [reflexivity | discriminate].
  - cbn [fst snd query_of]. rewrite (entries_fresh h). cbn [dict_get].
    now rewrite (proj2 (String.eqb_neq "hapikey" k)) by congruence.
Qed.

Lemma with_api_key_frame self p (h : store) l :
  (l < length h)%nat -> p <> Some l ->
  snd (with_api_key self p h) !! l = h !! l.
Proof.
  intros Hl Hp. unfold with_api_key.
  destruct (is_set (api_key (config self))
            && negb (is_set (access_token (config self))));
    [|reflexivity].
  cbv zeta. destruct p as [l'|].
  - destruct (negb (length (entries h l') =? 0)%nat); cbn [snd].
    + apply list_lookup_insert_ne. congruence.
    + now apply lookup_app_l.
  - cbn [snd]. now apply lookup_app_l.
Qed.

Lemma with_api_key_length self p (h : store) :
  (length h <= length (snd (with_api_key self p h)))%nat.
Proof.
  unfold with_api_key.
  destruct (is_set (api_key (config self))
            && negb (is_set (access_token (config self)))); [|cbn; lia].
  cbv zeta. destruct p as [l'|].
  - destruct (negb (length (entries h l') =? 0)%nat); cbn [snd].
    + rewrite length_insert. lia.
    + rewrite length_app. lia.
  - cbn [snd]. rewrite length_app. lia.
Qed.

Section Query.
Context {lib : External}.

(** X5. [_request] hands the library the method, the joined URL, the body
    reference and the client's headers it was given, and the caller's
    query parameters: adding the API key changes no parameter but hapikey
    and no object of the store but the parameter dictionary. *)
Theorem request_keeps_query self method endpoint params json_data w :
  sends (_request self method endpoint params json_data) w
    method (urljoin (base_url self) endpoint)
    (fun r h =>
       req_json r = json_data /\
       req_headers r = headers self /\
       (forall k, k <> "hapikey" ->
                  dict_get (query_of (req_params r) h) k
                  = dict_get (query_of params (objs w)) k) /\
       (forall l, (l < length (objs w))%nat -> params <> Some l ->
                  h !! l = objs w !! l)).
Proof.
  destruct (_request_sent self method endpoint params json_data w)
    as (w' & res & ext & E & Hs & _).
  exists w', res,
    (fst (outgoing self method endpoint params json_data (objs w))),
    (snd (outgoing self method endpoint params json_data (objs w))).
  split; [exact E|]. split; [exact Hs|].
  unfold outgoing. cbn [fst snd req_method req_url req_json req_headers
                        req_params].
  repeat split.
  - intros k Hk. now apply with_api_key_query.
  - intros l Hl Hp. now apply with_api_key_frame.
Qed.

End Query.

(** ** The client operations *)

Lemma str_items_strings i (names : list string) :
  str_items i (map VStr names) = inl names.
Proof.
  revert i. induction names as [|s names IH]; intros i; [reflexivity|].
  cbn [map str_items]. now rewrite IH.
Qed.

Lemma properties_body_dumps (h0 ext : store) properties jp :
  json_dumps h0 properties = Some jp ->
  json_dumps ((h0 ++ [[("properties", properties)]]) ++ ext)%list
    (VDict (length h0))
  = Some (properties_body jp).
Proof.
  intros Hp. unfold json_dumps. rewrite <- app_assoc. cbn [app].
  replace (length (h0 ++ [("properties", properties)] :: ext)%list)
    with (S (length h0 + length ext))
    by (rewrite length_app; simpl; lia).
  rewrite dumps_dict, lookup_first. cbn [map fst snd].
  rewrite (dumps_grow h0 _ _ properties jp Hp) by lia.
  reflexivity.
Qed.

Section Routes.
Context {lib : External}.

(** The request of a run of [_request], with the facts about it that do
    not depend on the answer. *)
Lemma _request_sends self m e p j w :
  sends (_request self m e p j) w m (urljoin (base_url self) e)
    (fun r h =>
       req_json r = j /\
       r = fst (outgoing self m e p j (objs w)) /\
       h = snd (with_api_key self p (objs w))).
Proof.
  destruct (_request_sent self m e p j w) as (w' & res & ext & E & Hs & _).
  exists w', res, (fst (outgoing self m e p j (objs w))),
    (snd (outgoing self m e p j (objs w))).
  split; [exact E|]. split; [exact Hs|]. now repeat split.
Qed.

Lemma sends_impl (c : M value) w m u (Q Q' : request -> store -> Prop) :
  sends c w m u Q -> (forall r h, Q r h -> Q' r h) -> sends c w m u Q'.
Proof.
  intros (w' & res & r & h & E & Hs & Hm & Hu & HQ) Himpl.
  exists w', res, r, h. repeat (split; [assumption|]). now apply Himpl.
Qed.

(** A run that comes down to [_request] without query parameters, in a
    store that has only grown. *)
Lemma sends_without_params self m e j (c : M value) w w0 news :
  c w = _request self m e None j w0 ->
  calls w0 = calls w -> objs w0 = (objs w ++ news)%list ->
  sends c w m (urljoin (base_url self) e)
    (fun r h =>
       req_json r = j /\
       (exists ext, h = (objs w0 ++ ext)%list) /\
       (forall k, k <> "hapikey" ->
                  dict_get (query_of (req_params r) h) k = None) /\
       (forall l, (l < length (objs w))%nat -> h !! l = objs w !! l)).
Proof.
  intros Hc Hcalls Hobjs.
  destruct (_request_sends self m e None j w0)
    as (w' & res & r & h & E & Hs & Hm & Hu & Hj & Hr & Hh).
  destruct (outgoing_no_params self m e j (objs w0)) as (ext & Hext & _).
  unfold outgoing in Hext. cbn [snd] in Hext.
  exists w', res, r, h. rewrite Hc.
  split; [exact E|]. split; [unfold sent_by in *; now rewrite <- Hcalls|].
  split; [exact Hm|]. split; [exact Hu|]. split; [exact Hj|].
  split; [exists ext; now rewrite Hh|]. split.
  - intros k Hk. rewrite Hr, Hh. cbn [outgoing fst req_params].
    now rewrite with_api_key_query.
  - intros l Hl. rewrite Hh, with_api_key_frame.
    + rewrite Hobjs. now apply lookup_app_l.
    + rewrite Hobjs, length_app. lia.
    + discriminate.
Qed.

(** A run that comes down to [_request] without query parameters, in a
    store that has only grown, ends with the caller's objects as they
    were. *)
Lemma keeps_without_params self m e j (c : M value) w w0 news :
  c w = _request self m e None j w0 ->
  objs w0 = (objs w ++ news)%list ->
  forall l, (l < length (objs w))%nat ->
            objs (fst (c w)) !! l = objs w !! l.
Proof.
  intros Hc Hobjs l Hl. rewrite Hc.
  destruct (_request_sent self m e None j w0)
    as (w' & res & ext & E & _ & Ho).
  destruct (outgoing_no_params self m e j (objs w0)) as (ext0 & Hh & _).
  rewrite E. cbn [fst]. rewrite Ho, Hh, Hobjs, <- !app_assoc.
  now apply lookup_app_l.
Qed.

Lemma by_id_sends self m prefix (c : M value) id w :
  c w = _request self m (prefix ++ py_str (objs w) id) None None w ->
  sends c w m (urljoin (base_url self) (prefix ++ py_str (objs w) id))
      (fun r h =>
         req_json r = None /\
         (forall k, k <> "hapikey" ->
                    dict_get (query_of (req_params r) h) k = None) /\
         (forall l, (l < length (objs w))%nat -> h !! l = objs w !! l)).
Proof.
  intros Hc.
  eapply sends_impl;
    [apply (sends_without_params self m _ None c w w [] Hc eq_refl);
     now rewrite app_nil_r|].
  intros r h (Hj & _ & Hq & Hf). now repeat split.
Qed.

(** X6. The four operations on one object send what their name says:
    [get_contact], [get_company] and [get_deal] a GET and
    [delete_contact] a DELETE, to the path of the object type followed by
    the identifier as [str] prints it, without a body and without query
    parameters of their own.  They leave the caller's objects unchanged:
    every object the caller holds has, in the store the library sees and
    in the store after the operation has returned or raised, the entries
    it had before. *)
Theorem by_id_operations :
  by_id_route get_contact "GET" "/crm/v3/objects/contacts/" /\
  by_id_route delete_contact "DELETE" "/crm/v3/objects/contacts/" /\
  by_id_route get_company "GET" "/crm/v3/objects/companies/" /\
  by_id_route get_deal "GET" "/crm/v3/objects/deals/".
Proof.
  repeat apply conj; intros self id w;
    (split;
     [now apply by_id_sends
     |eapply (keeps_without_params _ _ _ _ _ w w []);
      [reflexivity | now rewrite app_nil_r]]).
Qed.

Lemma with_body_sends self m e (c : M value) properties jp w :
  json_dumps (objs w) properties = Some jp ->
  c w = _request self m e None (Some (length (objs w)))
          {| objs := (objs w ++ [[("properties", properties)]])%list;
             calls := calls w |} ->
  sends c w m (urljoin (base_url self) e)
      (fun r h =>
         body_of r h = Some (properties_body jp) /\
         (forall k, k <> "hapikey" ->
                    dict_get (query_of (req_params r) h) k = None) /\
         (forall l, (l < length (objs w))%nat -> h !! l = objs w !! l)).
Proof.
  intros Hjp Hc.
  eapply sends_impl;
    [apply (sends_without_params self m e _ c w _
              [[("properties", properties)]] Hc eq_refl eq_refl)|].
  intros r h (Hj & (ext & Hh) & Hq & Hf). cbn [objs] in Hh.
  split; [|now split].
  unfold body_of. rewrite Hj, Hh. now apply properties_body_dumps.
Qed.

(** X7. The three create operations send a POST to the path of their
    object type whose body is the properties they were given under the
    key properties, with no query parameters of their own.  They leave
    the caller's objects unchanged: every object the caller holds has,
    in the store the library sees and in the store after the operation
    has returned or raised, the entries it had before. *)
Theorem create_operations :
  create_route create_contact "/crm/v3/objects/contacts" /\
  create_route create_company "/crm/v3/objects/companies" /\
  create_route create_deal "/crm/v3/objects/deals".
Proof.
  repeat apply conj; intros self properties w jp Hjp;
    (split;
     [now apply (with_body_sends self "POST" _ _ properties jp w Hjp)
     |now eapply (keeps_without_params _ _ _ _ _ w
                    {| objs := (objs w ++ [[("properties", properties)]])%list;
                       calls := calls w |}
                    [[("properties", properties)]])]).
Qed.

(** X8. The two update operations send a PATCH to the path of the object
    type followed by the identifier, with the properties they were given
    under the key properties as the body. *)
Theorem update_operations :
  update_route update_contact "/crm/v3/objects/contacts/" /\
  update_route update_company "/crm/v3/objects/companies/".
Proof.
  split; intros self id properties w jp Hjp;
    now apply (with_body_sends self "PATCH" _ _ properties jp w Hjp).
Qed.

End Routes.

(** ** The list operations and the list tools *)

Section Lists.
Context {lib : External}.

(** A run that comes down to [_request] with a new dictionary of query
    parameters. *)
Lemma sends_with_query self m e (c : M value) w q :
  c w = _request self m e (Some (length (objs w))) None
          {| objs := (objs w ++ [q])%list; calls := calls w |} ->
  sends c w m (urljoin (base_url self) e)
    (fun r h =>
       req_json r = None /\
       (forall k, k <> "hapikey" ->
                  dict_get (query_of (req_params r) h) k = dict_get q k) /\
       (forall l, (l < length (objs w))%nat -> h !! l = objs w !! l)).
Proof.
  intros Hc.
  destruct (_request_sends self m e (Some (length (objs w))) None
              {| objs := (objs w ++ [q])%list; calls := calls w |})
    as (w' & res & r & h & E & Hs & Hm & Hu & Hj & Hr & Hh).
  exists w', res, r, h. rewrite Hc. cbn [objs calls] in *.
  repeat (split; [assumption|]). split.
  - intros k Hk. rewrite Hr, Hh. cbn [outgoing fst req_params].
    rewrite with_api_key_query by exact Hk.
    cbn [query_of]. now rewrite (entries_fresh (objs w)).
  - intros l Hl. rewrite Hh, with_api_key_frame.
    + now apply lookup_app_l.
    + rewrite length_app. lia.
    + intros [= Heq]. lia.
Qed.

Lemma list_query_sends self path (c : M value) limit names w :
  c w = _request self "GET" path (Some (length (objs w))) None
          {| objs := (objs w ++ [list_query limit names])%list;
             calls := calls w |} ->
  sends c w "GET" (urljoin (base_url self) path)
    (fun r h =>
       req_json r = None /\
       dict_get (query_of (req_params r) h) "limit" = Some limit /\
       dict_get (query_of (req_params r) h) "properties"
       = joined_names names /\
       (forall k, k <> "limit" -> k <> "properties" -> k <> "hapikey" ->
                  dict_get (query_of (req_params r) h) k = None) /\
       (forall l, (l < length (objs w))%nat -> h !! l = objs w !! l)).
Proof.
  intros Hc. eapply sends_impl; [exact (sends_with_query _ _ _ _ _ _ Hc)|].
  intros r h (Hj & Hq & Hf). split; [exact Hj|].
  split; [now rewrite Hq|].
  split; [rewrite Hq by discriminate; unfold list_query;
          now destruct (joined_names names)|].
  split; [|exact Hf].
  intros k Hl Hp Hh. rewrite (Hq k Hh). unfold list_query. cbn [dict_get].
  rewrite (proj2 (String.eqb_neq "limit" k)) by congruence.
  destruct (joined_names names); [|reflexivity].
  cbn [dict_get]. now rewrite (proj2 (String.eqb_neq "properties" k))
    by congruence.
Qed.

(** The shared body of the three list operations, in closed form. *)
Lemma list_body_run self path limit properties names w :
  properties = VNone /\ names = [] \/ properties = VList (map VStr names) ->
  (params ← new_dict [("limit", limit)];
   b ← truthy properties;
   (if b : bool then
      s ← comma_join properties;
      store_item params "properties" (VStr s)
    else ret tt);;
   _request self "GET" path (Some params) None) w
  = _request self "GET" path (Some (length (objs w))) None
      {| objs := (objs w ++ [list_query limit names])%list;
         calls := calls w |}.
Proof.
  intros Hp. erewrite bind_ok by reflexivity.
  destruct Hp as [ [-> ->] | -> ].
  - erewrite bind_ok by reflexivity. erewrite bind_ok by reflexivity.
    reflexivity.
  - destruct names as [|s names].
    + erewrite bind_ok by reflexivity. erewrite bind_ok by reflexivity.
      reflexivity.
    + erewrite bind_ok by reflexivity. cbn [map length Nat.eqb negb].
      erewrite bind_ok.
      2:{ erewrite bind_ok
            by (unfold comma_join; cbn [str_items];
                rewrite str_items_strings; reflexivity).
          reflexivity. }
      cbn [objs calls]. rewrite (entries_fresh (objs w)), insert_fresh.
      reflexivity.
Qed.

(** X9. The three list operations send a GET to the path of their object
    type with the limit as a query parameter; given a list of property
    names that is not empty they add the names joined by commas, and
    given none or an empty list they add nothing. *)
Theorem list_operations :
  list_route get_contacts "/crm/v3/objects/contacts" /\
  list_route get_companies "/crm/v3/objects/companies" /\
  list_route get_deals "/crm/v3/objects/deals".
Proof.
  repeat split; intros self limit properties names w Hp;
    apply list_query_sends; now apply list_body_run.
Qed.

End Lists.

Section ListTools.
Context {lib : External}.

Lemma dispatch_sends self name tool params w m u Q :
  dict_get (tools self) name = Some tool ->
  sends (handler tool params) w m u Q ->
  tool_sends self name params w m u Q.
Proof.
  intros Hget (w1 & hres & r & h & E & Hs & Hm & Hu & HQ).
  exists r, h. rewrite (handle_tool_call_run _ _ _ _ _ Hget), E.
  split; [|now repeat split].
  unfold sent_by in *. now destruct hres.
Qed.

Lemma list_tool_sends self name tool path limit names params w :
  dict_get (tools self) name = Some tool ->
  handler tool params w
  = _request (client self) "GET" path (Some (length (objs w))) None
      {| objs := (objs w ++ [list_query limit names])%list;
         calls := calls w |} ->
  tool_sends self name params w "GET"
    (urljoin (base_url (client self)) path) (list_tool_query limit names).
Proof.
  intros Hget Hrun. apply (dispatch_sends _ _ _ _ _ _ _ _ Hget).
  eapply sends_impl; [exact (list_query_sends _ _ _ _ _ _ Hrun)|].
  intros r h (_ & Hl & Hp & Hk & _). now repeat split.
Qed.

(** X10. The list tools.  All three send the caller's limit, or 100 when
    the argument map has none.  list_contacts adds the caller's property
    names joined by commas; list_companies and list_deals never send a
    properties parameter, whatever the argument map holds. *)
Theorem list_tools_query self params w :
  let d := entries (objs w) params in
  let limit := default (VInt 100) (dict_get d "limit") in
  tool_sends self "list_companies" params w "GET"
    (urljoin (base_url (client self)) "/crm/v3/objects/companies")
    (list_tool_query limit []) /\
  tool_sends self "list_deals" params w "GET"
    (urljoin (base_url (client self)) "/crm/v3/objects/deals")
    (list_tool_query limit []) /\
  forall names,
    dict_get d "properties" = None /\ names = [] \/
    dict_get d "properties" = Some (VList (map VStr names)) ->
    tool_sends self "list_contacts" params w "GET"
      (urljoin (base_url (client self)) "/crm/v3/objects/contacts")
      (list_tool_query limit names).
Proof.
  intros d limit. split; [|split].
  - eapply list_tool_sends; [reflexivity|].
    unfold handler, _handle_list_companies, get_companies.
    erewrite bind_ok by reflexivity.
    apply list_body_run. now left.
  - eapply list_tool_sends; [reflexivity|].
    unfold handler, _handle_list_deals, get_deals.
    erewrite bind_ok by reflexivity.
    apply list_body_run. now left.
  - intros names Hp. eapply list_tool_sends; [reflexivity|].
    unfold handler, _handle_list_contacts, get_contacts.
    erewrite bind_ok by reflexivity. erewrite bind_ok by reflexivity.
    apply list_body_run. fold d.
    destruct Hp as [ [-> ->] | -> ]; [now left | now right].
Qed.

End ListTools.

(** ** The create_company tool *)

Section CreateCompany.
Context {lib : External}.

Lemma _handle_create_company_fresh self params d w :
  objs w !! params = Some d -> dict_get d "properties" = None ->
  _handle_create_company self params w
  = _request (client self) "POST" "/crm/v3/objects/companies" None
      (Some (S (length (objs w))))
      {| objs := (objs w ++ [put_if_given d "name" [];
                             [("properties", VDict (length (objs w)))]])%list;
         calls := calls w |}.
Proof.
  intros Hp Hnone. unfold _handle_create_company.
  erewrite bind_ok by reflexivity.
  erewrite bind_ok by reflexivity. cbn [objs].
  rewrite (entries_app_l _ _ _ _ Hp), Hnone. cbn [default]. cbv beta.
  rewrite (shorthand_run params (length (objs w)) "name" d).
  - cbn [objs calls]. rewrite (entries_fresh (objs w)), insert_fresh.
    unfold create_company. erewrite bind_ok by reflexivity.
    cbn [objs calls]. rewrite length_app, <- app_assoc. cbn [length app].
    now rewrite Nat.add_1_r.
  - cbn [objs]. now apply lookup_app_l_Some.
  - apply lookup_lt_Some in Hp. lia.
  - cbn [objs]. rewrite length_app. simpl. lia.
Qed.

Lemma _handle_create_company_given self params d lp dp w :
  objs w !! params = Some d -> dict_get d "properties" = Some (VDict lp) ->
  objs w !! lp = Some dp -> lp <> params ->
  _handle_create_company self params w
  = _request (client self) "POST" "/crm/v3/objects/companies" None
      (Some (S (length (objs w))))
      {| objs := (<[lp := put_if_given d "name" dp]> (objs w)
                  ++ [[]; [("properties", VDict lp)]])%list;
         calls := calls w |}.
Proof.
  intros Hp Hsome Hlp Hne. unfold _handle_create_company.
  erewrite bind_ok by reflexivity.
  erewrite bind_ok by reflexivity. cbn [objs].
  rewrite (entries_app_l _ _ _ _ Hp), Hsome. cbn [default]. cbv beta.
  rewrite (shorthand_run params lp "name" d).
  - cbn [objs calls]. rewrite (entries_app_l _ _ _ _ Hlp).
    rewrite insert_app_l by (eapply lookup_lt_Some; eauto).
    unfold create_company. erewrite bind_ok by reflexivity.
    cbn [objs calls].
    rewrite length_app, length_insert, <- app_assoc. cbn [length app].
    now rewrite Nat.add_1_r.
  - cbn [objs]. now apply lookup_app_l_Some.
  - exact Hne.
  - cbn [objs]. rewrite length_app. apply lookup_lt_Some in Hlp. lia.
Qed.

Lemma create_company_registered self :
  dict_get (tools self) "create_company"
  = Some {| description := "Create a new company in HubSpot";
            parameters := create_company_parameters;
            handler := _handle_create_company self |}.
Proof. reflexivity. Qed.

(** X11. The create_company tool sends a POST to the companies path whose
    body holds, under properties, the caller's properties with the name
    argument put in (over a name that is already there).  Without a
    properties entry the merge goes to a new dictionary, and every
    object the caller holds is as before, when the request is sent and
    after the call.  With a properties entry that is a dictionary object
    the name is written into that very object: after the call it holds
    the merge, the argument map holds the same entries, and every other
    object of the caller is as before. *)
Theorem create_company_merges_name self :
  (forall params d w,
      objs w !! params = Some d ->
      dict_get d "properties" = None ->
      exists w' res r h lb lp,
        handle_tool_call self "create_company" params w = (w', res) /\
        sent_by w w' r h /\
        req_method r = "POST" /\
        req_url r
        = urljoin (base_url (client self)) "/crm/v3/objects/companies" /\
        req_json r = Some lb /\
        h !! lb = Some [("properties", VDict lp)] /\
        h !! lp = Some (put_if_given d "name" []) /\
        (forall l, (l < length (objs w))%nat -> h !! l = objs w !! l) /\
        (forall l, (l < length (objs w))%nat ->
                   objs w' !! l = objs w !! l)) /\
  (forall params d lp dp w,
      objs w !! params = Some d ->
      dict_get d "properties" = Some (VDict lp) ->
      objs w !! lp = Some dp ->
      lp <> params ->
      exists w' res r h lb,
        handle_tool_call self "create_company" params w = (w', res) /\
        sent_by w w' r h /\
        req_method r = "POST" /\
        req_url r
        = urljoin (base_url (client self)) "/crm/v3/objects/companies" /\
        req_json r = Some lb /\
        h !! lb = Some [("properties", VDict lp)] /\
        h !! lp = Some (put_if_given d "name" dp) /\
        (forall l, (l < length (objs w))%nat -> l <> lp ->
                   h !! l = objs w !! l) /\
        objs w' !! lp = Some (put_if_given d "name" dp) /\
        objs w' !! params = Some d /\
        (forall l, (l < length (objs w))%nat -> l <> lp ->
                   objs w' !! l = objs w !! l)).
Proof.
  split.
  - intros params d w Hp Hnone.
    destruct (dispatch_request self _ _ params w _ _ _ _
                (create_company_registered self)
                (_handle_create_company_fresh self params d w Hp Hnone)
                eq_refl)
      as (w' & res & r & h & ext & ext' & E & Hs & Hm & Hu & Hj & Hh & Hw').
    cbn [objs] in Hh.
    exists w', res, r, h, (S (length (objs w))), (length (objs w)).
    repeat (split; [assumption|]).
    split; [rewrite Hh, <- app_assoc; cbn [app]; apply lookup_second|].
    split; [rewrite Hh, <- app_assoc; cbn [app]; apply lookup_first|].
    split; intros l Hl.
    + rewrite Hh, <- !app_assoc. now rewrite lookup_app_l.
    + rewrite Hw', Hh, <- !app_assoc. now rewrite lookup_app_l.
  - intros params d lp dp w Hp Hsome Hlp Hne.
    destruct (dispatch_request self _ _ params w _ _ _ _
                (create_company_registered self)
                (_handle_create_company_given self params d lp dp w
                   Hp Hsome Hlp Hne)
                eq_refl)
      as (w' & res & r & h & ext & ext' & E & Hs & Hm & Hu & Hj & Hh & Hw').
    cbn [objs] in Hh.
    pose proof (lookup_lt_Some _ _ _ Hlp) as Hlt.
    pose proof (lookup_lt_Some _ _ _ Hp) as Hpt.
    assert (length (<[lp := put_if_given d "name" dp]> (objs w))
            = length (objs w)) as Hlen by apply length_insert.
    assert (forall l, (l < length (objs w))%nat ->
              h !! l = <[lp := put_if_given d "name" dp]> (objs w) !! l)
      as Hsent.
    { intros l Hl. rewrite Hh, <- !app_assoc.
      rewrite lookup_app_l by (rewrite Hlen; exact Hl). reflexivity. }
    assert (forall l, (l < length (objs w))%nat ->
              objs w' !! l = <[lp := put_if_given d "name" dp]> (objs w) !! l)
      as Hold.
    { intros l Hl. rewrite Hw'.
      rewrite lookup_app_l
        by (rewrite Hh, !length_app, Hlen; lia).
      now apply Hsent. }
    exists w', res, r, h, (S (length (objs w))).
    repeat (split; [assumption|]).
    split; [rewrite Hh, <- app_assoc; cbn [app]; rewrite <- Hlen;
            apply lookup_second|].
    split; [rewrite Hsent by exact Hlt; now apply list_lookup_insert_eq|].
    split; [intros l Hl Hnl; rewrite Hsent by exact Hl;
            now rewrite list_lookup_insert_ne|].
    split; [rewrite Hold by exact Hlt; now apply list_lookup_insert_eq|].
    split; [rewrite Hold by exact Hpt; now rewrite list_lookup_insert_ne|].
    intros l Hl Hnl. rewrite Hold by exact Hl.
    now rewrite list_lookup_insert_ne.
Qed.

End CreateCompany.

(** ** Properties that are not a dictionary *)

Section BadProperties.
Context {lib : External}.

Lemma setitem_not_dict v k x w :
  (forall l, v <> VDict l) ->
  setitem v k x w = (w, Raise (TypeError (assignment_error v))).
Proof. intros Hv. destruct v; try reflexivity. now contradiction (Hv l). Qed.

(** One shorthand statement on a target that is not a dictionary. *)
Lemma shorthand_not_dict {B} params v k d (rest : M B) w :
  entries (objs w) params = d -> (forall l, v <> VDict l) ->
  (b ← contains k params;
   (if b : bool then x ← subscript params k; setitem v k x
    else ret tt);;
   rest) w
  = if dict_has d k
    then (w, Raise (TypeError (assignment_error v)))
    else rest w.
Proof.
  intros Hd Hv. mrun. rewrite Hd.
  destruct (dict_has d k) eqn:Hk; [|reflexivity].
  apply dict_has_get_some in Hk as [x Hx]. mrun. rewrite Hd, Hx.
  now rewrite (setitem_not_dict v k x w Hv).
Qed.

Lemma _handle_create_contact_not_dict self params d v w :
  objs w !! params = Some d -> dict_get d "properties" = Some v ->
  (forall l, v <> VDict l) ->
  _handle_create_contact self params w
  = let w0 := {| objs := (objs w ++ [[]])%list; calls := calls w |} in
    if dict_has d "email" || dict_has d "firstname" || dict_has d "lastname"
    then (w0, Raise (TypeError (assignment_error v)))
    else create_contact (client self) v w0.
Proof.
  intros Hp Hsome Hv. unfold _handle_create_contact.
  erewrite bind_ok by reflexivity.
  erewrite bind_ok by reflexivity. cbn [objs].
  rewrite (entries_app_l _ _ _ _ Hp), Hsome. cbn [default]. cbv beta zeta.
  assert (entries (objs {| objs := (objs w ++ [[]])%list;
                           calls := calls w |}) params = d) as Hd
    by (cbn [objs]; now apply entries_app_l).
  rewrite (shorthand_not_dict params v "email" d _ _ Hd Hv).
  destruct (dict_has d "email"); [reflexivity|].
  rewrite (shorthand_not_dict params v "firstname" d _ _ Hd Hv).
  destruct (dict_has d "firstname"); [reflexivity|].
  rewrite (shorthand_not_dict params v "lastname" d _ _ Hd Hv).
  now destruct (dict_has d "lastname").
Qed.

Lemma _handle_create_company_not_dict self params d v w :
  objs w !! params = Some d -> dict_get d "properties" = Some v ->
  (forall l, v <> VDict l) ->
  _handle_create_company self params w
  = let w0 := {| objs := (objs w ++ [[]])%list; calls := calls w |} in
    if dict_has d "name"
    then (w0, Raise (TypeError (assignment_error v)))
    else create_company (client self) v w0.
Proof.
  intros Hp Hsome Hv. unfold _handle_create_company.
  erewrite bind_ok by reflexivity.
  erewrite bind_ok by reflexivity. cbn [objs].
  rewrite (entries_app_l _ _ _ _ Hp), Hsome. cbn [default]. cbv beta zeta.
  assert (entries (objs {| objs := (objs w ++ [[]])%list;
                           calls := calls w |}) params = d) as Hd
    by (cbn [objs]; now apply entries_app_l).
  rewrite (shorthand_not_dict params v "name" d _ _ Hd Hv).
  now destruct (dict_has d "name").
Qed.

(** X12. create_contact and create_company with a properties argument
    that is not a dictionary (a string, a number, a list, [None]): when
    the argument map also has one of the tool's shorthand fields, the call
    ends in the failure envelope with the [TypeError] of the item
    assignment and nothing is sent; the store gains the unused default
    dictionary and the envelope. *)
Theorem shorthand_on_bad_properties self params d v w :
  objs w !! params = Some d ->
  dict_get d "properties" = Some v ->
  (forall l, v <> VDict l) ->
  let failed :=
    ({| objs := (objs w ++ [[]; [("success", VBool false);
                                 ("error", VStr (assignment_error v))]])%list;
        calls := calls w |},
     Ok (VDict (S (length (objs w))))) in
  (dict_has d "email" || dict_has d "firstname" || dict_has d "lastname"
   = true ->
   handle_tool_call self "create_contact" params w = failed) /\
  (dict_has d "name" = true ->
   handle_tool_call self "create_company" params w = failed).
Proof.
  intros Hp Hsome Hv failed. split; intros Hgiven.
  - rewrite (handle_tool_call_run _ _ _ _ _
               (create_contact_registered self)). cbn [handler].
    rewrite (_handle_create_contact_not_dict self params d v w Hp Hsome Hv).
    cbv zeta. rewrite Hgiven. unfold failed. cbn [objs calls].
    rewrite length_app, <- app_assoc. cbn [length app].
    now rewrite Nat.add_1_r.
  - rewrite (handle_tool_call_run _ _ _ _ _
               (create_company_registered self)). cbn [handler].
    rewrite (_handle_create_company_not_dict self params d v w Hp Hsome Hv).
    cbv zeta. rewrite Hgiven. unfold failed. cbn [objs calls].
    rewrite length_app, <- app_assoc. cbn [length app].
    now rewrite Nat.add_1_r.
Qed.

(** X13. With a properties argument that is not a dictionary and none of
    the shorthand fields, create_contact and create_company do not fail:
    they forward the value as it is, under properties, in the body of the
    POST. *)
Theorem bad_properties_forwarded self params d v w jv :
  objs w !! params = Some d ->
  dict_get d "properties" = Some v ->
  (forall l, v <> VDict l) ->
  json_dumps (objs w) v = Some jv ->
  (dict_has d "email" || dict_has d "firstname" || dict_has d "lastname"
   = false ->
   tool_sends self "create_contact" params w "POST"
     (urljoin (base_url (client self)) "/crm/v3/objects/contacts")
     (fun r h => body_of r h = Some (properties_body jv))) /\
  (dict_has d "name" = false ->
   tool_sends self "create_company" params w "POST"
     (urljoin (base_url (client self)) "/crm/v3/objects/companies")
     (fun r h => body_of r h = Some (properties_body jv))).
Proof.
  intros Hp Hsome Hv Hjv.
  assert (forall ext : store,
            json_dumps ((objs w ++ [[]]) ++ [[("properties", v)]] ++ ext)%list
              (VDict (length (objs w ++ [[]])%list))
            = Some (properties_body jv)) as Hbody.
  { intros ext. rewrite app_assoc. apply properties_body_dumps.
    now apply json_dumps_app. }
  split; intros Hnone.
  - apply (dispatch_sends _ _ _ _ _ _ _ _ (create_contact_registered self)).
    cbn [handler]. unfold sends.
    rewrite (_handle_create_contact_not_dict self params d v w Hp Hsome Hv).
    cbv zeta. rewrite Hnone. unfold create_contact.
    erewrite bind_ok by reflexivity.
    destruct (request_with_body (client self) "POST"
                "/crm/v3/objects/contacts" (length (objs w ++ [[]])%list)
                {| objs := ((objs w ++ [[]]) ++ [[("properties", v)]])%list;
                   calls := calls w |})
      as (w' & res & r & h & ext & E & Hs & Hm & Hu & Hj & Hh).
    exists w', res, r, h. cbn [objs calls] in *.
    repeat (split; [assumption|]).
    unfold body_of. rewrite Hj, Hh, <- app_assoc. apply Hbody.
  - apply (dispatch_sends _ _ _ _ _ _ _ _ (create_company_registered self)).
    cbn [handler]. unfold sends.
    rewrite (_handle_create_company_not_dict self params d v w Hp Hsome Hv).
    cbv zeta. rewrite Hnone. unfold create_company.
    erewrite bind_ok by reflexivity.
    destruct (request_with_body (client self) "POST"
                "/crm/v3/objects/companies" (length (objs w ++ [[]])%list)
                {| objs := ((objs w ++ [[]]) ++ [[("properties", v)]])%list;
                   calls := calls w |})
      as (w' & res & r & h & ext & E & Hs & Hm & Hu & Hj & Hh).
    exists w', res, r, h. cbn [objs calls] in *.
    repeat (split; [assumption|]).
    unfold body_of. rewrite Hj, Hh, <- app_assoc. apply Hbody.
Qed.

End BadProperties.

(** ** What a call leaves of the caller's store *)

Lemma keeps_ret n {A} (P : A -> Prop) (a : A) : P a -> keeps n P (ret a).
Proof. intros HP w Hn. now repeat split. Qed.

Lemma keeps_bind n {A B} (P : A -> Prop) (Q : B -> Prop) (c : M A)
    (k : A -> M B) :
  keeps n P c -> (forall a, P a -> keeps n Q (k a)) -> keeps n Q (c ≫= k).
Proof.
  intros Hc Hk w Hn. unfold mbind, M_bind, bind.
  destruct (Hc w Hn) as (Hlen & Hold & HP).
  destruct (c w) as [w1 [a|e]]; cbn [fst snd] in *.
  - destruct (Hk a HP w1 Hlen) as (Hlen' & Hold' & HQ).
    split; [exact Hlen'|]. split; [|exact HQ].
    intros l Hl. now rewrite Hold', Hold.
  - now repeat split.
Qed.

(** A computation that does not change the world keeps everything. *)
Lemma keeps_unchanged n {A} (c : M A) :
  (forall w, fst (c w) = w) -> keeps n (fun _ => True) c.
Proof.
  intros Hc w Hn. rewrite Hc. repeat split; [exact Hn|].
  now destruct (snd (c w)).
Qed.

Lemma keeps_new_dict n d : keeps n (fun l => (n <= l)%nat) (new_dict d).
Proof.
  intros w Hn. cbn [new_dict fst snd objs]. rewrite length_app.
  split; [lia|]. split; [|exact Hn].
  intros l Hl. apply lookup_app_l. lia.
Qed.

Lemma keeps_store_item n l k v :
  (n <= l)%nat -> keeps n (fun _ => True) (store_item l k v).
Proof.
  intros Hl w Hn. cbn [store_item fst snd objs]. rewrite length_insert.
  split; [exact Hn|]. split; [|exact I].
  intros l' Hl'. apply list_lookup_insert_ne. lia.
Qed.

Lemma keeps_if n {A} (P : A -> Prop) (b : bool) (c1 c2 : M A) :
  keeps n P c1 -> keeps n P c2 -> keeps n P (if b then c1 else c2).
Proof. now destruct b. Qed.

Lemma unchanged_subscript l k w : fst (subscript l k w) = w.
Proof. mrun. now destruct (dict_get _ _). Qed.

Lemma unchanged_truthy v w : fst (truthy v w) = w.
Proof. now destruct v. Qed.

Lemma unchanged_comma_join v w : fst (comma_join v w) = w.
Proof.
  destruct v; try reflexivity. simpl. now destruct (str_items 0 xs).
Qed.

Section Kept.
Context {lib : External}.

Lemma keeps_request n self m e p j :
  p = None \/ (exists l, p = Some l /\ (n <= l)%nat) ->
  keeps n (fun _ => True) (_request self m e p j).
Proof.
  intros Hp w Hn.
  destruct (_request_sent self m e p j w) as (w' & res & ext & E & _ & Ho).
  rewrite E. cbn [fst snd]. rewrite Ho. unfold outgoing. cbn [snd].
  pose proof (with_api_key_length self p (objs w)) as Hlen.
  split; [rewrite length_app; lia|]. split; [|now destruct res].
  intros l Hl. rewrite lookup_app_l by lia.
  apply with_api_key_frame; [lia|].
  destruct Hp as [->|(l' & -> & Hl')]; [discriminate|].
  intros [= ->]. lia.
Qed.

Ltac kept :=
  repeat lazymatch goal with
    | |- keeps _ _ (new_dict _ ≫= _) =>
        eapply keeps_bind; [apply keeps_new_dict | intros ? ?]
    | |- keeps _ _ (_ ≫= _) =>
        eapply keeps_bind; [|intros ? _]
    | |- keeps _ _ (if _ then _ else _) => apply keeps_if
    | |- keeps _ _ (ret _) => now apply keeps_ret
    | |- keeps _ _ (store_item _ _ _) => now apply keeps_store_item
    | |- keeps _ _ (subscript _ _) =>
        apply keeps_unchanged, unchanged_subscript
    | |- keeps _ _ (truthy _) => apply keeps_unchanged, unchanged_truthy
    | |- keeps _ _ (comma_join _) =>
        apply keeps_unchanged, unchanged_comma_join
    | |- keeps _ _ (_request _ _ _ _ _) =>
        apply keeps_request; first [now left | right; eauto]
    | |- keeps _ _ _ => apply keeps_unchanged; reflexivity
    end.

(** The handlers that only read the argument map. *)
Lemma handlers_keep_store self n :
  Forall (fun nt =>
            fst nt <> "create_contact" -> fst nt <> "create_company" ->
            forall params,
              keeps n (fun _ => True) (handler (snd nt) params))
    (tools self).
Proof.
  unfold tools, _register_tools.
  repeat apply List.Forall_cons; try apply List.Forall_nil;
    cbn [fst snd handler]; intros Hc1 Hc2 params;
    try (now contradiction Hc1); try (now contradiction Hc2).
  - unfold _handle_list_contacts, get_contacts. kept.
  - unfold _handle_get_contact, get_contact. kept.
  - unfold _handle_update_contact, update_contact. kept.
  - unfold _handle_list_companies, get_companies. kept.
  - unfold _handle_get_company, get_company. kept.
  - unfold _handle_list_deals, get_deals. kept.
  - unfold _handle_search, search. kept.
Qed.

(** X14. Every registered tool but create_contact and create_company
    leaves the objects the caller holds as they are: after the call each
    location of the caller's store has the entries it had before, for any
    argument map, credential and answer. *)
Theorem read_only_tools self name params w l :
  dict_has (tools self) name = true ->
  name <> "create_contact" -> name <> "create_company" ->
  (l < length (objs w))%nat ->
  objs (fst (handle_tool_call self name params w)) !! l = objs w !! l.
Proof.
  intros Hreg Hc1 Hc2 Hl.
  apply dict_has_get_some in Hreg as [tool Hget].
  rewrite (handle_tool_call_run _ _ _ _ _ Hget).
  pose proof (handlers_keep_store self (length (objs w))) as HF.
  rewrite List.Forall_forall in HF.
  destruct (HF _ (dict_get_In _ _ _ Hget) Hc1 Hc2 params w (Nat.le_refl _))
    as (Hlen & Hold & _).
  cbn [snd] in *.
  destruct (handler tool params w) as [w1 [v|e]]; cbn [fst objs] in *;
    (rewrite lookup_app_l by lia); now apply Hold.
Qed.

End Kept.

(** ** The answer comes back as it was parsed *)

Lemma dict_set_new {V} (d : list (string * V)) k v :
  dict_has d k = false -> dict_set d k v = (d ++ [(k, v)])%list.
Proof.
  induction d as [|[k' v'] d IH]; simpl; [reflexivity|].
  destruct (String.eqb k' k); [discriminate|].
  intros Hk. now rewrite IH.
Qed.

Lemma dict_has_app {V} (d1 d2 : list (string * V)) k :
  dict_has (d1 ++ d2)%list k = dict_has d1 k || dict_has d2 k.
Proof.
  induction d1 as [|[k' v'] d1 IH]; simpl; [reflexivity|].
  now destruct (String.eqb k' k).
Qed.

Lemma existsb_eqb_dict_has {V} (d : list (string * V)) k :
  existsb (String.eqb k) (map fst d) = dict_has d k.
Proof.
  induction d as [|[k' v'] d IH]; simpl; [reflexivity|].
  rewrite IH, (String.eqb_sym k k'). now destruct (String.eqb k' k).
Qed.

Lemma dumps_scalar n (h : store) v j :
  match v with VList _ | VDict _ => False | _ => True end ->
  dumps 0 h v = Some j -> dumps n h v = Some j.
Proof. intros Hv. destruct n; [auto|]. now destruct v. Qed.

Lemma dumps_entries n (h : store) (d : dict) (fs : list (string * json)) :
  Forall2 (fun kv kj => dumps n h (snd kv) = Some (snd kj)) d fs ->
  map fst d = map fst fs ->
  sequence_opt
    (map (fun kv => option_map (pair (fst kv)) (dumps n h (snd kv))) d)
  = Some fs.
Proof.
  intros D. induction D as [|[k v] [k' x] d fs Hv _ IH]; intros Hd;
    [reflexivity|].
  cbn [map fst snd] in *. injection Hd as -> Hd.
  rewrite Hv. cbn [option_map sequence_opt]. now rewrite (IH Hd).
Qed.

(** Loading a document and writing it again gives the document, when no
    object has a key twice.  The value stays readable however the store
    is extended afterwards. *)
Lemma load_dumps j :
  unique_keys j = true ->
  forall w, exists ext v,
    load j w = ({| objs := (objs w ++ ext)%list; calls := calls w |}, Ok v) /\
    forall ext' n, (length ext <= n)%nat ->
      dumps n ((objs w ++ ext) ++ ext')%list v = Some j.
Proof.
  induction j as [| b | n | s | xs IH | fs IH] using json_ind_list;
    intros Hu w.
  - exists [], VNone. split; [cbn; now rewrite app_nil_r, world_eta|].
    intros ext' n _. now destruct n.
  - exists [], (VBool b). split; [cbn; now rewrite app_nil_r, world_eta|].
    intros ext' n _. now destruct n.
  - exists [], (VInt n). split; [cbn; now rewrite app_nil_r, world_eta|].
    intros ext' m _. now destruct m.
  - exists [], (VStr s). split; [cbn; now rewrite app_nil_r, world_eta|].
    intros ext' n _. now destruct n.
  - (* arrays *)
    cbn [unique_keys] in Hu.
    assert (Hitems : forall w, exists ext vs,
      (fix items (xs : list json) : M (list value) :=
         match xs with
         | [] => ret []
         | x :: r => v ← load x; vs ← items r; ret (v :: vs)
         end) xs w
      = ({| objs := (objs w ++ ext)%list; calls := calls w |}, Ok vs) /\
      forall ext' n, (length ext <= n)%nat ->
        Forall2 (fun v j => dumps n ((objs w ++ ext) ++ ext')%list v = Some j)
          vs xs).
    { clear w. induction IH as [|x xs Hx _ IHxs]; intros w.
      - exists [], []. split; [cbn; now rewrite app_nil_r, world_eta|].
        intros; constructor.
      - cbn [forallb] in Hu. apply andb_prop in Hu as [Hux Huxs].
        destruct (Hx Hux w) as (e1 & v & E1 & D1).
        destruct (IHxs Huxs {| objs := (objs w ++ e1)%list;
                               calls := calls w |})
          as (e2 & vs & E2 & D2).
        exists (e1 ++ e2)%list, (v :: vs). split.
        + mrun. rewrite E1. mrun. rewrite E2. mrun. now rewrite app_assoc.
        + intros ext' n Hn. rewrite length_app in Hn. constructor.
          * rewrite <- !app_assoc. rewrite app_assoc.
            apply D1. lia.
          * cbn [objs] in D2. rewrite app_assoc. apply D2. lia. }
    destruct (Hitems w) as (ext & vs & E & D).
    exists ext, (VList vs). split.
    + cbn [load]. mrun. rewrite E. reflexivity.
    + intros ext' n Hn. apply dumps_items. now apply D.
  - (* objects *)
    cbn [unique_keys] in Hu. apply andb_prop in Hu as [Hkeys Hvals].
    assert (Hpairs : forall acc w,
      (forall k, In k (map fst fs) -> dict_has acc k = false) ->
      exists ext d,
      (fix pairs (fs : list (string * json)) (acc : dict) : M dict :=
         match fs with
         | [] => ret acc
         | (k, x) :: r => v ← load x; pairs r (dict_set acc k v)
         end) fs acc w
      = ({| objs := (objs w ++ ext)%list; calls := calls w |},
         Ok (acc ++ d)%list) /\
      map fst d = map fst fs /\
      forall ext' n, (length ext <= n)%nat ->
        Forall2 (fun kv kj =>
                   dumps n ((objs w ++ ext) ++ ext')%list (snd kv)
                   = Some (snd kj)) d fs).
    { clear w. induction IH as [|[k x] fs Hx _ IHfs]; intros acc w Hacc.
      - exists [], []. split; [cbn; now rewrite !app_nil_r, world_eta|].
        split; [reflexivity|]. intros; constructor.
      - cbn [map fst distinct_keys] in Hkeys.
        apply andb_prop in Hkeys as [Hk Hkeys].
        apply andb_prop in Hvals as [Hux Hvals].
        destruct (Hx Hux w) as (e1 & v & E1 & D1). cbn [snd] in *.
        destruct (IHfs Hkeys Hvals (dict_set acc k v)
                    {| objs := (objs w ++ e1)%list; calls := calls w |})
          as (e2 & d & E2 & Hd & D2).
        { intros k' Hin.
          rewrite dict_set_new by (apply Hacc; now left).
          rewrite dict_has_app, (Hacc k') by (now right). cbn [dict_has orb].
          destruct (String.eqb_spec k k') as [->|Hne]; [|reflexivity].
          apply negb_true_iff in Hk.
          assert (existsb (String.eqb k') (map fst fs) = true) as Hex.
          { apply existsb_exists. exists k'. split; [exact Hin|].
            apply String.eqb_refl. }
          congruence. }
        rewrite dict_set_new in E2 by (apply Hacc; now left).
        exists (e1 ++ e2)%list, ((k, v) :: d). split.
        + mrun. rewrite E1. mrun.
          rewrite dict_set_new by (apply Hacc; now left). rewrite E2.
          now rewrite app_assoc, <- (app_assoc acc).
        + split; [cbn [map fst]; now rewrite Hd|].
          intros ext' n Hn. rewrite length_app in Hn. constructor.
          * cbn [snd]. rewrite <- !app_assoc. rewrite app_assoc.
            apply D1. lia.
          * cbn [objs] in D2. rewrite app_assoc. apply D2. lia. }
    destruct (Hpairs [] w) as (ext & d & E & Hd & D); [reflexivity|].
    cbn [app] in E.
    exists (ext ++ [d])%list, (VDict (length (objs w ++ ext)%list)). split.
    + cbn [load]. mrun. rewrite E. mrun. now rewrite app_assoc.
    + intros ext' n Hn. rewrite length_app in Hn. cbn [length] in Hn.
      destruct n as [|n]; [lia|].
      rewrite dumps_dict.
      rewrite (app_assoc (objs w)), <- (app_assoc (objs w ++ ext)).
      cbn [app]. rewrite lookup_first.
      assert (sequence_opt
                (map (fun kv => option_map (pair (fst kv))
                        (dumps n ((objs w ++ ext) ++ d :: ext')%list
                           (snd kv))) d)
              = Some fs) as ->; [|reflexivity].
      apply dumps_entries; [|exact Hd]. apply D. lia.
Qed.

Section Parsed.
Context {lib : External}.

(** A 2xx answer other than 204 with a body that parses: [_request]
    returns the loaded document. *)
Lemma _request_parsed self m e p j w w' res r h resp jd :
  _request self m e p j w = (w', res) -> sent_by w w' r h ->
  client_request (calls w) r h = Reply resp ->
  (200 <=? status_code resp) && (status_code resp <=? 299) = true ->
  (status_code resp =? 204) = false ->
  json_loads (text resp) = Parsed jd -> unique_keys jd = true ->
  exists v, res = Ok v /\
            forall ext n, (length (objs w') <= n)%nat ->
                          dumps n (objs w' ++ ext)%list v = Some jd.
Proof.
  intros E Hs Hr H2 H204 Hj Hu.
  destruct (_request_sent self m e p j w) as (w2 & res2 & ext0 & E2 & Hs2 & _).
  rewrite E in E2. injection E2 as <- <-.
  destruct (sent_by_inj _ _ _ _ _ _ Hs Hs2) as [-> ->]. clear Hs2.
  rewrite _request_run in E. cbv zeta in E.
  rewrite Hr, H2, H204 in E. unfold response_json in E. rewrite Hj in E.
  match type of E with
  | load _ ?w1 = _ => destruct (load_dumps jd Hu w1) as (ext & v & E1 & D)
  end.
  rewrite E1 in E. injection E as <- <-. exists v. split; [reflexivity|].
  intros ext' n Hn. cbn [objs] in *. apply D.
  rewrite length_app in Hn. lia.
Qed.

Lemma handler_request self name tool params w w' res r h :
  dict_get (tools self) name = Some tool ->
  handler tool params w = (w', res) -> sent_by w w' r h ->
  exists w0 m ep p j,
    calls w0 = calls w /\ _request (client self) m ep p j w0 = (w', res).
Proof.
  intros Hget E Hs.
  pose proof (registry_one_request self) as HF.
  rewrite List.Forall_forall in HF.
  specialize (HF _ (dict_get_In _ _ _ Hget) params w). cbn [snd] in HF.
  destruct HF as [(w1 & ex & E1 & Hc & _)|(w0 & m & ep & p & j & Hc & E1)].
  - rewrite E in E1. injection E1 as -> ->.
    now apply not_sent_by in Hs.
  - exists w0, m, ep, p, j. split; [exact Hc|]. now rewrite <- E1.
Qed.

(** X15. A 2xx answer other than 204 whose body parses to a document with
    no repeated key: [_request] returns a value that [json.dumps] writes
    as that document, and for a registered tool the dispatcher's result is
    written as the object with success true and the document under
    result. *)
Theorem parsed_body_returned self :
  (forall m e p j w w' res r h resp jd,
      _request (client self) m e p j w = (w', res) -> sent_by w w' r h ->
      client_request (calls w) r h = Reply resp ->
      (200 <=? status_code resp) && (status_code resp <=? 299) = true ->
      (status_code resp =? 204) = false ->
      json_loads (text resp) = Parsed jd -> unique_keys jd = true ->
      exists v, res = Ok v /\ json_dumps (objs w') v = Some jd) /\
  (forall name params w w' res r h resp jd,
      dict_has (tools self) name = true ->
      handle_tool_call self name params w = (w', res) ->
      sent_by w w' r h ->
      client_request (calls w) r h = Reply resp ->
      (200 <=? status_code resp) && (status_code resp <=? 299) = true ->
      (status_code resp =? 204) = false ->
      json_loads (text resp) = Parsed jd -> unique_keys jd = true ->
      exists v, res = Ok v /\
                json_dumps (objs w') v
                = Some (JObj [("success", JBool true); ("result", jd)])).
Proof.
  split.
  - intros m e p j w w' res r h resp jd E Hs Hr H2 H204 Hj Hu.
    destruct (_request_parsed _ _ _ _ _ _ _ _ _ _ _ _ E Hs Hr H2 H204 Hj Hu)
      as (v & -> & D).
    exists v. split; [reflexivity|].
    specialize (D [] (length (objs w')) ltac:(lia)).
    now rewrite app_nil_r in D.
  - intros name params w w' res r h resp jd Hreg E Hs Hr H2 H204 Hj Hu.
    apply dict_has_get_some in Hreg as [tool Hget].
    rewrite (handle_tool_call_run _ _ _ _ _ Hget) in E.
    destruct (handler tool params w) as [w1 hres] eqn:Eh.
    assert (sent_by w w1 r h) as Hs1.
    { unfold sent_by in *. destruct hres; injection E as <- <-; exact Hs. }
    destruct (handler_request _ _ _ _ _ _ _ _ _ Hget Eh Hs1)
      as (w0 & m & ep & p & j & Hc & E0).
    rewrite <- Hc in Hr.
    destruct (_request_parsed _ _ _ _ _ _ _ _ _ _ _ _ E0
                (sent_by_calls _ _ _ _ _ Hc Hs1) Hr H2 H204 Hj Hu)
      as (v & -> & D).
    injection E as <- <-. eexists. split; [reflexivity|].
    unfold json_dumps. cbn [objs]. rewrite length_app, Nat.add_comm.
    cbn [length Nat.add]. rewrite dumps_dict, lookup_fresh.
    cbn [map fst snd]. rewrite (D _ _ (Nat.le_refl _)).
    now destruct (length (objs w1)).
Qed.
End Parsed.

(** ** The tools on one object *)

Section IdTools.
Context {lib : External}.

(** X16. The tools on one object.  get_contact and get_company send a GET
    to the path of the object type followed by the identifier of the
    argument map, as [str] prints it, without body; update_contact sends
    a PATCH to the contact's path with the properties of the argument map
    under the key properties as the body. *)
Theorem id_tools_route self params w :
  let d := entries (objs w) params in
  (forall id,
      dict_get d "contact_id" = Some id ->
      tool_sends self "get_contact" params w "GET"
        (urljoin (base_url (client self))
           ("/crm/v3/objects/contacts/" ++ py_str (objs w) id))
        (fun r h => req_json r = None /\
                    forall k, k <> "hapikey" ->
                              dict_get (query_of (req_params r) h) k = None))
  /\
  (forall id,
      dict_get d "company_id" = Some id ->
      tool_sends self "get_company" params w "GET"
        (urljoin (base_url (client self))
           ("/crm/v3/objects/companies/" ++ py_str (objs w) id))
        (fun r h => req_json r = None /\
                    forall k, k <> "hapikey" ->
                              dict_get (query_of (req_params r) h) k = None))
  /\
  (forall id properties jp,
      dict_get d "contact_id" = Some id ->
      dict_get d "properties" = Some properties ->
      json_dumps (objs w) properties = Some jp ->
      tool_sends self "update_contact" params w "PATCH"
        (urljoin (base_url (client self))
           ("/crm/v3/objects/contacts/" ++ py_str (objs w) id))
        (fun r h => body_of r h = Some (properties_body jp) /\
                    forall k, k <> "hapikey" ->
                              dict_get (query_of (req_params r) h) k = None)).
Proof.
  intros d. split; [|split].
  - intros id Hid. eapply dispatch_sends; [reflexivity|].
    eapply sends_impl.
    + apply (by_id_sends (client self) "GET" "/crm/v3/objects/contacts/"
               _ id w).
      cbn [handler]. unfold _handle_get_contact, get_contact. mrun.
      fold d. now rewrite Hid.
    + intros r h (Hj & Hq & _). now split.
  - intros id Hid. eapply dispatch_sends; [reflexivity|].
    eapply sends_impl.
    + apply (by_id_sends (client self) "GET" "/crm/v3/objects/companies/"
               _ id w).
      cbn [handler]. unfold _handle_get_company, get_company. mrun.
      fold d. now rewrite Hid.
    + intros r h (Hj & Hq & _). now split.
  - intros id properties jp Hid Hp Hjp.
    eapply dispatch_sends; [reflexivity|].
    eapply sends_impl.
    + apply (with_body_sends (client self) "PATCH"
               ("/crm/v3/objects/contacts/" ++ py_str (objs w) id)
               _ properties jp w Hjp).
      cbn [handler]. unfold _handle_update_contact, update_contact. mrun.
      fold d. rewrite Hid. mrun. fold d. now rewrite Hp.
    + intros r h (Hb & Hq & _). now split.
Qed.

End IdTools.

(** ** Property names that are not a list of strings *)

Lemma str_items_not_str i (names : list string) x rest :
  (forall s, x <> VStr s) ->
  str_items i (map VStr names ++ x :: rest)%list
  = inr (TypeError ("sequence item "
                    ++ decimal (Z.of_nat (i + length names))
                    ++ ": expected str instance, " ++ type_name x
                    ++ " found")).
Proof.
  intros Hx. revert i. induction names as [|s names IH]; intros i.
  - cbn [map app length]. rewrite Nat.add_0_r.
    destruct x; try reflexivity. now contradiction (Hx s).
  - cbn [map app length str_items]. rewrite (IH (S i)).
    now rewrite Nat.add_succ_r.
Qed.

Section PropertyNames.
Context {lib : External}.

(** X17. list_contacts with a properties argument that is not a list of
    strings.  A string that is not empty is joined character by
    character, a character being one [ascii] of the string: the request
    carries its characters separated by commas.
    A list with an item that is not a string sends nothing: the
    dispatcher returns the failure envelope that names the position and
    the type of the first such item. *)
Theorem list_contacts_other_properties self params w :
  let d := entries (objs w) params in
  let limit := default (VInt 100) (dict_get d "limit") in
  (forall s,
      dict_get d "properties" = Some (VStr s) -> s <> EmptyString ->
      tool_sends self "list_contacts" params w "GET"
        (urljoin (base_url (client self)) "/crm/v3/objects/contacts")
        (fun r h =>
           dict_get (query_of (req_params r) h) "properties"
           = Some (VStr (str_join "," (chars s))))) /\
  (forall names x rest,
      dict_get d "properties" = Some (VList (map VStr names ++ x :: rest)) ->
      (forall s, x <> VStr s) ->
      handle_tool_call self "list_contacts" params w
      = ({| objs :=
              (objs w ++
               [[("limit", limit)];
                [("success", VBool false);
                 ("error",
                  VStr ("sequence item "
                        ++ decimal (Z.of_nat (length names))
                        ++ ": expected str instance, " ++ type_name x
                        ++ " found"))]])%list;
            calls := calls w |},
         Ok (VDict (S (length (objs w)))))).
Proof.
  intros d limit. split.
  - intros s Hp Hs. eapply dispatch_sends; [reflexivity|].
    eapply sends_impl.
    + apply (sends_with_query (client self) "GET" "/crm/v3/objects/contacts"
               _ w [("limit", limit);
                    ("properties", VStr (str_join "," (chars s)))]).
      cbn [handler]. unfold _handle_list_contacts, get_contacts.
      erewrite bind_ok by reflexivity. erewrite bind_ok by reflexivity.
      erewrite bind_ok by reflexivity. fold d. rewrite Hp.
      cbn [default from_option id].
      erewrite bind_ok
        by (cbn [truthy]; unfold ret;
            rewrite (proj2 (String.eqb_neq s EmptyString) Hs); reflexivity).
      cbn [negb].
      erewrite bind_ok.
      2:{ erewrite bind_ok by reflexivity. reflexivity. }
      cbn [objs calls]. rewrite (entries_fresh (objs w)), insert_fresh.
      reflexivity.
    + intros r h (_ & Hq & _). now rewrite Hq.
  - intros names x rest Hp Hx.
    rewrite (handle_tool_call_run self "list_contacts"
               {| description := "List contacts from HubSpot CRM";
                  parameters := list_contacts_parameters;
                  handler := _handle_list_contacts self |} params w eq_refl).
    cbn [handler]. unfold _handle_list_contacts, get_contacts.
    erewrite bind_ok by reflexivity. erewrite bind_ok by reflexivity.
    erewrite bind_ok by reflexivity. fold d. rewrite Hp.
    cbn [default from_option id].
    erewrite bind_ok
      by (cbn [truthy]; rewrite length_app, length_map; cbn [length];
          rewrite Nat.add_succ_r; reflexivity).
    cbn [negb]. unfold comma_join.
    rewrite (str_items_not_str 0 names x rest Hx). mrun.
    cbn [Nat.eqb negb Nat.add exn_str objs calls].
    rewrite length_app. cbn [length].
    rewrite Nat.add_1_r, <- app_assoc. reflexivity.
Qed.

End PropertyNames.

(** * The theorems at concrete inputs *)


(** unknown_tool is not registered, and the dispatcher raises. *)
Lemma handle_tool_call_unknown_witness :
  dict_has (tools (lib := Scenario.ok) Scenario.server) "unknown_tool"
  = false /\
  handle_tool_call (lib := Scenario.ok) Scenario.server "unknown_tool" 0%nat
    (Scenario.holding Scenario.contact_123)
  = (Scenario.holding Scenario.contact_123,
     Raise (ValueError ("Unknown tool: " ++ "unknown_tool"))) /\
  forall w' v,
    handle_tool_call (lib := Scenario.ok) Scenario.server "unknown_tool" 0%nat
      (Scenario.holding Scenario.contact_123) <> (w', Ok v).
Proof.
  split; [reflexivity|].
  apply (handle_tool_call_unknown (lib := Scenario.ok) Scenario.server
           "unknown_tool" 0%nat (Scenario.holding Scenario.contact_123)).
  reflexivity.
Defined.

(** get_contact: contact_id is required and needed, and nothing else is
    needed. *)
Lemma required_and_needed_witness :
  dict_get (tools (lib := Scenario.ok) Scenario.server) "get_contact"
  = Some Scenario.get_contact_tool /\
  (forall k, needs_key (handler Scenario.get_contact_tool) k ->
             In k (required (parameters Scenario.get_contact_tool))) /\
  (forall k, In k (required (parameters Scenario.get_contact_tool)) ->
             needs_key (handler Scenario.get_contact_tool) k).
Proof.
  split; [reflexivity|].
  apply (required_and_needed (lib := Scenario.ok) Scenario.server
           "get_contact" Scenario.get_contact_tool).
  reflexivity.
Defined.

(** The schema of create_contact requires email, and the handler runs on
    an empty argument map: it sends the request and raises no
    [KeyError]. *)
Lemma required_email_not_needed :
  exists t,
    dict_get (tools (lib := Scenario.ok) Scenario.server) "create_contact"
    = Some t /\
    In "email" (required (parameters t)) /\
    ~ needs_key (handler t) "email".
Proof.
  eexists. split; [reflexivity|]. split; [now left|].
  intros Hn.
  destruct (Hn (Scenario.holding []) 0%nat eq_refl) as (w' & k' & E).
  vm_compute in E. discriminate E.
Qed.

(** The two create_contact calls of the specification. *)
Lemma create_contact_body_witness :
  (exists w' res r h,
      handle_tool_call (lib := Scenario.ok) Scenario.server "create_contact"
        0%nat (Scenario.holding Scenario.email_and_firstname) = (w', res) /\
      sent_by (Scenario.holding Scenario.email_and_firstname) w' r h /\
      req_method r = "POST" /\
      req_url r = "https://api.hubapi.com/crm/v3/objects/contacts" /\
      body_of r h
      = Some (JObj [("properties",
                     JObj [("email", JStr "a@b.com");
                           ("firstname", JStr "X")])])) /\
  (exists w' res r h,
      handle_tool_call (lib := Scenario.ok) Scenario.server "create_contact"
        0%nat
        (Scenario.holding2 Scenario.email_and_properties
           Scenario.old_email_and_lastname) = (w', res) /\
      sent_by (Scenario.holding2 Scenario.email_and_properties
                 Scenario.old_email_and_lastname) w' r h /\
      req_method r = "POST" /\
      req_url r = "https://api.hubapi.com/crm/v3/objects/contacts" /\
      body_of r h
      = Some (JObj [("properties",
                     JObj [("email", JStr "a@b.com");
                           ("lastname", JStr "Y")])])).
Proof.
  split.
  - apply (proj1 (create_contact_body (lib := Scenario.ok) Scenario.server)
             0%nat Scenario.email_and_firstname
             (Scenario.holding Scenario.email_and_firstname));
      reflexivity.
  - apply (proj2 (create_contact_body (lib := Scenario.ok) Scenario.server)
             0%nat Scenario.email_and_properties 1%nat
             (Scenario.holding2 Scenario.email_and_properties
                Scenario.old_email_and_lastname));
      reflexivity.
Defined.

(** The search call of the specification, on the client and through the
    tool. *)
Lemma search_single_group_witness :
  (exists w' res r h,
      search (lib := Scenario.ok) (client Scenario.server) (VStr "contacts")
        (VList [VDict 0%nat]) (VInt 10)
        (Scenario.holding [("propertyName", VStr "email");
                           ("operator", VStr "EQ");
                           ("value", VStr "a@b.com")]) = (w', res) /\
      sent_by (Scenario.holding [("propertyName", VStr "email");
                                 ("operator", VStr "EQ");
                                 ("value", VStr "a@b.com")]) w' r h /\
      req_method r = "POST" /\
      req_url r = "https://api.hubapi.com/crm/v3/objects/contacts/search" /\
      body_of r h
      = Some (JObj [("filterGroups",
                     JArr [JObj [("filters",
                                  JArr [JObj [("propertyName", JStr "email");
                                              ("operator", JStr "EQ");
                                              ("value", JStr "a@b.com")]])]]);
                    ("limit", JInt 10)])) /\
  (exists w' res r h,
      handle_tool_call (lib := Scenario.ok) Scenario.server "search" 0%nat
        (Scenario.holding Scenario.search_by_email) = (w', res) /\
      sent_by (Scenario.holding Scenario.search_by_email) w' r h /\
      req_method r = "POST" /\
      body_of r h
      = Some (JObj [("filterGroups",
                     JArr [JObj [("filters",
                                  JArr [JObj [("propertyName", JStr "email");
                                              ("operator", JStr "EQ");
                                              ("value", JStr "a@b.com")]])]]);
                    ("limit", JInt 10)])).
Proof.
  split.
  - apply (proj1 (search_single_group (lib := Scenario.ok) Scenario.server)
             "contacts" [VDict 0%nat] (VInt 10)
             (Scenario.holding [("propertyName", VStr "email");
                                ("operator", VStr "EQ");
                                ("value", VStr "a@b.com")])).
    + constructor; [reflexivity | constructor].
    + reflexivity.
  - apply (proj2 (search_single_group (lib := Scenario.ok) Scenario.server)
             0%nat Scenario.search_by_email
             (Scenario.holding Scenario.search_by_email)
             "contacts" (VStr "email") (VStr "a@b.com"));
      reflexivity.
Defined.

(** A 204 answer to get_contact comes back inside the success envelope. *)
Lemma no_content_normalised_witness :
  exists v l,
    snd (handle_tool_call (lib := Scenario.no_content) Scenario.server
           "get_contact" 0%nat (Scenario.holding Scenario.contact_123))
    = Ok v /\
    success_envelope
      (objs (fst (handle_tool_call (lib := Scenario.no_content)
                    Scenario.server "get_contact" 0%nat
                    (Scenario.holding Scenario.contact_123))))
      v (VDict l) /\
    objs (fst (handle_tool_call (lib := Scenario.no_content)
                 Scenario.server "get_contact" 0%nat
                 (Scenario.holding Scenario.contact_123))) !! l
    = Some completed.
Proof.
  eapply (proj1 (proj2 (proj2 (no_content_normalised
                                 (lib := Scenario.no_content)
                                 Scenario.server)))
            "get_contact" 0%nat (Scenario.holding Scenario.contact_123)).
  - reflexivity.
  - reflexivity.
  - reflexivity.
  - reflexivity.
  - reflexivity.
Defined.

(** The dispatcher knows no delete_contact tool: with a remote API that
    answers 204 to everything, the call raises and returns no envelope. *)
Lemma delete_contact_not_dispatched :
  handle_tool_call (lib := Scenario.no_content) Scenario.server
    "delete_contact" 0%nat (Scenario.holding Scenario.contact_123)
  = (Scenario.holding Scenario.contact_123,
     Raise (ValueError "Unknown tool: delete_contact")) /\
  ~ exists w' v result,
      handle_tool_call (lib := Scenario.no_content) Scenario.server
        "delete_contact" 0%nat (Scenario.holding Scenario.contact_123)
      = (w', Ok v) /\
      success_envelope (objs w') v result.
Proof.
  split; [reflexivity|].
  intros (w' & v & result & E & _). discriminate E.
Qed.

(** A 500 answer to get_contact comes back as the failure envelope with the
    library's message. *)
Lemma status_error_surfaces_witness :
  exists r h resp v,
    sent_by (Scenario.holding Scenario.contact_123)
      (fst (handle_tool_call (lib := Scenario.server_error) Scenario.server
              "get_contact" 0%nat (Scenario.holding Scenario.contact_123)))
      r h /\
    status_code resp = 500 /\
    snd (handle_tool_call (lib := Scenario.server_error) Scenario.server
           "get_contact" 0%nat (Scenario.holding Scenario.contact_123))
    = Ok v /\
    failure_envelope
      (objs (fst (handle_tool_call (lib := Scenario.server_error)
                    Scenario.server "get_contact" 0%nat
                    (Scenario.holding Scenario.contact_123))))
      v (Scenario.httpx_message r h resp).
Proof.
  eexists _, _, {| status_code := 500;
                   reason_phrase := "Internal Server Error";
                   text := "boom" |}.
  assert (Hs : sent_by (Scenario.holding Scenario.contact_123)
      (fst (handle_tool_call (lib := Scenario.server_error) Scenario.server
              "get_contact" 0%nat (Scenario.holding Scenario.contact_123)))
      {| req_method := "GET";
         req_url := "https://api.hubapi.com/crm/v3/objects/contacts/123";
         req_params := None; req_json := None;
         req_headers := [("Content-Type", "application/json");
                         ("Authorization", "Bearer test_token")] |}
      [Scenario.contact_123]) by reflexivity.
  destruct (proj1 (proj2 (status_error_surfaces (lib := Scenario.server_error)
                            Scenario.server))
              "get_contact" 0%nat (Scenario.holding Scenario.contact_123)
              _ _ _ _ _ eq_refl eq_refl Hs eq_refl eq_refl) as (v & Hv & Henv).
  exists v. split; [exact Hs|]. split; [reflexivity|].
  split; [exact Hv | exact Henv].
Defined.

(** A 500 answer with body boom to get_contact, with the message that
    httpx gives the status error: the error of the envelope names the
    status and does not hold the body. *)
Lemma status_envelope_without_body :
  exists w' l msg,
    handle_tool_call (lib := Scenario.server_error) Scenario.server
      "get_contact" 0%nat (Scenario.holding Scenario.contact_123)
    = (w', Ok (VDict l)) /\
    objs w' !! l = Some [("success", VBool false); ("error", VStr msg)] /\
    occurs_in "500" msg = true /\
    occurs_in "boom" msg = false.
Proof. do 3 eexists. repeat split; vm_compute; reflexivity. Qed.

(** A create_contact call with a properties object writes into it. *)
Lemma create_contact_writes_properties_witness :
  exists w' res r h lb,
    handle_tool_call (lib := Scenario.ok) Scenario.server "create_contact"
      0%nat
      (Scenario.holding2 Scenario.email_and_properties
         Scenario.old_email_and_lastname) = (w', res) /\
    sent_by (Scenario.holding2 Scenario.email_and_properties
               Scenario.old_email_and_lastname) w' r h /\
    objs w' !! 1%nat
    = Some (with_shorthand Scenario.email_and_properties
              Scenario.old_email_and_lastname) /\
    objs w' !! 0%nat = Some Scenario.email_and_properties /\
    (forall l,
        (l < length (objs (Scenario.holding2 Scenario.email_and_properties
                             Scenario.old_email_and_lastname)))%nat ->
        l <> 1%nat ->
        objs w' !! l
        = objs (Scenario.holding2 Scenario.email_and_properties
                  Scenario.old_email_and_lastname) !! l) /\
    req_json r = Some lb /\
    h !! lb = Some [("properties", VDict 1%nat)] /\
    h !! 1%nat
    = Some (with_shorthand Scenario.email_and_properties
              Scenario.old_email_and_lastname).
Proof.
  apply (proj2 (create_contact_writes_properties (lib := Scenario.ok)
                  Scenario.server)
           0%nat Scenario.email_and_properties 1%nat
           Scenario.old_email_and_lastname
           (Scenario.holding2 Scenario.email_and_properties
              Scenario.old_email_and_lastname)).
  - reflexivity.
  - reflexivity.
  - reflexivity.
  - lia.
Defined.

(** The caller's properties object before and after a create_contact call
    with the shorthand email: the call has changed it. *)
Lemma create_contact_changes_properties :
  objs (Scenario.holding2 Scenario.email_and_properties
          Scenario.old_email_and_lastname) !! 1%nat
  = Some [("email", VStr "old@b.com"); ("lastname", VStr "Y")] /\
  objs (fst (handle_tool_call (lib := Scenario.ok) Scenario.server
               "create_contact" 0%nat
               (Scenario.holding2 Scenario.email_and_properties
                  Scenario.old_email_and_lastname))) !! 1%nat
  = Some [("email", VStr "a@b.com"); ("lastname", VStr "Y")].
Proof. split; reflexivity. Qed.

(** A search call with a limit entry: the body carries it. *)
Lemma search_limit_undeclared_witness :
  exists w' res r h groups,
    handle_tool_call (lib := Scenario.ok) Scenario.server "search" 0%nat
      (Scenario.holding Scenario.search_by_email) = (w', res) /\
    sent_by (Scenario.holding Scenario.search_by_email) w' r h /\
    body_of r h = Some (JObj [("filterGroups", groups); ("limit", JInt 10)]).
Proof.
  apply (proj2 (proj2 (search_limit_undeclared (lib := Scenario.ok)
                         Scenario.server))
           0%nat Scenario.search_by_email
           (Scenario.holding Scenario.search_by_email)
           "contacts" (VStr "email") (VStr "a@b.com")
           (JStr "email") (JStr "EQ") (JStr "a@b.com") (JInt 10));
    reflexivity.
Defined.

(** ** The further properties at concrete inputs *)

(** update_contact with a contact_id and no properties: the error names
    properties, and nothing is sent. *)
Lemma missing_key_envelope_witness :
  first_missing (required update_contact_parameters) Scenario.contact_123
  = Some "properties" /\
  handle_tool_call (lib := Scenario.ok) Scenario.server "update_contact"
    0%nat (Scenario.holding Scenario.contact_123)
  = ({| objs := [Scenario.contact_123;
                 [("success", VBool false);
                  ("error", VStr "'properties'")]];
        calls := [] |},
     Ok (VDict 1%nat)).
Proof.
  split; [reflexivity|].
  apply (missing_key_envelope (lib := Scenario.ok) Scenario.server
           "update_contact" Scenario.update_contact_tool 0%nat
           (Scenario.holding Scenario.contact_123) "properties");
    [reflexivity | discriminate | discriminate | reflexivity].
Defined.

(** get_contact against a remote API that cannot be reached, and against
    one that answers with a page that is not JSON. *)
Lemma failure_below_handler_witness :
  (exists v,
      snd (handle_tool_call (lib := Scenario.unreachable) Scenario.server
             "get_contact" 0%nat (Scenario.holding Scenario.contact_123))
      = Ok v /\
      failure_envelope
        (objs (fst (handle_tool_call (lib := Scenario.unreachable)
                      Scenario.server "get_contact" 0%nat
                      (Scenario.holding Scenario.contact_123))))
        v "All connection attempts failed") /\
  (exists v,
      snd (handle_tool_call (lib := Scenario.not_json) Scenario.server
             "get_contact" 0%nat (Scenario.holding Scenario.contact_123))
      = Ok v /\
      failure_envelope
        (objs (fst (handle_tool_call (lib := Scenario.not_json)
                      Scenario.server "get_contact" 0%nat
                      (Scenario.holding Scenario.contact_123))))
        v "Expecting value: line 1 column 1 (char 0)").
Proof.
  split.
  - exact (failure_below_handler (lib := Scenario.unreachable)
             Scenario.server "get_contact" 0%nat
             (Scenario.holding Scenario.contact_123) _ _
             Scenario.get_contact_123 [Scenario.contact_123]
             eq_refl eq_refl eq_refl).
  - exact (failure_below_handler (lib := Scenario.not_json)
             Scenario.server "get_contact" 0%nat
             (Scenario.holding Scenario.contact_123) _ _
             Scenario.get_contact_123 [Scenario.contact_123]
             eq_refl eq_refl eq_refl eq_refl eq_refl
             "Expecting value: line 1 column 1 (char 0)" eq_refl).
Defined.

(** [create_deal] with the properties of one deal. *)
Lemma create_operations_witness :
  json_dumps [Scenario.deal] (VDict 0%nat)
  = Some (JObj [("dealname", JStr "Big")]) /\
  sends (lib := Scenario.ok)
    (create_deal (lib := Scenario.ok) (client Scenario.server) (VDict 0%nat))
    (Scenario.holding Scenario.deal)
    "POST" "https://api.hubapi.com/crm/v3/objects/deals"
    (fun r h =>
       body_of r h
       = Some (properties_body (JObj [("dealname", JStr "Big")])) /\
       (forall k, k <> "hapikey" ->
                  dict_get (query_of (req_params r) h) k = None) /\
       (forall l, (l < 1)%nat -> h !! l = [Scenario.deal] !! l)) /\
  (forall l, (l < 1)%nat ->
             objs (fst (create_deal (lib := Scenario.ok)
                          (client Scenario.server) (VDict 0%nat)
                          (Scenario.holding Scenario.deal))) !! l
             = [Scenario.deal] !! l).
Proof.
  split; [reflexivity|].
  apply (proj2 (proj2 (create_operations (lib := Scenario.ok)))
           (client Scenario.server) (VDict 0%nat)
           (Scenario.holding Scenario.deal)
           (JObj [("dealname", JStr "Big")])).
  reflexivity.
Defined.

(** [update_company] on company 42. *)
Lemma update_operations_witness :
  sends (lib := Scenario.ok)
    (update_company (lib := Scenario.ok) (client Scenario.server)
       (VInt 42) (VDict 0%nat))
    (Scenario.holding Scenario.name_only)
    "PATCH" "https://api.hubapi.com/crm/v3/objects/companies/42"
    (fun r h =>
       body_of r h
       = Some (properties_body (JObj [("name", JStr "Acme")])) /\
       (forall k, k <> "hapikey" ->
                  dict_get (query_of (req_params r) h) k = None) /\
       (forall l, (l < 1)%nat -> h !! l = [Scenario.name_only] !! l)).
Proof.
  apply (proj2 (update_operations (lib := Scenario.ok))
           (client Scenario.server) (VInt 42) (VDict 0%nat)
           (Scenario.holding Scenario.name_only)
           (JObj [("name", JStr "Acme")])).
  reflexivity.
Defined.

(** [get_deals] with a limit of 5 and two property names. *)
Lemma list_operations_witness :
  sends (lib := Scenario.ok)
    (get_deals (lib := Scenario.ok) (client Scenario.server) (VInt 5)
       (VList [VStr "dealname"; VStr "amount"]))
    (Scenario.holding [])
    "GET" "https://api.hubapi.com/crm/v3/objects/deals"
    (fun r h =>
       req_json r = None /\
       dict_get (query_of (req_params r) h) "limit" = Some (VInt 5) /\
       dict_get (query_of (req_params r) h) "properties"
       = Some (VStr "dealname,amount") /\
       (forall k, k <> "limit" -> k <> "properties" -> k <> "hapikey" ->
                  dict_get (query_of (req_params r) h) k = None) /\
       (forall l, (l < 1)%nat -> h !! l = [[]] !! l)).
Proof.
  apply (proj2 (proj2 (list_operations (lib := Scenario.ok)))
           (client Scenario.server) (VInt 5)
           (VList [VStr "dealname"; VStr "amount"])
           ["dealname"; "amount"] (Scenario.holding [])).
  right. reflexivity.
Defined.

(** list_contacts with two property names and no limit. *)
Lemma list_tools_query_witness :
  tool_sends (lib := Scenario.ok) Scenario.server "list_contacts" 0%nat
    (Scenario.holding Scenario.two_names)
    "GET" "https://api.hubapi.com/crm/v3/objects/contacts"
    (list_tool_query (VInt 100) ["email"; "firstname"]).
Proof.
  apply (proj2 (proj2 (list_tools_query (lib := Scenario.ok)
                         Scenario.server 0%nat
                         (Scenario.holding Scenario.two_names)))
           ["email"; "firstname"]).
  right. reflexivity.
Defined.

(** create_company with a name alone, and with a name and a properties
    object that has another name. *)
Lemma create_company_merges_name_witness :
  (exists w' res r h lb lp,
      handle_tool_call (lib := Scenario.ok) Scenario.server "create_company"
        0%nat (Scenario.holding Scenario.name_only) = (w', res) /\
      sent_by (Scenario.holding Scenario.name_only) w' r h /\
      req_method r = "POST" /\
      req_url r = "https://api.hubapi.com/crm/v3/objects/companies" /\
      req_json r = Some lb /\
      h !! lb = Some [("properties", VDict lp)] /\
      h !! lp = Some [("name", VStr "Acme")] /\
      (forall l, (l < 1)%nat -> h !! l = [Scenario.name_only] !! l) /\
      (forall l, (l < 1)%nat ->
                 objs w' !! l = [Scenario.name_only] !! l)) /\
  (exists w' res r h lb,
      handle_tool_call (lib := Scenario.ok) Scenario.server "create_company"
        0%nat
        (Scenario.holding2 Scenario.name_and_properties
           Scenario.old_name_and_domain) = (w', res) /\
      sent_by (Scenario.holding2 Scenario.name_and_properties
                 Scenario.old_name_and_domain) w' r h /\
      req_method r = "POST" /\
      req_url r = "https://api.hubapi.com/crm/v3/objects/companies" /\
      req_json r = Some lb /\
      h !! lb = Some [("properties", VDict 1%nat)] /\
      h !! 1%nat = Some [("name", VStr "Acme");
                         ("domain", VStr "acme.com")] /\
      (forall l, (l < 2)%nat -> l <> 1%nat ->
                 h !! l = [Scenario.name_and_properties;
                           Scenario.old_name_and_domain] !! l) /\
      objs w' !! 1%nat = Some [("name", VStr "Acme");
                               ("domain", VStr "acme.com")] /\
      objs w' !! 0%nat = Some Scenario.name_and_properties /\
      (forall l, (l < 2)%nat -> l <> 1%nat ->
                 objs w' !! l = [Scenario.name_and_properties;
                                 Scenario.old_name_and_domain] !! l)).
Proof.
  split.
  - apply (proj1 (create_company_merges_name (lib := Scenario.ok)
                    Scenario.server)
             0%nat Scenario.name_only
             (Scenario.holding Scenario.name_only));
      reflexivity.
  - apply (proj2 (create_company_merges_name (lib := Scenario.ok)
                    Scenario.server)
             0%nat Scenario.name_and_properties 1%nat
             Scenario.old_name_and_domain
             (Scenario.holding2 Scenario.name_and_properties
                Scenario.old_name_and_domain));
      [reflexivity | reflexivity | reflexivity | discriminate].
Defined.

(** create_contact with an email and a properties argument that is a
    string. *)
Lemma shorthand_on_bad_properties_witness :
  handle_tool_call (lib := Scenario.ok) Scenario.server "create_contact"
    0%nat (Scenario.holding Scenario.email_and_text)
  = ({| objs := [Scenario.email_and_text; [];
                 [("success", VBool false);
                  ("error",
                   VStr "'str' object does not support item assignment")]];
        calls := [] |},
     Ok (VDict 2%nat)).
Proof.
  refine (proj1 (shorthand_on_bad_properties (lib := Scenario.ok)
                   Scenario.server 0%nat Scenario.email_and_text
                   (VStr "oops") (Scenario.holding Scenario.email_and_text)
                   eq_refl eq_refl _) eq_refl).
  intros l. discriminate.
Defined.

(** create_contact with only a properties argument that is a string. *)
Lemma bad_properties_forwarded_witness :
  tool_sends (lib := Scenario.ok) Scenario.server "create_contact" 0%nat
    (Scenario.holding Scenario.text_only)
    "POST" "https://api.hubapi.com/crm/v3/objects/contacts"
    (fun r h => body_of r h = Some (properties_body (JStr "oops"))).
Proof.
  refine (proj1 (bad_properties_forwarded (lib := Scenario.ok)
                   Scenario.server 0%nat Scenario.text_only
                   (VStr "oops") (Scenario.holding Scenario.text_only)
                   (JStr "oops") eq_refl eq_refl _ eq_refl) eq_refl).
  intros l. discriminate.
Defined.

(** update_contact leaves the caller's properties object as it is. *)
Lemma read_only_tools_witness :
  objs (fst (handle_tool_call (lib := Scenario.ok) Scenario.server
               "update_contact" 0%nat
               (Scenario.holding2 Scenario.id_and_properties
                  Scenario.new_email))) !! 1%nat
  = Some Scenario.new_email.
Proof.
  refine (read_only_tools (lib := Scenario.ok) Scenario.server
            "update_contact" 0%nat
            (Scenario.holding2 Scenario.id_and_properties
               Scenario.new_email) 1%nat eq_refl _ _ _);
    [discriminate | discriminate | cbn; lia].
Defined.

(** get_contact against a remote API that answers with a contact. *)
Lemma parsed_body_returned_witness :
  exists v,
    snd (handle_tool_call (lib := Scenario.found) Scenario.server
           "get_contact" 0%nat (Scenario.holding Scenario.contact_123))
    = Ok v /\
    json_dumps
      (objs (fst (handle_tool_call (lib := Scenario.found) Scenario.server
                    "get_contact" 0%nat
                    (Scenario.holding Scenario.contact_123)))) v
    = Some (JObj [("success", JBool true);
                  ("result", JObj [("id", JStr "123")])]).
Proof.
  exact (proj2 (parsed_body_returned (lib := Scenario.found)
                  Scenario.server)
           "get_contact" 0%nat (Scenario.holding Scenario.contact_123) _ _
           Scenario.get_contact_123 [Scenario.contact_123]
           {| status_code := 200; reason_phrase := "OK";
              text := Scenario.contact_text |}
           Scenario.contact_document
           eq_refl eq_refl eq_refl eq_refl eq_refl eq_refl eq_refl eq_refl).
Defined.

(** update_contact on contact 123 with one property. *)
Lemma id_tools_route_witness :
  tool_sends (lib := Scenario.ok) Scenario.server "update_contact" 0%nat
    (Scenario.holding2 Scenario.id_and_properties Scenario.new_email)
    "PATCH" "https://api.hubapi.com/crm/v3/objects/contacts/123"
    (fun r h =>
       body_of r h
       = Some (properties_body (JObj [("email", JStr "a@b.com")])) /\
       forall k, k <> "hapikey" ->
                 dict_get (query_of (req_params r) h) k = None).
Proof.
  apply (proj2 (proj2 (id_tools_route (lib := Scenario.ok) Scenario.server
                         0%nat
                         (Scenario.holding2 Scenario.id_and_properties
                            Scenario.new_email)))
           (VInt 123) (VDict 1%nat) (JObj [("email", JStr "a@b.com")]));
    reflexivity.
Defined.

(** list_contacts with the property names given as one string, and with
    a number among them. *)
Lemma list_contacts_other_properties_witness :
  tool_sends (lib := Scenario.ok) Scenario.server "list_contacts" 0%nat
    (Scenario.holding Scenario.names_as_text)
    "GET" "https://api.hubapi.com/crm/v3/objects/contacts"
    (fun r h =>
       dict_get (query_of (req_params r) h) "properties"
       = Some (VStr "e,m,a,i,l")) /\
  handle_tool_call (lib := Scenario.ok) Scenario.server "list_contacts"
    0%nat (Scenario.holding Scenario.names_with_number)
  = ({| objs := [Scenario.names_with_number; [("limit", VInt 100)];
                 [("success", VBool false);
                  ("error",
                   VStr ("sequence item 1: expected str instance, "
                         ++ "int found"))]];
        calls := [] |},
     Ok (VDict 2%nat)).
Proof.
  split.
  - apply (proj1 (list_contacts_other_properties (lib := Scenario.ok)
                    Scenario.server 0%nat
                    (Scenario.holding Scenario.names_as_text))
             "email"); [reflexivity | discriminate].
  - apply (proj2 (list_contacts_other_properties (lib := Scenario.ok)
                    Scenario.server 0%nat
                    (Scenario.holding Scenario.names_with_number))
             ["email"] (VInt 5) []); [reflexivity | discriminate].
Defined.

(** * The repository's tests, on the model *)

(** [test_headers_with_access_token] *)
Example test_headers_with_access_token :
  dict_get (headers (HubSpotClient_init Scenario.with_token)) "Authorization"
  = Some "Bearer test_token".
Proof. reflexivity. Qed.

(** [test_headers_with_api_key] *)
Example test_headers_with_api_key :
  dict_get (headers (HubSpotClient_init Scenario.with_key)) "Authorization"
  = Some "Bearer test_key".
Proof. reflexivity. Qed.

(** With both credentials the token is the one in the header. *)
Example headers_with_both :
  headers (HubSpotClient_init Scenario.with_both)
  = [("Content-Type", "application/json");
     ("Authorization", "Bearer test_token")].
Proof. reflexivity. Qed.

(** The settings are tested by truth value: an access token that is the
    empty string counts as not set, and the key is used. *)
Example headers_with_empty_token :
  headers (HubSpotClient_init
             {| api_key := Some "test_key"; access_token := Some EmptyString;
                api_base_url := "https://api.hubapi.com" |})
  = [("Content-Type", "application/json");
     ("Authorization", "Bearer test_key")].
Proof. reflexivity. Qed.

(** [test_client_initialization] *)
Example test_client_initialization :
  base_url (HubSpotClient_init Scenario.with_key) = "https://api.hubapi.com" /\
  dict_has (headers (HubSpotClient_init Scenario.with_key)) "Content-Type"
  = true.
Proof. split; reflexivity. Qed.

(** [test_server_initialization]: the nine tools, in registration order. *)
Example test_register_tools :
  map fst (tools (lib := Scenario.ok) Scenario.server)
  = ["list_contacts"; "get_contact"; "create_contact"; "update_contact";
     "list_companies"; "get_company"; "create_company"; "list_deals";
     "search"].
Proof. reflexivity. Qed.

(** [test_tool_parameters] *)
Example test_tool_parameters :
  required create_contact_parameters = ["email"] /\
  declared create_contact_parameters
  = ["email"; "firstname"; "lastname"; "properties"] /\
  declared search_parameters = ["object_type"; "property"; "value"; "operator"].
Proof. repeat split; reflexivity. Qed.

(** [test_get_contacts_success]: [get_contacts(limit=10)] sends a GET to the
    contacts path with the limit as its only query parameter. *)
Example test_get_contacts :
  exists w' v r h l,
    get_contacts (lib := Scenario.ok) (client Scenario.server) (VInt 10) VNone
      (Scenario.holding []) = (w', Ok v) /\
    calls w' = [(r, h)] /\
    req_method r = "GET" /\
    req_url r = "https://api.hubapi.com/crm/v3/objects/contacts" /\
    req_params r = Some l /\
    h !! l = Some [("limit", VInt 10)].
Proof. do 5 eexists. repeat split; reflexivity. Qed.

(** With an API key only, the same call carries the key as hapikey. *)
Example get_contacts_with_key :
  exists w' v r h l,
    get_contacts (lib := Scenario.ok)
      (HubSpotClient_init Scenario.with_key) (VInt 10) VNone
      (Scenario.holding []) = (w', Ok v) /\
    calls w' = [(r, h)] /\
    req_params r = Some l /\
    h !! l = Some [("limit", VInt 10); ("hapikey", VStr "test_key")].
Proof. do 5 eexists. repeat split; reflexivity. Qed.

(** [test_handle_tool_call_error]: a failure below the handler comes back
    as the failure envelope with its message. *)
Example test_handle_tool_call_error :
  exists w' v,
    handle_tool_call (lib := Scenario.answering (Failure "API Error"))
      Scenario.server "list_contacts" 0%nat
      (Scenario.holding [("limit", VInt 10)]) = (w', Ok v) /\
    failure_envelope (objs w') v "API Error".
Proof.
  do 2 eexists. split; [reflexivity|].
  eexists. split; reflexivity.
Qed.
